(** * Download monitor with advanced duplicate detection (newdetect.py)

    A shallow embedding of the file-stability wait, the admission filter,
    the filename-similarity test, the per-modality similarity scans over the
    fingerprint database and the decision engine of [EnhancedDownloadHandler],
    followed by the properties the specification states about them.

    Conventions.
    - Python [str] values are [string]s of 8-bit characters; [lower], [strip],
      [\s] and [\d] are the ASCII ones.
    - A Python [float] score is a rational ([Q]) or [float('inf')].
      [1.0 - d / 64.0] is exact in binary64 for every integer [d] between 0
      and 64, so nothing is lost for the image and video scores; the scores
      of difflib and ssdeep enter as values supplied by the [world].
    - The audio features are float32 arrays and numpy computes on them in
      float32: see [F32].
    - Everything the program reads from outside (the file system, the decoding
      libraries) is a field of the [world] record; the program's own mutable
      objects form the [state] record. *)

From Stdlib Require Import ZArith QArith Lia Lqa List String Ascii Bool.
From Stdlib Require Import Sorting.Permutation.
From Stdlib Require SpecFloat.
From stdpp Require Import gmap strings.
Import ListNotations.

Local Open Scope string_scope.
Local Open Scope list_scope.
Local Open Scope Z_scope.

(** ** Python string primitives *)

Module Py.

Definition ascii_in (lo hi : N) (c : ascii) : bool :=
  let n := N_of_ascii c in (N.leb lo n && N.leb n hi)%bool.

(** [str.isspace] on the ASCII range: TAB..CR, FS..US and the space. *)
Definition is_space (c : ascii) : bool :=
  (ascii_in 9 13 c || ascii_in 28 32 c)%bool.

Definition is_digit (c : ascii) : bool := ascii_in 48 57 c.

Definition lower_ascii (c : ascii) : ascii :=
  if ascii_in 65 90 c then ascii_of_N (N_of_ascii c + 32) else c.

(** [s.lower()] *)
Fixpoint lower (s : string) : string :=
  match s with
  | EmptyString => EmptyString
  | String c s' => String (lower_ascii c) (lower s')
  end.

Fixpoint lstrip (s : string) : string :=
  match s with
  | String c s' => if is_space c then lstrip s' else s
  | EmptyString => EmptyString
  end.

Fixpoint rstrip (s : string) : string :=
  match s with
  | String c s' =>
      match rstrip s' with
      | EmptyString => if is_space c then EmptyString else String c EmptyString
      | r => String c r
      end
  | EmptyString => EmptyString
  end.

(** [s.strip()] *)
Definition strip (s : string) : string := rstrip (lstrip s).

(** [len(s)] *)
Definition len (s : string) : Z := Z.of_nat (String.length s).

(** [s.rfind(c)] for a one-character needle: the highest index, or -1. *)
Fixpoint rfind_from (c : ascii) (s : string) (i : Z) (found : Z) : Z :=
  match s with
  | EmptyString => found
  | String d s' => rfind_from c s' (i + 1) (if Ascii.eqb d c then i else found)
  end.

Definition rfind (c : ascii) (s : string) : Z := rfind_from c s 0 (-1).

(** [s[i:j]] for [0 <= i <= j]. *)
Definition slice (s : string) (i j : Z) : string :=
  String.substring (Z.to_nat i) (Z.to_nat (j - i)) s.

(** Truthiness of an [Optional[str]]: [None] and the empty string are false. *)
Definition truthy (o : option string) : bool :=
  match o with
  | Some (String _ _) => true
  | _ => false
  end.

End Py.

(** ** os.path

    The monitored directory is a Windows one, so [os.path] is [ntpath]:
    separator [\], alternative separator [/].  [basename] is given for
    paths without a drive-relative prefix, which is what the watcher
    delivers. *)

Module OsPath.

Definition sep : ascii := "\"%char.
Definition altsep : ascii := "/"%char.
Definition extsep : ascii := "."%char.

Definition last_sep (p : string) : Z :=
  Z.max (Py.rfind sep p) (Py.rfind altsep p).

(** The [while filenameIndex < dotIndex] loop of [genericpath._splitext]:
    is there a character other than the dot among the [n] characters
    starting at [filenameIndex]? *)
Fixpoint has_non_dot (p : string) (filenameIndex : Z) (n : nat) : bool :=
  match n with
  | O => false
  | S n' =>
      match String.get (Z.to_nat filenameIndex) p with
      | Some c =>
          if Ascii.eqb c extsep then has_non_dot p (filenameIndex + 1) n'
          else true
      | None => true
      end
  end.

(** [os.path.splitext(p)] *)
Definition splitext (p : string) : string * string :=
  let sepIndex := last_sep p in
  let dotIndex := Py.rfind extsep p in
  if ((sepIndex <? dotIndex)%Z
      && has_non_dot p (sepIndex + 1) (Z.to_nat (dotIndex - (sepIndex + 1))))%bool
  then (Py.slice p 0 dotIndex, Py.slice p dotIndex (Py.len p))
  else (p, EmptyString).

(** [os.path.basename(p)] *)
Definition basename (p : string) : string :=
  Py.slice p (last_sep p + 1) (Py.len p).

(** [os.path.join(d, name)] for a relative [name]. *)
Definition join (d name : string) : string :=
  match d with
  | EmptyString => name
  | _ =>
      match String.get (Nat.pred (String.length d)) d with
      | Some c =>
          if (Ascii.eqb c sep || Ascii.eqb c altsep)%bool
          then String.append d name
          else String.append d (String sep name)
      | None => String.append d (String sep name)
      end
  end.

End OsPath.

(** ** The fragment of [re] the program uses

    Every pattern of the source is a sequence of single characters, the
    classes [\s] and [\d], the repetitions [*] and [+] of one of those, and
    the anchors [^] and [$].  Patterns are kept as the source writes them and
    compiled by [re_compile]. *)

Module Re.

Inductive atom : Type :=
| AChar (c : ascii)
| ASpace
| ADigit
| AAny.

Inductive item : Type :=
| One (a : atom)
| Many0 (a : atom)
| Many1 (a : atom)
| Bol
| Eol.

Definition pattern := list item.

Definition newline : ascii := ascii_of_N 10.

Definition quantify (a : atom) (rest : string) : item * string :=
  match rest with
  | String "*" r => (Many0 a, r)
  | String "+" r => (Many1 a, r)
  | _ => (One a, rest)
  end.

(** One step of the pattern reader: the first item of [s] and what is
    left.  [None] on syntax outside the fragment. *)
Definition read_item (s : string) : option (item * string) :=
  match s with
  | EmptyString => None
  | String "^" r => Some (Bol, r)
  | String "$" r => Some (Eol, r)
  | String "\" (String "s" r) => Some (quantify ASpace r)
  | String "\" (String "d" r) => Some (quantify ADigit r)
  | String "\" (String c r) =>
      if (Py.ascii_in 48 57 c || Py.ascii_in 65 90 c || Py.ascii_in 97 122 c)%bool
      then None
      else Some (quantify (AChar c) r)
  | String "\" EmptyString => None
  | String "." r => Some (quantify AAny r)
  | String c r =>
      if existsb (Ascii.eqb c) (list_ascii_of_string "*+?()[]{}|")
      then None
      else Some (quantify (AChar c) r)
  end.

Fixpoint read_items (fuel : nat) (s : string) : option pattern :=
  match s with
  | EmptyString => Some []
  | _ =>
      match fuel with
      | O => None
      | S fuel' =>
          match read_item s with
          | Some (it, r) => option_map (cons it) (read_items fuel' r)
          | None => None
          end
      end
  end.

(** [re.compile(src)]; the empty pattern stands for a source outside the
    fragment (no pattern of the program is). *)
Definition re_compile (src : string) : pattern :=
  match read_items (String.length src) src with
  | Some p => p
  | None => []
  end.

Definition atom_test (ignorecase : bool) (a : atom) (c : ascii) : bool :=
  match a with
  | AChar d =>
      if ignorecase then Ascii.eqb (Py.lower_ascii c) (Py.lower_ascii d)
      else Ascii.eqb c d
  | ASpace => Py.is_space c
  | ADigit => Py.is_digit c
  | AAny => negb (Ascii.eqb c newline)
  end.

(** Greedy repetition with backtracking: take the longest run first and
    give characters back until the continuation [k] succeeds. *)
Fixpoint many (test : ascii -> bool) (k : bool -> string -> option nat)
         (bol : bool) (s : string) : option nat :=
  match s with
  | String c s' =>
      if test c then
        match many test k false s' with
        | Some n => Some (S n)
        | None => k bol s
        end
      else k bol s
  | EmptyString => k bol s
  end.

(** [match_here ic p bol s]: the length of the match of [p] at the start
    of [s], if there is one; [bol] says whether [s] starts the subject. *)
Fixpoint match_here (ic : bool) (p : pattern) (bol : bool) (s : string)
  : option nat :=
  match p with
  | [] => Some O
  | One a :: p' =>
      match s with
      | String c s' =>
          if atom_test ic a c then option_map S (match_here ic p' false s')
          else None
      | EmptyString => None
      end
  | Many0 a :: p' => many (atom_test ic a) (match_here ic p') bol s
  | Many1 a :: p' =>
      match s with
      | String c s' =>
          if atom_test ic a c
          then option_map S (many (atom_test ic a) (match_here ic p') false s')
          else None
      | EmptyString => None
      end
  | Bol :: p' => if bol then match_here ic p' bol s else None
  | Eol :: p' =>
      match s with
      | EmptyString => match_here ic p' bol s
      | String c EmptyString =>
          if Ascii.eqb c newline then match_here ic p' bol s else None
      | _ => None
      end
  end.

Fixpoint search_from (ic : bool) (p : pattern) (bol : bool) (s : string)
  : bool :=
  match match_here ic p bol s with
  | Some _ => true
  | None =>
      match s with
      | String _ s' => search_from ic p false s'
      | EmptyString => false
      end
  end.

(** [re.search(p, s)] and [re.search(p, s, re.IGNORECASE)], as a truth
    value. *)
Definition search (p : pattern) (s : string) : bool :=
  search_from false p true s.
Definition search_ignorecase (p : pattern) (s : string) : bool :=
  search_from true p true s.

(** [re.sub(p, '', s)]: the leftmost matches are cut out, scanning left to
    right; [skip] counts the characters of the current match still to be
    dropped.  An empty match removes nothing. *)
Fixpoint sub_from (p : pattern) (skip : nat) (bol : bool) (s : string)
  : string :=
  match s with
  | EmptyString => EmptyString
  | String c s' =>
      match skip with
      | S n => sub_from p n false s'
      | O =>
          match match_here false p bol s with
          | Some (S n) => sub_from p n false s'
          | _ => String c (sub_from p O false s')
          end
      end
  end.

Definition sub_empty (p : pattern) (s : string) : string :=
  sub_from p O true s.

End Re.

(** ** Configuration *)

Definition DOWNLOAD_DIR : string := "C:\Users\Manoj\Downloads".

(** [SIMILARITY_THRESHOLDS] *)
Module SIMILARITY_THRESHOLDS.
Definition image_hash : Z := 10.
Definition audio_similarity : Q := 85 # 100.
Definition text_similarity : Q := 85 # 100.
Definition video_similarity : Q := 8 # 10.
Definition fuzzy_similarity : Z := 80.
End SIMILARITY_THRESHOLDS.

Definition IMAGE_EXTENSIONS : gset string :=
  list_to_set [".jpg"; ".jpeg"; ".png"; ".gif"; ".bmp"; ".tiff"; ".webp"; ".ico"; ".svg"].
Definition AUDIO_EXTENSIONS : gset string :=
  list_to_set [".mp3"; ".wav"; ".flac"; ".aac"; ".ogg"; ".m4a"; ".wma"].
Definition VIDEO_EXTENSIONS : gset string :=
  list_to_set [".mp4"; ".avi"; ".mov"; ".wmv"; ".flv"; ".mkv"; ".webm"; ".m4v"].
Definition DOCUMENT_EXTENSIONS : gset string :=
  list_to_set [".pdf"; ".doc"; ".docx"; ".txt"; ".rtf"; ".odt"].

Definition SUPPORTED_FILE_TYPES : gset string :=
  IMAGE_EXTENSIONS ∪ AUDIO_EXTENSIONS ∪ VIDEO_EXTENSIONS ∪ DOCUMENT_EXTENSIONS
  ∪ list_to_set [".xls"; ".xlsx"; ".ppt"; ".pptx"; ".zip"; ".rar"; ".7z"; ".tar"; ".gz"].

Definition MIN_FILE_SIZE : Z := 1024.
Definition MAX_FILE_SIZE : Z := 500 * 1024 * 1024.

Definition IGNORED_EXTENSIONS : gset string :=
  list_to_set [".tmp"; ".temp"; ".crdownload"; ".part"; ".download"; ".partial"].
Definition IGNORED_NAME_PATTERNS : list string := ["^~\$"; "^\."; "Thumbs\.db$"].
Definition EXCLUDED_PATTERNS : list string :=
  ["^desktop\.ini$"; "^folder\.jpg$"; "^thumbs\.db$"].

(** [x in S] for a Python set. *)
Definition in_set (x : string) (S : gset string) : bool := bool_decide (x ∈ S).

(** ** The outside world

    One snapshot of what the program can observe: the directory contents
    and the outcome of every call into a decoding or comparison library. *)

Record file_info : Type := {
  is_file : bool;               (* os.path.isfile *)
  file_size : Z;                (* os.path.getsize *)
  modification_time : Q;        (* os.path.getmtime *)
  md5_hexdigest : option string (* calculate_hash; None when reading fails *)
}.

(** The four hashes of [calculate_image_hashes]; an [imagehash] value of
    the default size is a 64-bit word. *)
Record image_hashes_t : Type := {
  perceptual_hash : Z;
  average_hash : Z;
  difference_hash : Z;
  wavelet_hash : Z
}.

(** numpy's float32.  A float32 is a binary floating-point number of
    precision 24 with exponents below 128, an infinity or nan.  The sum,
    the product and the quotient of two float32 scalars are the correctly
    rounded ones (to nearest, ties to even); a division by zero gives an
    infinity or nan and does not raise. *)
Module F32.

Import SpecFloat.

Definition t : Type := spec_float.

Definition prec : Z := 24.
Definition emax : Z := 128.

Definition add : t -> t -> t := SFadd prec emax.
Definition mul : t -> t -> t := SFmul prec emax.
Definition div : t -> t -> t := SFdiv prec emax.
Definition sqrt : t -> t := SFsqrt prec emax.

(** The float32 nearest to an integer. *)
Definition of_Z (z : Z) : t := binary_normalize prec emax z 0 false.

(** The number a finite float32 stands for. *)
Definition finite_value (s : bool) (m : positive) (e : Z) : Q :=
  let magnitude :=
    match e with
    | Z0 => Zpos m # 1
    | Zpos p => (Zpos m * 2 ^ Zpos p) # 1
    | Zneg p => Zpos m # (2 ^ p)
    end in
  if s then (- magnitude)%Q else magnitude.

(** [x >= threshold] for a Python float [threshold]: true of positive
    infinity, false of nan.  numpy compares either in float64 or, after
    rounding the threshold, in float32; for the threshold 0.85 both agree
    with the comparison of the exact values, since no float32 lies between
    0.85 and its nearest float64 or float32. *)
Definition at_least (threshold : Q) (x : t) : bool :=
  match x with
  | S754_zero _ => Qle_bool threshold 0
  | S754_finite s m e => Qle_bool threshold (finite_value s m e)
  | S754_infinity s => negb s
  | S754_nan => false
  end.

End F32.

(** The dictionary of [calculate_audio_fingerprint]; the two feature
    arrays are given as the float32 numbers [np.frombuffer] reads back
    from the stored bytes. *)
Record audio_fingerprint_t : Type := {
  spectral_centroid : list F32.t;
  mfcc_features : list F32.t;
  tempo : Q;
  duration : Q
}.

(** The dictionary of [calculate_video_thumbnail_hash]. *)
Record video_data_t : Type := {
  thumbnail_hash : Z;
  video_duration : Q;
  resolution : string
}.

Record world : Type := {
  fs : string -> option file_info;
  PIL_AVAILABLE : bool;
  LIBROSA_AVAILABLE : bool;
  CV2_AVAILABLE : bool;
  SSDEEP_AVAILABLE : bool;
  PYMUPDF_AVAILABLE : bool;
  DOCX_AVAILABLE : bool;
  (* the guarded bodies; None is a raised exception (or a frame that
     could not be read) *)
  pil_image_hashes : string -> option image_hashes_t;
  librosa_fingerprint : string -> option audio_fingerprint_t;
  fitz_text : string -> option string;
  docx_text : string -> option string;
  read_text : string -> option string;
  cv2_thumbnail : string -> option video_data_t;
  ssdeep_hash_from_file : string -> option string;
  (* hashlib.md5(text.encode('utf-8')).hexdigest() *)
  md5_of_text : string -> string;
  (* comparison libraries *)
  ssdeep_compare : string -> string -> Z;
  sequence_matcher_ratio : string -> string -> Q;
  (* np.dot and np.linalg.norm on one-dimensional float32 arrays: the
     order of the additions is the linear algebra library's *)
  np_dot : list F32.t -> list F32.t -> F32.t;
  np_linalg_norm : list F32.t -> F32.t;
  (* the modal of show_enhanced_modal_alert for a duplicate file and an
     original file: true when the user answers Yes and os.remove deletes
     the duplicate file *)
  modal_deletes : string -> string -> bool
}.

Section WithWorld.

Variable w : world.

(** [os.path.exists] *)
Definition path_exists (p : string) : bool :=
  match fs w p with Some _ => true | None => false end.

(** [os.path.isfile] *)
Definition path_isfile (p : string) : bool :=
  match fs w p with Some i => is_file i | None => false end.

(** [os.path.getsize]; [None] is the raised [OSError]. *)
Definition getsize (p : string) : option Z := option_map file_size (fs w p).

(** [os.path.getmtime] *)
Definition getmtime (p : string) : option Q :=
  option_map modification_time (fs w p).

(** [calculate_hash] *)
Definition calculate_hash (p : string) : option string :=
  match fs w p with Some i => md5_hexdigest i | None => None end.

End WithWorld.

(** ** Filename similarity *)

Definition duplicate_patterns : list string :=
  [ "\s*\(\d+\)";
    "\s*-\s*copy";
    "\s*_copy";
    "\s*-\s*v\d+\)";
    "\s*_v\d+\)";
    "\s*-\s*\d+";
    "\s*_\d+";
    "\s*-\s*duplicate";
    "\s*_duplicate";
    "\s+copy" ].

(** The body of [for pattern in duplicate_patterns], on one of the two
    names. *)
Definition clean_step (clean : string) (pattern : string) : string :=
  Py.strip (Re.sub_empty (Re.re_compile pattern) clean).

Definition clean_name (base : string) : string :=
  fold_left clean_step duplicate_patterns base.

Definition is_similar_filename (file1 file2 : string) : bool :=
  let '(name1, ext1) := OsPath.splitext file1 in
  let '(name2, ext2) := OsPath.splitext file2 in
  if negb (String.eqb (Py.lower ext1) (Py.lower ext2)) then false
  else
    let base1 := Py.strip (Py.lower name1) in
    let base2 := Py.strip (Py.lower name2) in
    if String.eqb base1 base2 then true
    else
      let clean1 := clean_name base1 in
      let clean2 := clean_name base2 in
      if (String.eqb clean1 clean2 && (0 <? Py.len clean1)%Z)%bool then true
      else false.

(** ** Admission filter *)

Definition should_process_file (w : world) (file_path : string) : bool :=
  if (negb (path_exists w file_path) || negb (path_isfile w file_path))%bool
  then false
  else
    let filename := OsPath.basename file_path in
    if existsb (fun pattern => Re.search_ignorecase (Re.re_compile pattern) filename)
               EXCLUDED_PATTERNS
    then false
    else
      let file_ext := Py.lower (snd (OsPath.splitext file_path)) in
      if in_set file_ext IGNORED_EXTENSIONS then false
      else if existsb (fun pattern => Re.search (Re.re_compile pattern) filename)
                      IGNORED_NAME_PATTERNS
      then false
      else if negb (in_set file_ext SUPPORTED_FILE_TYPES) then false
      else
        match getsize w file_path with
        | Some size =>
            if (size <? MIN_FILE_SIZE)%Z then false
            else if (MAX_FILE_SIZE <? size)%Z then false
            else true
        | None => false
        end.

(** ** Waiting for a file to stop changing *)

(** What one round of the loop can see of the file: it is gone
    ([os.path.exists] is false), it has a size, or reading the size raised. *)
Inductive observation : Type :=
| Gone
| Size (current_size : Z)
| Failed.

Record wait_state : Type := {
  stable_count : Z;
  wait_count : nat;
  last_size : Z
}.

(** One round of the [while] body; [None] is the early [return False]. *)
Definition wait_round (o : observation) (st : wait_state) : option wait_state :=
  match o with
  | Gone => None
  | Size current_size =>
      if ((current_size =? last_size st) && (0 <? current_size))%bool
      then Some {| stable_count := stable_count st + 1;
                   wait_count := S (wait_count st);
                   last_size := last_size st |}
      else Some {| stable_count := 0;
                   wait_count := S (wait_count st);
                   last_size := current_size |}
  | Failed =>
      Some {| stable_count := stable_count st;
              wait_count := S (wait_count st);
              last_size := last_size st |}
  end.

(** [while stable_count < 3 and wait_count < max_wait]; [remaining] is
    [max_wait - wait_count], the rounds the second test still allows, and
    the sample read in a round is the one numbered [wait_count].  The
    result is the returned truth value together with [wait_count] at the
    return. *)
Fixpoint wait_loop (samples : nat -> observation) (remaining : nat)
         (st : wait_state) : bool * nat :=
  match remaining with
  | O => (3 <=? stable_count st, wait_count st)
  | S remaining' =>
      if stable_count st <? 3 then
        match wait_round (samples (wait_count st)) st with
        | Some st' => wait_loop samples remaining' st'
        | None => (false, wait_count st)
        end
      else (3 <=? stable_count st, wait_count st)
  end.

Definition wait_for_stable_file_counted (samples : nat -> observation)
           (max_wait : nat) : bool * nat :=
  wait_loop samples max_wait
            {| stable_count := 0; wait_count := O; last_size := -1 |}.

Definition default_max_wait : nat := 30.

Definition wait_for_stable_file (samples : nat -> observation) : bool :=
  fst (wait_for_stable_file_counted samples default_max_wait).

(** ** The fingerprint database

    Each table has [file_path] as its primary key.  A table is the list of
    its rows in scan order; [INSERT OR REPLACE] drops the row with the same
    key and appends the new one. *)

Definition table (A : Type) : Type := list (string * A).

Definition other_than (file_path : string) {A : Type} (r : string * A) : bool :=
  negb (String.eqb (fst r) file_path).

Definition insert_or_replace {A : Type} (file_path : string) (v : A)
           (t : table A) : table A :=
  List.filter (other_than file_path) t ++ [(file_path, v)].

(** [SELECT ... WHERE file_path != ?] *)
Definition select_others {A : Type} (file_path : string) (t : table A)
  : table A :=
  List.filter (other_than file_path) t.

(** The columns every table shares, next to its own. *)
Record row (A : Type) : Type := {
  columns : A;
  row_file_size : Z;
  row_modification_time : Q
}.
Arguments columns {A} _.
Arguments row_file_size {A} _.
Arguments row_modification_time {A} _.

Record document_columns : Type := {
  content_hash : string;
  text_content : string;
  word_count : Z
}.

Record detector_db : Type := {
  cursor : bool;  (* false when init_database failed *)
  image_hashes : table (row image_hashes_t);
  audio_fingerprints : table (row audio_fingerprint_t);
  document_content : table (row document_columns);
  video_thumbnails : table (row video_data_t);
  fuzzy_hashes : table (row string)
}.

Definition set_image_hashes f (d : detector_db) : detector_db :=
  {| cursor := cursor d; image_hashes := f (image_hashes d);
     audio_fingerprints := audio_fingerprints d;
     document_content := document_content d;
     video_thumbnails := video_thumbnails d; fuzzy_hashes := fuzzy_hashes d |}.
Definition set_audio_fingerprints f (d : detector_db) : detector_db :=
  {| cursor := cursor d; image_hashes := image_hashes d;
     audio_fingerprints := f (audio_fingerprints d);
     document_content := document_content d;
     video_thumbnails := video_thumbnails d; fuzzy_hashes := fuzzy_hashes d |}.
Definition set_document_content f (d : detector_db) : detector_db :=
  {| cursor := cursor d; image_hashes := image_hashes d;
     audio_fingerprints := audio_fingerprints d;
     document_content := f (document_content d);
     video_thumbnails := video_thumbnails d; fuzzy_hashes := fuzzy_hashes d |}.
Definition set_video_thumbnails f (d : detector_db) : detector_db :=
  {| cursor := cursor d; image_hashes := image_hashes d;
     audio_fingerprints := audio_fingerprints d;
     document_content := document_content d;
     video_thumbnails := f (video_thumbnails d); fuzzy_hashes := fuzzy_hashes d |}.
Definition set_fuzzy_hashes f (d : detector_db) : detector_db :=
  {| cursor := cursor d; image_hashes := image_hashes d;
     audio_fingerprints := audio_fingerprints d;
     document_content := document_content d;
     video_thumbnails := video_thumbnails d; fuzzy_hashes := f (fuzzy_hashes d) |}.

(** ** Numeric helpers *)

Definition Qlt_bool (x y : Q) : bool := negb (Qle_bool y x).

(** Number of set bits among the low [n] bits. *)
Fixpoint count_bits (n : nat) (x : Z) : Z :=
  match n with
  | O => 0
  | S n' => Z.b2z (Z.testbit x (Z.of_nat n')) + count_bits n' x
  end.

(** [h1 - h2] on [imagehash] values: the number of differing bits. *)
Definition hash_difference (h1 h2 : Z) : Z := count_bits 64 (Z.lxor h1 h2).

(** A similarity score as the program holds it: a Python float that is a
    number, or [float('inf')]. *)
Inductive score : Type :=
| Num (q : Q)
| PosInf.

(** [x <= y] on scores *)
Definition score_le_bool (x y : score) : bool :=
  match x, y with
  | _, PosInf => true
  | PosInf, Num _ => false
  | Num a, Num b => Qle_bool a b
  end.

(** [s > threshold] *)
Definition above (threshold : Q) (s : score) : bool :=
  match s with
  | Num q => Qlt_bool threshold q
  | PosInf => true
  end.

(** [float(x)] for a float32 [x]; [None] for nan and negative infinity,
    which no score is. *)
Definition float_of_float32 (x : F32.t) : option score :=
  match x with
  | SpecFloat.S754_zero _ => Some (Num 0)
  | SpecFloat.S754_finite s m e => Some (Num (F32.finite_value s m e))
  | SpecFloat.S754_infinity false => Some PosInf
  | SpecFloat.S754_infinity true => None
  | SpecFloat.S754_nan => None
  end.

(** [sorted(similar_files, key=lambda x: x[1], reverse=True)]: by score,
    highest first, ties in their original order. *)
Fixpoint insert_by_score (x : string * score) (l : list (string * score))
  : list (string * score) :=
  match l with
  | [] => [x]
  | y :: l' =>
      if score_le_bool (snd y) (snd x) then x :: l else y :: insert_by_score x l'
  end.

Fixpoint sorted_by_score (l : list (string * score)) : list (string * score) :=
  match l with
  | [] => []
  | x :: l' => insert_by_score x (sorted_by_score l')
  end.

(** [len(content.split())] *)
Fixpoint count_words (in_word : bool) (s : string) : Z :=
  match s with
  | EmptyString => 0
  | String c s' =>
      if Py.is_space c then count_words false s'
      else if in_word then count_words true s'
      else 1 + count_words true s'
  end.

(** ** Fingerprint extraction and storage *)

Inductive modality : Type :=
| image_similarity
| audio_similarity
| document_similarity
| video_similarity
| fuzzy_similarity.

Section Detector.

Variable w : world.

Definition file_ext_of (file_path : string) : string :=
  Py.lower (snd (OsPath.splitext file_path)).

Definition calculate_image_hashes (file_path : string)
  : option image_hashes_t :=
  if negb (PIL_AVAILABLE w) then None else pil_image_hashes w file_path.

Definition calculate_audio_fingerprint (file_path : string)
  : option audio_fingerprint_t :=
  if negb (LIBROSA_AVAILABLE w) then None else librosa_fingerprint w file_path.

Definition extract_document_content (file_path : string) : option string :=
  let file_ext := file_ext_of file_path in
  if (String.eqb file_ext ".pdf" && PYMUPDF_AVAILABLE w)%bool
  then option_map Py.strip (fitz_text w file_path)
  else if (String.eqb file_ext ".docx" && DOCX_AVAILABLE w)%bool
  then option_map Py.strip (docx_text w file_path)
  else if String.eqb file_ext ".txt"
  then option_map Py.strip (read_text w file_path)
  else None.

(** The frame is hashed through [Image] and [imagehash]: without PIL the
    guarded body raises [NameError] and the result is [None]. *)
Definition calculate_video_thumbnail_hash (file_path : string)
  : option video_data_t :=
  if negb (CV2_AVAILABLE w) then None
  else if negb (PIL_AVAILABLE w) then None
  else cv2_thumbnail w file_path.

Definition calculate_fuzzy_hash (file_path : string) : option string :=
  if negb (SSDEEP_AVAILABLE w) then None else ssdeep_hash_from_file w file_path.

Definition mk_row {A : Type} (c : A) (size : Z) (mtime : Q) : row A :=
  {| columns := c; row_file_size := size; row_modification_time := mtime |}.

(** The [if / elif] chain of [store_fingerprints] over the file type. *)
Definition store_typed (file_path file_ext : string) (size : Z) (mtime : Q)
           (d : detector_db) : detector_db :=
  if in_set file_ext IMAGE_EXTENSIONS then
    match calculate_image_hashes file_path with
    | Some hashes =>
        set_image_hashes (insert_or_replace file_path (mk_row hashes size mtime)) d
    | None => d
    end
  else if in_set file_ext AUDIO_EXTENSIONS then
    match calculate_audio_fingerprint file_path with
    | Some fingerprint =>
        set_audio_fingerprints
          (insert_or_replace file_path (mk_row fingerprint size mtime)) d
    | None => d
    end
  else if in_set file_ext DOCUMENT_EXTENSIONS then
    match extract_document_content file_path with
    | Some (String c s as content) =>
        set_document_content
          (insert_or_replace file_path
             (mk_row {| content_hash := md5_of_text w content;
                        text_content := content;
                        word_count := count_words false content |}
                     size mtime)) d
    | _ => d
    end
  else if in_set file_ext VIDEO_EXTENSIONS then
    match calculate_video_thumbnail_hash file_path with
    | Some video_data =>
        set_video_thumbnails
          (insert_or_replace file_path (mk_row video_data size mtime)) d
    | None => d
    end
  else d.

(** The fuzzy hash, for every supported type. *)
Definition store_fuzzy (file_path file_ext : string) (size : Z) (mtime : Q)
           (d : detector_db) : detector_db :=
  if in_set file_ext SUPPORTED_FILE_TYPES then
    match calculate_fuzzy_hash file_path with
    | Some (String c s as fuzzy_hash) =>
        set_fuzzy_hashes
          (insert_or_replace file_path (mk_row fuzzy_hash size mtime)) d
    | _ => d
    end
  else d.

(** [store_fingerprints]; [None] is the exception of [os.path.getsize] or
    [os.path.getmtime], raised before anything is written. *)
Definition store_fingerprints (file_path : string) (d : detector_db)
  : option detector_db :=
  if negb (cursor d) then Some d
  else
    let file_ext := file_ext_of file_path in
    match getsize w file_path, getmtime w file_path with
    | Some size, Some mtime =>
        Some (store_fuzzy file_path file_ext size mtime
                (store_typed file_path file_ext size mtime d))
    | _, _ => None
    end.

(** ** Similarity scans *)

Definition similarity_of_difference (difference : Z) : Q :=
  (1 - inject_Z difference / 64)%Q.

(** The body of the loop over the stored perceptual hashes, shared by
    images and video thumbnails. *)
Definition hash_candidate (current_hash : Z) (stored_path : string)
           (stored_hash : Z) : list (string * score) :=
  if path_exists w stored_path then
    let difference := hash_difference current_hash stored_hash in
    if difference <=? SIMILARITY_THRESHOLDS.image_hash
    then [(stored_path, Num (similarity_of_difference difference))]
    else []
  else [].

Definition find_similar_images (d : detector_db) (file_path : string)
  : list (string * score) :=
  if (negb (cursor d) || negb (PIL_AVAILABLE w))%bool then []
  else
    match calculate_image_hashes file_path with
    | None => []
    | Some hashes =>
        let stored_hashes := select_others file_path (image_hashes d) in
        let current_hash := perceptual_hash hashes in
        sorted_by_score
          (flat_map (fun r => hash_candidate current_hash (fst r)
                                (perceptual_hash (columns (snd r))))
                    stored_hashes)
    end.

(** [np.dot(a, b) / (np.linalg.norm(a) * np.linalg.norm(b))], all in
    float32 *)
Definition cosine (a b : list F32.t) : F32.t :=
  F32.div (np_dot w a b) (F32.mul (np_linalg_norm w a) (np_linalg_norm w b)).

(** [(centroid_sim + mfcc_sim) / 2]: the sum is a float32 sum.  The
    halving is done in float32 or, by an older numpy, in float64; halving
    a float32 is exact unless the result is subnormal, so both give the
    same number whenever it is at least 0.85, and a number below 0.85
    otherwise. *)
Definition audio_similarity_of (current stored : audio_fingerprint_t) : F32.t :=
  let centroid_sim := cosine (spectral_centroid current) (spectral_centroid stored) in
  let mfcc_sim := cosine (mfcc_features current) (mfcc_features stored) in
  F32.div (F32.add centroid_sim mfcc_sim) (F32.of_Z 2).

Definition same_length (a b : list F32.t) : bool :=
  Nat.eqb (List.length a) (List.length b).

(** The body of the loop over the stored audio fingerprints; the score
    appended is [float(similarity)]. *)
Definition audio_candidate (current : audio_fingerprint_t)
           (stored_path : string) (stored : audio_fingerprint_t)
  : list (string * score) :=
  if path_exists w stored_path then
    if (same_length (spectral_centroid current) (spectral_centroid stored)
        && same_length (mfcc_features current) (mfcc_features stored))%bool
    then
      let similarity := audio_similarity_of current stored in
      if F32.at_least SIMILARITY_THRESHOLDS.audio_similarity similarity
      then
        match float_of_float32 similarity with
        | Some sc => [(stored_path, sc)]
        | None => []
        end
      else []
    else []
  else [].

Definition find_similar_audio (d : detector_db) (file_path : string)
  : list (string * score) :=
  if (negb (cursor d) || negb (LIBROSA_AVAILABLE w))%bool then []
  else
    match calculate_audio_fingerprint file_path with
    | None => []
    | Some fingerprint =>
        let stored_fingerprints :=
          select_others file_path (audio_fingerprints d) in
        sorted_by_score
          (flat_map (fun r => audio_candidate fingerprint (fst r) (columns (snd r)))
                    stored_fingerprints)
    end.

Definition document_candidate (content : string) (stored_path : string)
           (stored_content : string) : list (string * score) :=
  if (path_exists w stored_path && Py.truthy (Some stored_content))%bool then
    let similarity := sequence_matcher_ratio w content stored_content in
    if Qle_bool SIMILARITY_THRESHOLDS.text_similarity similarity
    then [(stored_path, Num similarity)]
    else []
  else [].

Definition find_similar_documents (d : detector_db) (file_path : string)
  : list (string * score) :=
  if negb (cursor d) then []
  else
    let content := extract_document_content file_path in
    match content with
    | Some text =>
        if (negb (Py.truthy content) || (Py.len (Py.strip text) <? 100))%bool
        then []
        else
          let stored_contents :=
            select_others file_path (document_content d) in
          sorted_by_score
            (flat_map (fun r => document_candidate text (fst r)
                                  (text_content (columns (snd r))))
                      stored_contents)
    | None => []
    end.

Definition find_similar_videos (d : detector_db) (file_path : string)
  : list (string * score) :=
  if (negb (cursor d) || negb (CV2_AVAILABLE w))%bool then []
  else
    match calculate_video_thumbnail_hash file_path with
    | None => []
    | Some video_data =>
        let stored_thumbnails :=
          select_others file_path (video_thumbnails d) in
        let current_hash := thumbnail_hash video_data in
        sorted_by_score
          (flat_map (fun r => hash_candidate current_hash (fst r)
                                (thumbnail_hash (columns (snd r))))
                    stored_thumbnails)
    end.

Definition fuzzy_candidate (fuzzy_hash : string) (stored_path : string)
           (stored_hash : string) : list (string * score) :=
  if path_exists w stored_path then
    let similarity := ssdeep_compare w fuzzy_hash stored_hash in
    if SIMILARITY_THRESHOLDS.fuzzy_similarity <=? similarity
    then [(stored_path, Num (inject_Z similarity / 100))]
    else []
  else [].

Definition find_fuzzy_similar (d : detector_db) (file_path : string)
  : list (string * score) :=
  if (negb (cursor d) || negb (SSDEEP_AVAILABLE w))%bool then []
  else
    match calculate_fuzzy_hash file_path with
    | Some (String c s as fuzzy_hash) =>
        let stored_hashes := select_others file_path (fuzzy_hashes d) in
        sorted_by_score
          (flat_map (fun r => fuzzy_candidate fuzzy_hash (fst r) (columns (snd r)))
                    stored_hashes)
    | _ => []
    end.

(** The [results] dictionary, in insertion order. *)
Definition similarity_results (d : detector_db) (file_path : string)
  : list (modality * list (string * score)) :=
  let file_ext := file_ext_of file_path in
  (if in_set file_ext IMAGE_EXTENSIONS
   then [(image_similarity, find_similar_images d file_path)] else [])
  ++ (if in_set file_ext AUDIO_EXTENSIONS
      then [(audio_similarity, find_similar_audio d file_path)] else [])
  ++ (if in_set file_ext DOCUMENT_EXTENSIONS
      then [(document_similarity, find_similar_documents d file_path)] else [])
  ++ (if in_set file_ext VIDEO_EXTENSIONS
      then [(video_similarity, find_similar_videos d file_path)] else [])
  ++ (if in_set file_ext SUPPORTED_FILE_TYPES
      then [(fuzzy_similarity, find_fuzzy_similar d file_path)] else []).

(** [find_all_similarities]: the fingerprints of the file are stored
    first, then every scan runs on the updated database.  [None] is the
    exception of [store_fingerprints]. *)
Definition find_all_similarities (d : detector_db) (file_path : string)
  : option (detector_db * list (modality * list (string * score))) :=
  match store_fingerprints file_path d with
  | Some d' => Some (d', similarity_results d' file_path)
  | None => None
  end.

End Detector.

(** ** The download handler *)

(** The outcome reported for a processed file.  [ExactDuplicate] is the
    alert "Exact Content Match", [NameSimilarDuplicate] is "Similar
    Filename", [ModalitySimilarDuplicate] is "<Type> Similarity" and
    [NewUnique] is "New unique file"; each carries the second path and the
    score handed to [show_enhanced_modal_alert]. *)
Inductive classification : Type :=
| ExactDuplicate (original_path : string) (score : Q)
| NameSimilarDuplicate (existing_path : string) (score : Q)
| ModalitySimilarDuplicate (similarity_type : modality)
                           (similar_path : string) (similarity_score : score)
| NewUnique.

Inductive alert : Type :=
| Classified (file_path : string) (c : classification)
| FileModified (file_name : string)
| ModifiedNowMatches (file_path : string) (similarity_type : modality)
                     (similar_path : string) (similarity_score : score).

(** The mutable objects of the program: the attributes of
    [EnhancedDownloadHandler], the database of the global
    [advanced_detector], and the alerts shown so far (oldest first).
    [file_hashes] is a dictionary whose iteration order is observed, hence
    a list of items in insertion order.  The two text files written by
    [save_hashes] and [save_modification_db] mirror [file_hashes] and
    [mod_db] and are not kept apart from them. *)
Record state : Type := {
  file_hashes : list (string * string);
  mod_db : gmap string (string * Q);
  processing_files : gset string;
  file_modification_times : gmap string Q;
  detector : detector_db;
  alerts : list alert
}.

Definition set_file_hashes f (s : state) : state :=
  {| file_hashes := f (file_hashes s); mod_db := mod_db s;
     processing_files := processing_files s;
     file_modification_times := file_modification_times s;
     detector := detector s; alerts := alerts s |}.
Definition set_mod_db f (s : state) : state :=
  {| file_hashes := file_hashes s; mod_db := f (mod_db s);
     processing_files := processing_files s;
     file_modification_times := file_modification_times s;
     detector := detector s; alerts := alerts s |}.
Definition set_processing_files f (s : state) : state :=
  {| file_hashes := file_hashes s; mod_db := mod_db s;
     processing_files := f (processing_files s);
     file_modification_times := file_modification_times s;
     detector := detector s; alerts := alerts s |}.
Definition set_file_modification_times f (s : state) : state :=
  {| file_hashes := file_hashes s; mod_db := mod_db s;
     processing_files := processing_files s;
     file_modification_times := f (file_modification_times s);
     detector := detector s; alerts := alerts s |}.
Definition set_detector f (s : state) : state :=
  {| file_hashes := file_hashes s; mod_db := mod_db s;
     processing_files := processing_files s;
     file_modification_times := file_modification_times s;
     detector := f (detector s); alerts := alerts s |}.
Definition set_alerts f (s : state) : state :=
  {| file_hashes := file_hashes s; mod_db := mod_db s;
     processing_files := processing_files s;
     file_modification_times := file_modification_times s;
     detector := detector s; alerts := f (alerts s) |}.

(** *** Ordered dictionary operations *)

Fixpoint dict_get (k : string) (l : list (string * string)) : option string :=
  match l with
  | [] => None
  | (k', v) :: l' => if String.eqb k' k then Some v else dict_get k l'
  end.

(** [d[k] = v]: an existing key keeps its place. *)
Fixpoint dict_set (k v : string) (l : list (string * string))
  : list (string * string) :=
  match l with
  | [] => [(k, v)]
  | (k', v') :: l' =>
      if String.eqb k' k then (k, v) :: l' else (k', v') :: dict_set k v l'
  end.

(** *** Statements that may raise

    A computation runs on the state and either returns a value or raises;
    what it changed before raising stays changed. *)

Definition M (A : Type) : Type := state -> option A * state.

Definition ret {A : Type} (a : A) : M A := fun s => (Some a, s).

Definition bind {A B : Type} (m : M A) (f : A -> M B) : M B :=
  fun s =>
    match m s with
    | (Some a, s') => f a s'
    | (None, s') => (None, s')
    end.

Definition raise {A : Type} : M A := fun s => (None, s).

Definition gets {A : Type} (f : state -> A) : M A := fun s => (Some (f s), s).

Definition modify (f : state -> state) : M unit := fun s => (Some tt, f s).

Definition or_raise {A : Type} (o : option A) : M A :=
  match o with
  | Some a => ret a
  | None => raise
  end.

(** [try: m  except Exception: pass] *)
Definition try_pass (m : M unit) : M unit :=
  fun s =>
    match m s with
    | (None, s') => (Some tt, s')
    | r => r
    end.

Notation "x <~ m ;; k" := (bind m (fun x => k))
  (at level 100, m at next level, right associativity).
Notation "m ;;; k" := (bind m (fun _ => k))
  (at level 100, right associativity).

Definition show_alert (a : alert) : M unit :=
  modify (set_alerts (fun l => l ++ [a])).

Section Handler.

Variable w : world.

(** [try: advanced_detector.store_fingerprints(file_path) except ...] *)
Definition store_fingerprints_guarded (file_path : string) : M unit :=
  try_pass
    (d <~ gets detector ;;
     d' <~ or_raise (store_fingerprints w file_path d) ;;
     modify (set_detector (fun _ => d'))).

(** First step: the basic hash. *)
Definition check_exact (file_path file_name file_hash : string) : M bool :=
  fh <~ gets file_hashes ;;
  match dict_get file_hash fh with
  | Some original_name =>
      if negb (String.eqb original_name file_name) then
        let original_path := OsPath.join DOWNLOAD_DIR original_name in
        show_alert (Classified file_path (ExactDuplicate original_path 1)) ;;;
        ret true
      else ret false
  | None => ret false
  end.

Definition name_matches (file_name : string) (item : string * string) : bool :=
  (negb (String.eqb (snd item) file_name)
   && is_similar_filename file_name (snd item))%bool.

(** Second step: the loop over [file_hashes.items()], left at the first
    similar name. *)
Definition check_filename (file_path file_name : string) : M bool :=
  fh <~ gets file_hashes ;;
  match List.find (name_matches file_name) fh with
  | Some (_, existing_name) =>
      let existing_path := OsPath.join DOWNLOAD_DIR existing_name in
      show_alert (Classified file_path (NameSimilarDuplicate existing_path (8 # 10))) ;;;
      ret true
  | None => ret false
  end.

Definition confident (threshold : Q) (c : string * score) : bool :=
  (path_exists w (fst c) && above threshold (snd c))%bool.

(** The two nested loops over [similarities.items()]: the first of the
    three best matches of a type that passes the test ends both. *)
Fixpoint first_confident (similarities : list (modality * list (string * score)))
  : option (modality * (string * score)) :=
  match similarities with
  | [] => None
  | (similarity_type, similar_files) :: rest =>
      match List.find (confident (7 # 10)) (firstn 3 similar_files) with
      | Some c => Some (similarity_type, c)
      | None => first_confident rest
      end
  end.

(** Third step: the advanced similarity detection. *)
Definition check_similarity (file_path : string) : M bool :=
  d <~ gets detector ;;
  r <~ or_raise (find_all_similarities w d file_path) ;;
  modify (set_detector (fun _ => fst r)) ;;;
  match first_confident (snd r) with
  | Some (similarity_type, (similar_path, similarity_score)) =>
      show_alert (Classified file_path
              (ModalitySimilarDuplicate similarity_type similar_path
                                        similarity_score)) ;;;
      ret true
  | None => ret false
  end.

(** Last step: a new unique file. *)
Definition record_new_file (file_path file_name file_hash : string) : M unit :=
  show_alert (Classified file_path NewUnique) ;;;
  modify (set_file_hashes (dict_set file_hash file_name)) ;;;
  mtime <~ or_raise (getmtime w file_path) ;;
  modify (set_mod_db (insert file_name (file_hash, mtime))) ;;;
  store_fingerprints_guarded file_path.

Definition check_for_advanced_duplicates
           (file_path file_name file_hash : string) : M unit :=
  duplicates_found <~ check_exact file_path file_name file_hash ;;
  duplicates_found <~ (if negb duplicates_found
                       then check_filename file_path file_name
                       else ret duplicates_found) ;;
  duplicates_found <~ (if negb duplicates_found
                       then check_similarity file_path
                       else ret duplicates_found) ;;
  if negb duplicates_found
  then record_new_file file_path file_name file_hash
  else ret tt.

(** The loops of [check_for_modifications]: only the best match of each
    type is looked at, with the stricter threshold; a type whose best
    match has the file's own name does not end the search. *)
Fixpoint first_modified_match (file_name : string)
         (similarities : list (modality * list (string * score)))
  : option (modality * (string * score)) :=
  match similarities with
  | [] => None
  | (similarity_type, similar_files) :: rest =>
      match List.find (confident (85 # 100)) (firstn 1 similar_files) with
      | Some c =>
          if negb (String.eqb (OsPath.basename (fst c)) file_name)
          then Some (similarity_type, c)
          else first_modified_match file_name rest
      | None => first_modified_match file_name rest
      end
  end.

Definition stale_hash (file_name current_hash : string)
           (item : string * string) : bool :=
  (String.eqb (snd item) file_name && negb (String.eqb (fst item) current_hash))%bool.

(** [check_for_modifications].  The modal shown for a match may delete
    the file (the user answers Yes); [os.path.getmtime] then raises, and
    nothing after it runs.  This is the only place where the file is read
    again after a modal: in [check_for_advanced_duplicates] a modal ends
    the pass. *)
Definition check_for_modifications
           (file_path file_name current_hash : string) : M unit :=
  db <~ gets mod_db ;;
  match db !! file_name with
  | None => check_for_advanced_duplicates file_path file_name current_hash
  | Some (old_hash, _) =>
      if negb (String.eqb old_hash current_hash) then
        show_alert (FileModified file_name) ;;;
        d <~ gets detector ;;
        r <~ or_raise (find_all_similarities w d file_path) ;;
        modify (set_detector (fun _ => fst r)) ;;;
        deleted <~ (match first_modified_match file_name (snd r) with
                    | Some (similarity_type, (similar_path, similarity_score)) =>
                        show_alert (ModifiedNowMatches file_path similarity_type
                                      similar_path similarity_score) ;;;
                        ret (modal_deletes w file_path similar_path)
                    | None => ret false
                    end) ;;
        mtime <~ or_raise (if deleted : bool then None
                           else getmtime w file_path) ;;
        modify (set_mod_db (insert file_name (current_hash, mtime))) ;;;
        modify (set_file_hashes
                  (fun fh => dict_set current_hash file_name
                               (List.filter (fun i => negb (stale_hash file_name current_hash i)) fh))) ;;;
        store_fingerprints_guarded file_path
      else ret tt
  end.

(** [monitor_and_process_file]: any exception is caught and printed, and
    the path leaves [processing_files] in every case.  [samples] is what
    the stability wait observes for the path. *)
Definition monitor_and_process_file (samples : nat -> observation)
           (file_path : string) (is_new_file : bool) (s : state) : state :=
  let file_name := OsPath.basename file_path in
  let body : M unit :=
    if negb (wait_for_stable_file samples) then ret tt
    else
      match calculate_hash w file_path with
      | None => ret tt
      | Some file_hash =>
          if is_new_file
          then check_for_advanced_duplicates file_path file_name file_hash
          else check_for_modifications file_path file_name file_hash
      end in
  set_processing_files (fun p => p ∖ {[ file_path ]}) (snd (body s)).

(** [handle_file_event], for an event seen at [current_time]. *)
Definition handle_file_event (samples : nat -> observation)
           (current_time : Q) (file_path : string) (is_new_file : bool)
           (s : state) : state :=
  if negb (should_process_file w file_path) then s
  else if bool_decide (file_path ∈ processing_files s) then s
  else
    let debounced :=
      if negb is_new_file then
        match file_modification_times s !! file_path with
        | Some t => Qlt_bool (current_time - t) 2
        | None => false
        end
      else false in
    if debounced then s
    else
      let s1 := set_processing_files (fun p => p ∪ {[ file_path ]}) s in
      let s2 := set_file_modification_times (insert file_path current_time) s1 in
      monitor_and_process_file samples file_path is_new_file s2.

End Handler.

(** ** Concrete scenarios *)

Module Scenario.

Definition empty_db : detector_db :=
  {| cursor := true; image_hashes := []; audio_fingerprints := [];
     document_content := []; video_thumbnails := []; fuzzy_hashes := [] |}.

Definition empty_state : state :=
  {| file_hashes := []; mod_db := ∅; processing_files := ∅;
     file_modification_times := ∅; detector := empty_db; alerts := [] |}.

Definition regular (size : Z) (digest : string) : file_info :=
  {| is_file := true; file_size := size; modification_time := 1%Q;
     md5_hexdigest := Some digest |}.

(** A size that is already final when the wait starts. *)
Definition settled (size : Z) : nat -> observation := fun _ => Size size.

(** A download that grows by one byte per sample up to [final] bytes. *)
Definition growing_to (final : Z) : nat -> observation :=
  fun n => Size (Z.min final (Z.of_nat n)).

(** *** A text file seen twice *)

Definition notes : string := "C:\Users\Manoj\Downloads\notes.txt".

Definition notes_world : world :=
  {| fs := fun p => if String.eqb p notes then Some (regular 2048 "5d41402a") else None;
     PIL_AVAILABLE := false; LIBROSA_AVAILABLE := false;
     CV2_AVAILABLE := false; SSDEEP_AVAILABLE := false;
     PYMUPDF_AVAILABLE := false; DOCX_AVAILABLE := false;
     pil_image_hashes := fun _ => None;
     librosa_fingerprint := fun _ => None;
     fitz_text := fun _ => None;
     docx_text := fun _ => None;
     read_text := fun _ => Some "hello";
     cv2_thumbnail := fun _ => None;
     ssdeep_hash_from_file := fun _ => None;
     md5_of_text := fun _ => "0cc175b9";
     ssdeep_compare := fun _ _ => 0;
     sequence_matcher_ratio := fun _ _ => 0%Q;
     np_dot := fun _ _ => F32.of_Z 0;
     np_linalg_norm := fun _ => F32.of_Z 0;
     modal_deletes := fun _ _ => false |}.

(** The notes file is already known under its own name. *)
Definition notes_known : state :=
  {| file_hashes := [("5d41402a", "notes.txt")];
     mod_db := {[ "notes.txt" := ("5d41402a", 1%Q) ]};
     processing_files := ∅;
     file_modification_times := ∅;
     detector := empty_db;
     alerts := [] |}.

Definition first_pass : state :=
  handle_file_event notes_world (settled 2048) 10 notes true empty_state.
Definition second_pass : state :=
  handle_file_event notes_world (settled 2048) 20 notes true first_pass.

(** *** A recompressed image *)

Definition cat : string := "C:\Users\Manoj\Downloads\cat.png".
Definition kitten : string := "C:\Users\Manoj\Downloads\kitten.png".

Definition hashes_of (h : Z) : image_hashes_t :=
  {| perceptual_hash := h; average_hash := h; difference_hash := h;
     wavelet_hash := h |}.

Definition image_world : world :=
  {| fs := fun p => if String.eqb p cat then Some (regular 4096 "aaaa")
                    else if String.eqb p kitten then Some (regular 3072 "bbbb")
                    else None;
     PIL_AVAILABLE := true; LIBROSA_AVAILABLE := false;
     CV2_AVAILABLE := false; SSDEEP_AVAILABLE := false;
     PYMUPDF_AVAILABLE := false; DOCX_AVAILABLE := false;
     pil_image_hashes := fun p => if String.eqb p cat then Some (hashes_of 0)
                                  else if String.eqb p kitten then Some (hashes_of 63)
                                  else None;
     librosa_fingerprint := fun _ => None;
     fitz_text := fun _ => None;
     docx_text := fun _ => None;
     read_text := fun _ => None;
     cv2_thumbnail := fun _ => None;
     ssdeep_hash_from_file := fun _ => None;
     md5_of_text := fun _ => EmptyString;
     ssdeep_compare := fun _ _ => 0;
     sequence_matcher_ratio := fun _ _ => 0%Q;
     np_dot := fun _ _ => F32.of_Z 0;
     np_linalg_norm := fun _ => F32.of_Z 0;
     modal_deletes := fun _ _ => false |}.

(** The cat picture is already known: the state a first pass over it, or
    the initial scan of the directory, leaves behind. *)
Definition cat_known : state :=
  {| file_hashes := [("aaaa", "cat.png")];
     mod_db := {[ "cat.png" := ("aaaa", 1%Q) ]};
     processing_files := ∅;
     file_modification_times := ∅;
     detector :=
       {| cursor := true;
          image_hashes := [(cat, mk_row (hashes_of 0) 4096 1%Q)];
          audio_fingerprints := []; document_content := [];
          video_thumbnails := []; fuzzy_hashes := [] |};
     alerts := [] |}.

Definition kitten_seen : state :=
  handle_file_event image_world (settled 3072) 20 kitten true cat_known.

(** *** A file below the size limit *)

Definition stub : string := "C:\Users\Manoj\Downloads\stub.txt".

Definition stub_world : world :=
  {| fs := fun p => if String.eqb p stub then Some (regular 512 "eeee") else None;
     PIL_AVAILABLE := false; LIBROSA_AVAILABLE := false;
     CV2_AVAILABLE := false; SSDEEP_AVAILABLE := false;
     PYMUPDF_AVAILABLE := false; DOCX_AVAILABLE := false;
     pil_image_hashes := fun _ => None;
     librosa_fingerprint := fun _ => None;
     fitz_text := fun _ => None;
     docx_text := fun _ => None;
     read_text := fun _ => Some "stub";
     cv2_thumbnail := fun _ => None;
     ssdeep_hash_from_file := fun _ => None;
     md5_of_text := fun _ => EmptyString;
     ssdeep_compare := fun _ _ => 0;
     sequence_matcher_ratio := fun _ _ => 0%Q;
     np_dot := fun _ _ => F32.of_Z 0;
     np_linalg_norm := fun _ => F32.of_Z 0;
     modal_deletes := fun _ _ => false |}.

(** *** Two recordings

    [np.dot] adds the products one after the other and [np.linalg.norm]
    is the square root of the dot product of the array with itself, both
    in float32; on the small whole numbers used below every product and
    every sum is exact, so the order of the additions plays no part. *)

Definition song : string := "C:\Users\Manoj\Downloads\song.mp3".
Definition remix : string := "C:\Users\Manoj\Downloads\remix.mp3".

Fixpoint dot_in_order (a b : list F32.t) : F32.t :=
  match a, b with
  | x :: a', y :: b' => F32.add (F32.mul x y) (dot_in_order a' b')
  | _, _ => F32.of_Z 0
  end.

Definition norm_in_order (a : list F32.t) : F32.t :=
  F32.sqrt (dot_in_order a a).

Definition features (centroid mfcc : list Z) : audio_fingerprint_t :=
  {| spectral_centroid := map F32.of_Z centroid;
     mfcc_features := map F32.of_Z mfcc;
     tempo := 120%Q; duration := 30%Q |}.

Definition song_features : audio_fingerprint_t := features [12] [4; 3].
Definition remix_features : audio_fingerprint_t := features [3] [4; 0].

Definition audio_world : world :=
  {| fs := fun p => if String.eqb p song then Some (regular 4096 "cccc")
                    else if String.eqb p remix then Some (regular 5120 "dddd")
                    else None;
     PIL_AVAILABLE := false; LIBROSA_AVAILABLE := true;
     CV2_AVAILABLE := false; SSDEEP_AVAILABLE := false;
     PYMUPDF_AVAILABLE := false; DOCX_AVAILABLE := false;
     pil_image_hashes := fun _ => None;
     librosa_fingerprint := fun p => if String.eqb p song then Some song_features
                                     else if String.eqb p remix then Some remix_features
                                     else None;
     fitz_text := fun _ => None;
     docx_text := fun _ => None;
     read_text := fun _ => None;
     cv2_thumbnail := fun _ => None;
     ssdeep_hash_from_file := fun _ => None;
     md5_of_text := fun _ => EmptyString;
     ssdeep_compare := fun _ _ => 0;
     sequence_matcher_ratio := fun _ _ => 0%Q;
     np_dot := dot_in_order;
     np_linalg_norm := norm_in_order;
     modal_deletes := fun _ _ => false |}.

Definition song_db : detector_db :=
  {| cursor := true; image_hashes := [];
     audio_fingerprints := [(song, mk_row song_features 4096 1%Q)];
     document_content := []; video_thumbnails := []; fuzzy_hashes := [] |}.

(** *** A short document in the store

    Two PDF files.  The text of the first has 93 characters; the text of
    the second starts with it and has 125.  For this pair
    [SequenceMatcher(None, a, b).ratio()] is 2 * 93 / (125 + 93). *)

Definition brief : string := "C:\Users\Manoj\Downloads\brief.pdf".
Definition minutes : string := "C:\Users\Manoj\Downloads\minutes.pdf".

Definition brief_text : string :=
  "Meeting notes: budget review moved to Friday; bring the quarterly figures and the draft plan.".
Definition minutes_text : string :=
  String.append brief_text " Agenda for the day is attached.".

Definition documents_world : world :=
  {| fs := fun p => if String.eqb p brief then Some (regular 20480 "1111")
                    else if String.eqb p minutes then Some (regular 24576 "2222")
                    else None;
     PIL_AVAILABLE := false; LIBROSA_AVAILABLE := false;
     CV2_AVAILABLE := false; SSDEEP_AVAILABLE := false;
     PYMUPDF_AVAILABLE := true; DOCX_AVAILABLE := false;
     pil_image_hashes := fun _ => None;
     librosa_fingerprint := fun _ => None;
     fitz_text := fun p => if String.eqb p brief then Some brief_text
                           else if String.eqb p minutes then Some minutes_text
                           else None;
     docx_text := fun _ => None;
     read_text := fun _ => None;
     cv2_thumbnail := fun _ => None;
     ssdeep_hash_from_file := fun _ => None;
     md5_of_text := fun _ => "3333";
     ssdeep_compare := fun _ _ => 0;
     sequence_matcher_ratio :=
       fun a b => if String.eqb a b then 1%Q
                  else if (String.eqb a minutes_text && String.eqb b brief_text)%bool
                  then 186 # 218
                  else if (String.eqb a brief_text && String.eqb b minutes_text)%bool
                  then 186 # 218
                  else 0%Q;
     np_dot := fun _ _ => F32.of_Z 0;
     np_linalg_norm := fun _ => F32.of_Z 0;
     modal_deletes := fun _ _ => false |}.

(** The brief document arrives first, the minutes after it. *)
Definition brief_seen : state :=
  handle_file_event documents_world (settled 20480) 10 brief true empty_state.
Definition minutes_seen : state :=
  handle_file_event documents_world (settled 24576) 20 minutes true brief_seen.

End Scenario.

(** ** Vocabulary of the statements *)

(** The order of scores: infinity is above every number. *)
Definition score_le (x y : score) : Prop :=
  match x, y with
  | _, PosInf => True
  | PosInf, Num _ => False
  | Num a, Num b => (a <= b)%Q
  end.

(** The score is above the threshold. *)
Definition exceeds (s : score) (threshold : Q) : Prop :=
  match s with
  | Num q => (threshold < q)%Q
  | PosInf => True
  end.

(** Highest first: every element is followed only by scores no higher. *)
Inductive descending : list (string * score) -> Prop :=
| descending_nil : descending []
| descending_cons x l :
    Forall (fun y => score_le (snd y) (snd x)) l -> descending l -> descending (x :: l).

(** Every returned candidate is another path, present on disk. *)
Definition candidates_alive (w : world) (file_path : string)
           (l : list (string * score)) : Prop :=
  forall p sc, In (p, sc) l -> p <> file_path /\ path_exists w p = true.

(** The rows of every other path are the same, in the same order, in both
    databases. *)
Definition other_rows_kept (file_path : string) (d d' : detector_db) : Prop :=
  select_others file_path (image_hashes d') = select_others file_path (image_hashes d)
  /\ select_others file_path (audio_fingerprints d')
     = select_others file_path (audio_fingerprints d)
  /\ select_others file_path (document_content d')
     = select_others file_path (document_content d)
  /\ select_others file_path (video_thumbnails d')
     = select_others file_path (video_thumbnails d)
  /\ select_others file_path (fuzzy_hashes d')
     = select_others file_path (fuzzy_hashes d).





(** The first modality, in the order of the results, that has any
    candidate, with its first (top-ranked) candidate. *)
Fixpoint first_qualifying (similarities : list (modality * list (string * score)))
  : option (modality * (string * score)) :=
  match similarities with
  | [] => None
  | (_, []) :: rest => first_qualifying rest
  | (similarity_type, c :: _) :: rest => Some (similarity_type, c)
  end.

(** The classification by fixed priority: the hash stored under another
    name, else the first stored name (other than the file's own) that is
    similar, else the first qualifying modality, else new. *)
Definition priority_classification (file_name file_hash : string)
           (stored : list (string * string))
           (similarities : list (modality * list (string * score)))
  : classification :=
  match dict_get file_hash stored with
  | Some original_name =>
      if negb (String.eqb original_name file_name)
      then ExactDuplicate (OsPath.join DOWNLOAD_DIR original_name) 1
      else
        match List.find (name_matches file_name) stored with
        | Some (_, existing_name) =>
            NameSimilarDuplicate (OsPath.join DOWNLOAD_DIR existing_name) (8 # 10)
        | None =>
            match first_qualifying similarities with
            | Some (similarity_type, (similar_path, score)) =>
                ModalitySimilarDuplicate similarity_type similar_path score
            | None => NewUnique
            end
        end
  | None =>
      match List.find (name_matches file_name) stored with
      | Some (_, existing_name) =>
          NameSimilarDuplicate (OsPath.join DOWNLOAD_DIR existing_name) (8 # 10)
      | None =>
          match first_qualifying similarities with
          | Some (similarity_type, (similar_path, score)) =>
              ModalitySimilarDuplicate similarity_type similar_path score
          | None => NewUnique
          end
      end
  end.

(** The state a pass leaves behind, by classification: nothing but the
    alert for a hash or name duplicate; the file's fingerprints as well
    for a modality duplicate; the two hash stores as well for a new
    file. *)
Definition state_after (file_path file_name file_hash : string) (mtime : Q)
           (c : classification) (d' : detector_db) (s : state) : state :=
  match c with
  | ExactDuplicate _ _ | NameSimilarDuplicate _ _ =>
      set_alerts (fun l => l ++ [Classified file_path c]) s
  | ModalitySimilarDuplicate _ _ _ =>
      set_alerts (fun l => l ++ [Classified file_path c])
                 (set_detector (fun _ => d') s)
  | NewUnique =>
      set_detector (fun _ => d')
        (set_mod_db (insert file_name (file_hash, mtime))
           (set_file_hashes (dict_set file_hash file_name)
              (set_alerts (fun l => l ++ [Classified file_path c]) s)))
  end.

(** Every candidate passes the test of the decision loop. *)
Definition all_confident (w : world) (l : list (string * score)) : Prop :=
  forall c, In c l -> confident w (7 # 10) c = true.

(** Which scans run for a file type, and all five in their fixed order. *)
Definition applies (file_ext : string) (m : modality) : bool :=
  match m with
  | image_similarity => in_set file_ext IMAGE_EXTENSIONS
  | audio_similarity => in_set file_ext AUDIO_EXTENSIONS
  | document_similarity => in_set file_ext DOCUMENT_EXTENSIONS
  | video_similarity => in_set file_ext VIDEO_EXTENSIONS
  | fuzzy_similarity => in_set file_ext SUPPORTED_FILE_TYPES
  end.

Definition all_scans (w : world) (d : detector_db) (file_path : string)
  : list (modality * list (string * score)) :=
  [ (image_similarity, find_similar_images w d file_path);
    (audio_similarity, find_similar_audio w d file_path);
    (document_similarity, find_similar_documents w d file_path);
    (video_similarity, find_similar_videos w d file_path);
    (fuzzy_similarity, find_fuzzy_similar w d file_path) ].

(** The state in which the pass for an accepted event starts. *)
Definition taken_up (current_time : Q) (file_path : string) (s : state) : state :=
  set_file_modification_times (insert file_path current_time)
    (set_processing_files (fun p => p ∪ {[ file_path ]}) s).

(** ** Proof steps used more than once *)

(** Case analysis on every test of [store_typed] and [store_fuzzy]. *)
Ltac split_store :=
  repeat match goal with
         | |- context [if in_set ?x ?S then _ else _] =>
             destruct (in_set x S) eqn:?
         | |- context [match calculate_image_hashes ?w ?p with _ => _ end] =>
             destruct (calculate_image_hashes w p) eqn:?
         | |- context [match calculate_audio_fingerprint ?w ?p with _ => _ end] =>
             destruct (calculate_audio_fingerprint w p) eqn:?
         | |- context [match extract_document_content ?w ?p with _ => _ end] =>
             destruct (extract_document_content w p) as [[|? ?]|] eqn:?
         | |- context [match calculate_video_thumbnail_hash ?w ?p with _ => _ end] =>
             destruct (calculate_video_thumbnail_hash w p) eqn:?
         | |- context [match calculate_fuzzy_hash ?w ?p with _ => _ end] =>
             destruct (calculate_fuzzy_hash w p) as [[|? ?]|] eqn:?
         end.


(** Unfold the operations on statements that may raise. *)
Ltac unfold_monad :=
  unfold bind, ret, gets, modify, show_alert, raise, or_raise, try_pass in *.


(** ** Further vocabulary *)

(** What a statement leaves alone whatever it does: the in-flight set and
    the event times; and the alerts only grow. *)
Definition handler_frame (s s' : state) : Prop :=
  processing_files s' = processing_files s
  /\ file_modification_times s' = file_modification_times s
  /\ exists shown, alerts s' = alerts s ++ shown.

(** Case analysis on whatever the goal still matches on. *)
Ltac split_matches :=
  repeat match goal with
         | |- context [match ?x with _ => _ end] =>
             lazymatch x with
             | context [match _ with _ => _ end] => fail
             | _ => destruct x eqn:?
             end
         | |- context [if ?x then _ else _] =>
             lazymatch x with
             | context [if _ then _ else _] => fail
             | context [match _ with _ => _ end] => fail
             | _ => destruct x eqn:?
             end
         end.

(** Membership in one of the extension sets, decided by cases. *)
Ltac by_extension H :=
  apply bool_decide_eq_true in H;
  rewrite elem_of_list_to_set in H;
  repeat (apply elem_of_cons in H as [-> | H]);
  [ .. | apply elem_of_nil in H; contradiction ];
  vm_compute; auto.

(** Whether the modal shown for the first of these alerts ended with the
    file deleted. *)
Definition removed_by_modal (w : world) (file_path : string)
           (shown : list alert) : bool :=
  match shown with
  | ModifiedNowMatches _ _ similar_path _ :: _ =>
      modal_deletes w file_path similar_path
  | _ => false
  end.

(** ** Further scenarios *)

Module Cases.

(** The same world with other files on disk. *)
Definition with_files (files : string -> option file_info) (w : world) : world :=
  {| fs := files;
     PIL_AVAILABLE := PIL_AVAILABLE w; LIBROSA_AVAILABLE := LIBROSA_AVAILABLE w;
     CV2_AVAILABLE := CV2_AVAILABLE w; SSDEEP_AVAILABLE := SSDEEP_AVAILABLE w;
     PYMUPDF_AVAILABLE := PYMUPDF_AVAILABLE w; DOCX_AVAILABLE := DOCX_AVAILABLE w;
     pil_image_hashes := pil_image_hashes w;
     librosa_fingerprint := librosa_fingerprint w;
     fitz_text := fitz_text w;
     docx_text := docx_text w;
     read_text := read_text w;
     cv2_thumbnail := cv2_thumbnail w;
     ssdeep_hash_from_file := ssdeep_hash_from_file w;
     md5_of_text := md5_of_text w;
     ssdeep_compare := ssdeep_compare w;
     sequence_matcher_ratio := sequence_matcher_ratio w;
     np_dot := np_dot w;
     np_linalg_norm := np_linalg_norm w;
     modal_deletes := modal_deletes w |}.

(** The notes file after an edit: other bytes, hence another hash. *)
Definition notes_edited : world :=
  with_files
    (fun p => if String.eqb p Scenario.notes
              then Some (Scenario.regular 2100 "7d793037") else None)
    Scenario.notes_world.

(** Three pictures: the kitten is close to both the cat and the lion. *)
Definition lion : string := "C:\Users\Manoj\Downloads\lion.png".

Definition gallery_world : world :=
  {| fs := fun p => if String.eqb p Scenario.cat then Some (Scenario.regular 4096 "aaaa")
                    else if String.eqb p lion then Some (Scenario.regular 4608 "abab")
                    else if String.eqb p Scenario.kitten
                    then Some (Scenario.regular 3072 "bbbb")
                    else None;
     PIL_AVAILABLE := true; LIBROSA_AVAILABLE := false;
     CV2_AVAILABLE := false; SSDEEP_AVAILABLE := false;
     PYMUPDF_AVAILABLE := false; DOCX_AVAILABLE := false;
     pil_image_hashes :=
       fun p => if String.eqb p Scenario.cat then Some (Scenario.hashes_of 0)
                else if String.eqb p lion then Some (Scenario.hashes_of 1)
                else if String.eqb p Scenario.kitten then Some (Scenario.hashes_of 63)
                else None;
     librosa_fingerprint := fun _ => None;
     fitz_text := fun _ => None;
     docx_text := fun _ => None;
     read_text := fun _ => None;
     cv2_thumbnail := fun _ => None;
     ssdeep_hash_from_file := fun _ => None;
     md5_of_text := fun _ => EmptyString;
     ssdeep_compare := fun _ _ => 0;
     sequence_matcher_ratio := fun _ _ => 0%Q;
     np_dot := fun _ _ => F32.of_Z 0;
     np_linalg_norm := fun _ => F32.of_Z 0;
     modal_deletes := fun _ _ => false |}.

Definition gallery_db : detector_db :=
  {| cursor := true;
     image_hashes := [(Scenario.cat, mk_row (Scenario.hashes_of 0) 4096 1%Q);
                      (lion, mk_row (Scenario.hashes_of 1) 4608 1%Q)];
     audio_fingerprints := []; document_content := [];
     video_thumbnails := []; fuzzy_hashes := [] |}.

(** The same world with a user who answers Yes to every modal, the
    deletion succeeding. *)
Definition with_deletion (w : world) : world :=
  {| fs := fs w;
     PIL_AVAILABLE := PIL_AVAILABLE w; LIBROSA_AVAILABLE := LIBROSA_AVAILABLE w;
     CV2_AVAILABLE := CV2_AVAILABLE w; SSDEEP_AVAILABLE := SSDEEP_AVAILABLE w;
     PYMUPDF_AVAILABLE := PYMUPDF_AVAILABLE w; DOCX_AVAILABLE := DOCX_AVAILABLE w;
     pil_image_hashes := pil_image_hashes w;
     librosa_fingerprint := librosa_fingerprint w;
     fitz_text := fitz_text w;
     docx_text := docx_text w;
     read_text := read_text w;
     cv2_thumbnail := cv2_thumbnail w;
     ssdeep_hash_from_file := ssdeep_hash_from_file w;
     md5_of_text := md5_of_text w;
     ssdeep_compare := ssdeep_compare w;
     sequence_matcher_ratio := sequence_matcher_ratio w;
     np_dot := np_dot w;
     np_linalg_norm := np_linalg_norm w;
     modal_deletes := fun _ _ => true |}.

(** The kitten picture is known from an earlier version of the file, an
    exact copy of the cat picture. *)
Definition kitten_known : state :=
  {| file_hashes := [("aaaa", "cat.png"); ("0000", "kitten.png")];
     mod_db := {[ "cat.png" := ("aaaa", 1%Q); "kitten.png" := ("0000", 1%Q) ]};
     processing_files := ∅;
     file_modification_times := ∅;
     detector := gallery_db;
     alerts := [] |}.

End Cases.

(** ** The two text files

    [file_hashes.txt] holds one line [hash,name] per item of
    [file_hashes]; [file_modifications.txt] holds one line
    [name,hash,timestamp] per item of [mod_db], the timestamp being the
    text [str(os.path.getmtime(...))].  Both are opened in text mode: on
    Windows a written line feed becomes carriage return and line feed, and
    on reading every carriage return, with or without a line feed after
    it, becomes a line feed. *)

Module TextFile.

Definition CR : ascii := ascii_of_N 13.
Definition LF : ascii := ascii_of_N 10.

(** What [file.write(s)] puts on disk. *)
Fixpoint written (s : string) : string :=
  match s with
  | EmptyString => EmptyString
  | String c r =>
      if Ascii.eqb c LF then String CR (String LF (written r))
      else String c (written r)
  end.

(** What [file.read()] returns for the bytes on disk. *)
Fixpoint universal_newlines (s : string) : string :=
  match s with
  | EmptyString => EmptyString
  | String c r =>
      if Ascii.eqb c CR then
        match r with
        | String c' r' =>
            if Ascii.eqb c' LF then String LF (universal_newlines r')
            else String LF (universal_newlines r)
        | EmptyString => String LF EmptyString
        end
      else String c (universal_newlines r)
  end.

(** [file.readlines()]: the lines, each with its line feed. *)
Fixpoint readlines (s : string) : list string :=
  match s with
  | EmptyString => []
  | String c r =>
      if Ascii.eqb c LF then String c EmptyString :: readlines r
      else
        match readlines r with
        | [] => [String c EmptyString]
        | line :: lines => String c line :: lines
        end
  end.

(** [s.split(",", 1)] when it has two parts. *)
Fixpoint split_comma (s : string) : option (string * string) :=
  match s with
  | EmptyString => None
  | String c r =>
      if Ascii.eqb c ","%char then Some (EmptyString, r)
      else
        match split_comma r with
        | Some (a, b) => Some (String c a, b)
        | None => None
        end
  end.

(** [s.split(",", 2)] when it has three parts. *)
Definition split_two_commas (s : string) : option (string * (string * string)) :=
  match split_comma s with
  | Some (a, rest) =>
      match split_comma rest with
      | Some (b, c) => Some (a, (b, c))
      | None => None
      end
  | None => None
  end.

Definition nonempty (s : string) : bool :=
  match s with EmptyString => false | String _ _ => true end.

End TextFile.

(** The body of the loop of [load_existing_hashes] on one line. *)
Definition load_hash_line (file_hashes : list (string * string)) (line : string)
  : list (string * string) :=
  if TextFile.nonempty (Py.strip line) then
    match TextFile.split_comma (Py.strip line) with
    | Some (file_hash, file_name) => dict_set file_hash file_name file_hashes
    | None => file_hashes
    end
  else file_hashes.

(** [load_existing_hashes], given the bytes of the file, or [None] when
    the file does not exist. *)
Definition load_existing_hashes (on_disk : option string)
  : list (string * string) :=
  match on_disk with
  | None => []
  | Some bytes =>
      fold_left load_hash_line
                (TextFile.readlines (TextFile.universal_newlines bytes)) []
  end.

Definition hash_line (item : string * string) : string :=
  String.append (fst item)
    (String ","%char (String.append (snd item) (String TextFile.LF EmptyString))).

(** [save_hashes]: the bytes the file holds afterwards. *)
Definition save_hashes (hash_dict : list (string * string)) : string :=
  TextFile.written (String.concat EmptyString (map hash_line hash_dict)).

(** The body of the loop of [load_modification_db] on one line. *)
Definition load_modification_line (db : gmap string (string * string))
           (line : string) : gmap string (string * string) :=
  if TextFile.nonempty (Py.strip line) then
    match TextFile.split_two_commas (Py.strip line) with
    | Some (file_name, (file_hash, timestamp)) =>
        <[ file_name := (file_hash, timestamp) ]> db
    | None => db
    end
  else db.

Definition load_modification_db (on_disk : option string)
  : gmap string (string * string) :=
  match on_disk with
  | None => ∅
  | Some bytes =>
      fold_left load_modification_line
                (TextFile.readlines (TextFile.universal_newlines bytes)) ∅
  end.

Definition modification_line (item : string * (string * string)) : string :=
  String.append (fst item)
    (String ","%char
       (String.append (fst (snd item))
          (String ","%char
             (String.append (snd (snd item)) (String TextFile.LF EmptyString))))).

(** [save_modification_db], on the items of [mod_db] in their order. *)
Definition save_modification_db (items : list (string * (string * string)))
  : string :=
  TextFile.written (String.concat EmptyString (map modification_line items)).

(** Characters a field must not hold to survive the text file. *)
Fixpoint has_char (c : ascii) (s : string) : bool :=
  match s with
  | EmptyString => false
  | String d r => (Ascii.eqb d c || has_char c r)%bool
  end.

Definition one_line (s : string) : bool :=
  (negb (has_char TextFile.CR s) && negb (has_char TextFile.LF s))%bool.

Definition comma_free (s : string) : bool := negb (has_char ","%char s).

(** An item of [file_hashes] that the text file can hold: the hash has no
    comma and no padding on its left, the name no padding on its right,
    and neither holds a line break. *)
Definition hash_item_survives (item : string * string) : bool :=
  (comma_free (fst item) && one_line (fst item) && one_line (snd item)
   && String.eqb (Py.lstrip (fst item)) (fst item)
   && String.eqb (Py.rstrip (snd item)) (snd item))%bool.

(** An item of [mod_db] that the text file can hold: here the name comes
    first, so it is the name that must have no comma. *)
Definition modification_item_survives (item : string * (string * string)) : bool :=
  (comma_free (fst item) && one_line (fst item)
   && comma_free (fst (snd item)) && one_line (fst (snd item))
   && one_line (snd (snd item))
   && String.eqb (Py.lstrip (fst item)) (fst item)
   && String.eqb (Py.rstrip (snd (snd item))) (snd (snd item)))%bool.

(** ** The scan of the download directory at start-up

    [listing] is what [os.listdir(DOWNLOAD_DIR)] returns: the names of the
    directory, in the order the system gives them. *)

Record initial_scan : Type := {
  scan_file_hashes : list (string * string);
  scan_mod_db : gmap string (string * Q);
  scan_detector : detector_db
}.

(** The loop of [populate_initial_hashes]. Reading the modification time
    is inside the outer [try]: if it raises, the loop ends there, with the
    hash of that file already recorded. [store_fingerprints] has a [try]
    of its own. *)
Fixpoint populate_loop (w : world) (listing : list string) (acc : initial_scan)
  : initial_scan :=
  match listing with
  | [] => acc
  | filename :: rest =>
      let file_path := OsPath.join DOWNLOAD_DIR filename in
      if path_isfile w file_path then
        if should_process_file w file_path then
          let file_hash := calculate_hash w file_path in
          if Py.truthy file_hash then
            match file_hash with
            | Some file_hash =>
                let hashes := dict_set file_hash filename (scan_file_hashes acc) in
                match getmtime w file_path with
                | Some mtime =>
                    populate_loop w rest
                      {| scan_file_hashes := hashes;
                         scan_mod_db :=
                           <[ filename := (file_hash, mtime) ]> (scan_mod_db acc);
                         scan_detector :=
                           match store_fingerprints w file_path (scan_detector acc) with
                           | Some d => d
                           | None => scan_detector acc
                           end |}
                | None =>
                    {| scan_file_hashes := hashes;
                       scan_mod_db := scan_mod_db acc;
                       scan_detector := scan_detector acc |}
                end
            | None => populate_loop w rest acc
            end
          else populate_loop w rest acc
        else populate_loop w rest acc
      else populate_loop w rest acc
  end.

(** [populate_initial_hashes]: the two dicts it returns and the detector's
    database afterwards. *)
Definition populate_initial_hashes (w : world) (listing : list string)
           (d : detector_db) : initial_scan :=
  if negb (path_exists w DOWNLOAD_DIR) then
    {| scan_file_hashes := []; scan_mod_db := ∅; scan_detector := d |}
  else
    populate_loop w listing
      {| scan_file_hashes := []; scan_mod_db := ∅; scan_detector := d |}.

(** A listed name the start-up scan takes up, with the hash it records. *)
Definition scanned_as (w : world) (filename file_hash : string) : bool :=
  let file_path := OsPath.join DOWNLOAD_DIR filename in
  (path_isfile w file_path && should_process_file w file_path
   && Py.truthy (calculate_hash w file_path)
   && match calculate_hash w file_path with
      | Some h => String.eqb h file_hash
      | None => false
      end)%bool.

(** ** File type statistics *)

(** [update_file_type_stats]: the global [file_type_stats] afterwards. *)
Definition update_file_type_stats (w : world) (listing : list string)
  : gmap string Z :=
  fold_left
    (fun (file_type_stats : gmap string Z) filename =>
       let file_path := OsPath.join DOWNLOAD_DIR filename in
       if (path_isfile w file_path && should_process_file w file_path)%bool then
         let file_ext := Py.lower (snd (OsPath.splitext filename)) in
         match file_type_stats !! file_ext with
         | Some n => <[ file_ext := (n + 1)%Z ]> file_type_stats
         | None => <[ file_ext := 1%Z ]> file_type_stats
         end
       else file_type_stats)
    listing ∅.

(** The listed names counted under an extension. *)
Definition counted_as (w : world) (file_ext filename : string) : bool :=
  let file_path := OsPath.join DOWNLOAD_DIR filename in
  (path_isfile w file_path && should_process_file w file_path
   && String.eqb (Py.lower (snd (OsPath.splitext filename))) file_ext)%bool.

(** One round of the start-up loop on a name it takes up. *)
Definition scan_one (w : world) (filename file_hash : string) (mtime : Q)
           (acc : initial_scan) : initial_scan :=
  let file_path := OsPath.join DOWNLOAD_DIR filename in
  {| scan_file_hashes := dict_set file_hash filename (scan_file_hashes acc);
     scan_mod_db := <[ filename := (file_hash, mtime) ]> (scan_mod_db acc);
     scan_detector :=
       match store_fingerprints w file_path (scan_detector acc) with
       | Some d => d
       | None => scan_detector acc
       end |}.


(** A download directory at start-up: two text files with the same bytes
    and one file below the size limit. *)
Module Startup.

Definition directory : file_info :=
  {| is_file := false; file_size := 0; modification_time := 1%Q;
     md5_hexdigest := None |}.

Definition draft : string := "C:\Users\Manoj\Downloads\draft.txt".
Definition tiny : string := "C:\Users\Manoj\Downloads\tiny.txt".

Definition downloads_world : world :=
  Cases.with_files
    (fun p => if String.eqb p DOWNLOAD_DIR then Some directory
              else if String.eqb p Scenario.notes
              then Some (Scenario.regular 2048 "5d41402a")
              else if String.eqb p draft
              then Some (Scenario.regular 2048 "5d41402a")
              else if String.eqb p tiny
              then Some (Scenario.regular 10 "0cc175b9")
              else None)
    Scenario.notes_world.

Definition listing : list string := ["notes.txt"; "tiny.txt"; "draft.txt"].

End Startup.

(** ** The directory scan of [similar content.py]

    The second script groups the files of a directory tree by their
    SHA-256 hash. [walked] is the list of the file paths in the order in
    which [os.walk] yields them; [sha256_of] is the script's
    [calculate_hash], [None] standing for the [IOError] or [OSError] that
    makes the scan skip the file; [ratio a b] is
    [SequenceMatcher(None, a, b).ratio()]. *)

Module SimilarContent.

Definition empty_file_hash : string :=
  "e3b0c44298fc1c149afbf4c8996fb92427ae41e4649b934ca495991b7852b855".

(** [if file_hash not in file_hashes: file_hashes[file_hash] = []]
    followed by [file_hashes[file_hash].append(file_path)]. *)
Fixpoint group_append (file_hash file_path : string)
         (file_hashes : list (string * list string))
  : list (string * list string) :=
  match file_hashes with
  | [] => [(file_hash, [file_path])]
  | (k, paths) :: rest =>
      if String.eqb k file_hash then (k, paths ++ [file_path]) :: rest
      else (k, paths) :: group_append file_hash file_path rest
  end.

(** [file_hashes.get(k)] *)
Fixpoint group_of (k : string) (file_hashes : list (string * list string))
  : option (list string) :=
  match file_hashes with
  | [] => None
  | (k', paths) :: rest =>
      if String.eqb k' k then Some paths else group_of k rest
  end.

Section Scan.

Variable sha256_of : string -> option string.
Variable ratio : string -> string -> Q.

(** [name_similarity] *)
Definition name_similarity (name1 name2 : string) : Q :=
  let name1_base := fst (OsPath.splitext name1) in
  let name2_base := fst (OsPath.splitext name2) in
  ratio name1_base name2_base.

(** The body of the first pass for one file. *)
Definition group_file (file_hashes : list (string * list string))
           (file_path : string) : list (string * list string) :=
  match sha256_of file_path with
  | None => file_hashes
  | Some file_hash =>
      if String.eqb file_hash empty_file_hash then file_hashes
      else group_append file_hash file_path file_hashes
  end.

Definition first_pass (walked : list string) : list (string * list string) :=
  fold_left group_file walked [].

Definition duplicate_groups (walked : list string) : list (list string) :=
  List.filter (fun paths => (1 <? List.length paths)%nat)
              (map snd (first_pass walked)).

(** The loop over [group[i+1:]]. *)
Fixpoint inner_loop (name_similarity_threshold : Q) (name1 : string)
         (rest : list string) (current_group : list string)
         (processed : gset string) : list string * gset string :=
  match rest with
  | [] => (current_group, processed)
  | path2 :: rest' =>
      if bool_decide (path2 ∈ processed)
      then inner_loop name_similarity_threshold name1 rest' current_group processed
      else
        let name2 := OsPath.basename path2 in
        let similarity := name_similarity name1 name2 in
        if Qle_bool name_similarity_threshold similarity
        then inner_loop name_similarity_threshold name1 rest'
               (current_group ++ [path2]) (processed ∪ {[ path2 ]})
        else inner_loop name_similarity_threshold name1 rest'
               current_group processed
  end.

(** The loop over one group of content duplicates. *)
Fixpoint outer_loop (name_similarity_threshold : Q) (group : list string)
         (processed : gset string) (similar_name_groups : list (list string))
  : list (list string) :=
  match group with
  | [] => similar_name_groups
  | path1 :: rest =>
      if bool_decide (path1 ∈ processed)
      then outer_loop name_similarity_threshold rest processed similar_name_groups
      else
        let name1 := OsPath.basename path1 in
        let '(current_group, processed') :=
          inner_loop name_similarity_threshold name1 rest [path1] processed in
        outer_loop name_similarity_threshold rest (processed' ∪ {[ path1 ]})
          (if (1 <? List.length current_group)%nat
           then similar_name_groups ++ [current_group]
           else similar_name_groups)
  end.

(** [find_duplicates] *)
Definition find_duplicates (walked : list string) (check_name_similarity : bool)
           (name_similarity_threshold : Q) : list (list string) :=
  if negb check_name_similarity then duplicate_groups walked
  else
    flat_map (fun group => outer_loop name_similarity_threshold group ∅ [])
             (duplicate_groups walked).

(** The file is read and has this hash. *)
Definition has_hash (file_hash file_path : string) : bool :=
  match sha256_of file_path with
  | Some h => String.eqb h file_hash
  | None => false
  end.

(** The paths of a group after the first compare with the first by name. *)
Definition star_shaped (name_similarity_threshold : Q) (group : list string)
  : Prop :=
  match group with
  | [] => False
  | first :: others =>
      others <> []
      /\ forall other, In other others ->
           (name_similarity_threshold
            <= name_similarity (OsPath.basename first) (OsPath.basename other))%Q
  end.

(** What the first pass holds after the files of [seen]. *)
Definition grouped (seen : list string)
           (file_hashes : list (string * list string)) : Prop :=
  List.NoDup (map fst file_hashes)
  /\ forall k,
       group_of k file_hashes
       = if String.eqb k empty_file_hash then None
         else match List.filter (has_hash k) seen with
              | [] => None
              | paths => Some paths
              end.

End Scan.

(** A tree with three copies of one report, two of them under like names,
    and one empty file. *)
Module Tree.

Definition report : string := "C:\docs\report.txt".
Definition report_copy : string := "C:\docs\old\report (1).txt".
Definition minutes : string := "C:\docs\minutes.txt".
Definition blank : string := "C:\docs\blank.txt".

Definition walked : list string := [report; minutes; blank; report_copy].

Definition sha256_of (file_path : string) : option string :=
  if String.eqb file_path blank then Some empty_file_hash
  else Some "9f86d081".

Definition ratio (a b : string) : Q :=
  if (String.eqb a "report" && String.eqb b "report (1)")%bool then 9 # 10
  else if String.eqb a b then 1
  else 2 # 10.

End Tree.

End SimilarContent.

(** * Properties *)

(** ** Sorting by score *)

Lemma score_le_bool_iff (x y : score) :
  score_le_bool x y = true <-> score_le x y.
Proof.
  destruct x as [a|], y as [b|]; simpl;
    [apply Qle_bool_iff | tauto | split; [discriminate | tauto] | tauto].
Qed.

Lemma score_le_refl (x : score) : score_le x x.
Proof. destruct x; simpl; [apply Qle_refl | exact I]. Qed.

Lemma score_le_trans (x y z : score) :
  score_le x y -> score_le y z -> score_le x z.
Proof.
  destruct x as [a|], y as [b|], z as [c|]; simpl; try tauto.
  apply Qle_trans.
Qed.

Lemma score_le_total (x y : score) :
  score_le_bool x y = false -> score_le y x.
Proof.
  destruct x as [a|], y as [b|]; simpl; try discriminate; try tauto.
  intros E. apply Qnot_lt_le. intro Hlt. apply Qlt_le_weak in Hlt.
  apply Qle_bool_iff in Hlt. congruence.
Qed.

Lemma above_iff (threshold : Q) (s : score) :
  above threshold s = true <-> exceeds s threshold.
Proof.
  destruct s as [q|]; simpl; [|tauto].
  unfold Qlt_bool. rewrite negb_true_iff. split.
  - intros E. apply Qnot_le_lt. intro Hle. apply Qle_bool_iff in Hle. congruence.
  - intros Hlt. destruct (Qle_bool q threshold) eqn:E; [|reflexivity].
    apply Qle_bool_iff in E. exfalso. exact (Qlt_not_le _ _ Hlt E).
Qed.

Lemma insert_by_score_perm (x : string * score) (l : list (string * score)) :
  Permutation (insert_by_score x l) (x :: l).
Proof.
  induction l as [|y l IH]; simpl.
  - apply Permutation_refl.
  - destruct (score_le_bool (snd y) (snd x)).
    + apply Permutation_refl.
    + eapply Permutation_trans; [apply perm_skip, IH | apply perm_swap].
Qed.

Lemma sorted_by_score_perm (l : list (string * score)) :
  Permutation (sorted_by_score l) l.
Proof.
  induction l as [|x l IH]; simpl.
  - apply Permutation_refl.
  - eapply Permutation_trans; [apply insert_by_score_perm | apply perm_skip, IH].
Qed.

Lemma in_sorted_by_score (x : string * score) (l : list (string * score)) :
  In x (sorted_by_score l) <-> In x l.
Proof.
  split; apply Permutation_in;
    [apply sorted_by_score_perm | apply Permutation_sym, sorted_by_score_perm].
Qed.

Lemma insert_by_score_descending (x : string * score) (l : list (string * score)) :
  descending l -> descending (insert_by_score x l).
Proof.
  induction 1 as [|y l Hy Hl IH]; simpl.
  - constructor; [constructor | constructor].
  - destruct (score_le_bool (snd y) (snd x)) eqn:E.
    + apply score_le_bool_iff in E.
      constructor; [|constructor; assumption].
      constructor; [assumption|].
      rewrite List.Forall_forall in Hy |- *.
      intros z Hz. eapply score_le_trans; [apply Hy, Hz | exact E].
    + apply score_le_total in E.
      constructor; [|exact IH].
      eapply Permutation_Forall;
        [apply Permutation_sym, insert_by_score_perm|].
      constructor; assumption.
Qed.

Lemma sorted_by_score_descending (l : list (string * score)) :
  descending (sorted_by_score l).
Proof.
  induction l as [|x l IH]; simpl.
  - constructor.
  - apply insert_by_score_descending, IH.
Qed.

(** ** Tables *)

Lemma other_than_true {A : Type} (file_path : string) (r : string * A) :
  other_than file_path r = true <-> fst r <> file_path.
Proof.
  unfold other_than. rewrite negb_true_iff.
  destruct (String.eqb_spec (fst r) file_path); split; congruence.
Qed.

Lemma in_select_others {A : Type} (file_path : string) (t : table A)
      (r : string * A) :
  In r (select_others file_path t) <-> In r t /\ fst r <> file_path.
Proof.
  unfold select_others. rewrite filter_In, other_than_true. reflexivity.
Qed.

Lemma select_others_insert {A : Type} (file_path : string) (v : A) (t : table A) :
  select_others file_path (insert_or_replace file_path v t)
  = select_others file_path t.
Proof.
  unfold select_others, insert_or_replace.
  rewrite List.filter_app.
  assert (List.filter (other_than file_path) [(file_path, v)] = []) as ->.
  { simpl. unfold other_than; simpl. rewrite String.eqb_refl. reflexivity. }
  rewrite app_nil_r.
  induction t as [|r t IH]; simpl; [reflexivity|].
  destruct (other_than file_path r) eqn:E; simpl; rewrite ?E, ?IH; reflexivity.
Qed.

Lemma insert_or_replace_twice {A : Type} (file_path : string) (v v' : A)
      (t : table A) :
  insert_or_replace file_path v' (insert_or_replace file_path v t)
  = insert_or_replace file_path v' t.
Proof.
  unfold insert_or_replace at 1.
  change (List.filter (other_than file_path) ?x) with (select_others file_path x).
  rewrite select_others_insert. reflexivity.
Qed.

(** ** What a scan returns *)

Lemma in_hash_candidate (w : world) (current_hash : Z) (stored_path : string)
      (stored_hash : Z) (p : string) (sc : score) :
  In (p, sc) (hash_candidate w current_hash stored_path stored_hash) <->
  p = stored_path /\ path_exists w stored_path = true /\
  hash_difference current_hash stored_hash <= 10 /\
  sc = Num (1 - inject_Z (hash_difference current_hash stored_hash) / 64).
Proof.
  unfold hash_candidate, SIMILARITY_THRESHOLDS.image_hash, similarity_of_difference.
  destruct (path_exists w stored_path).
  - destruct (Z.leb_spec (hash_difference current_hash stored_hash) 10); simpl.
    + split.
      * intros [H0|[]]. inversion H0; subst. auto.
      * intros (-> & _ & _ & ->). left. reflexivity.
    + split; [intros [] | intros (_ & _ & ? & _); lia].
  - simpl. split; [intros [] | intros (_ & ? & _); discriminate].
Qed.

Lemma at_least_score (threshold : Q) (x : F32.t) :
  F32.at_least threshold x = true
  <-> exists sc, float_of_float32 x = Some sc /\ score_le (Num threshold) sc.
Proof.
  destruct x as [s|s| |s m e]; simpl.
  - rewrite Qle_bool_iff. split; [eauto|]. intros (sc & [= <-] & H). exact H.
  - destruct s; simpl.
    + split; [discriminate|]. intros (sc & [=] & _).
    + split; [intros _; exists PosInf; split; [reflexivity | exact I]|reflexivity].
  - split; [discriminate|]. intros (sc & [=] & _).
  - rewrite Qle_bool_iff. split; [eauto|]. intros (sc & [= <-] & H). exact H.
Qed.

Lemma in_audio_candidate (w : world) (current : audio_fingerprint_t)
      (stored_path : string) (stored : audio_fingerprint_t) (p : string)
      (sc : score) :
  In (p, sc) (audio_candidate w current stored_path stored) <->
  p = stored_path /\ path_exists w stored_path = true /\
  List.length (spectral_centroid current) = List.length (spectral_centroid stored) /\
  List.length (mfcc_features current) = List.length (mfcc_features stored) /\
  float_of_float32 (audio_similarity_of w current stored) = Some sc /\
  score_le (Num (85 # 100)) sc.
Proof.
  unfold audio_candidate, same_length, SIMILARITY_THRESHOLDS.audio_similarity.
  destruct (path_exists w stored_path);
    [|simpl; split; [intros [] | intros (_ & ? & _); discriminate]].
  destruct (Nat.eqb_spec (List.length (spectral_centroid current))
                         (List.length (spectral_centroid stored))) as [Hc|Hc];
    [|simpl; split; [intros [] | intros (_ & _ & ? & _); contradiction]].
  destruct (Nat.eqb_spec (List.length (mfcc_features current))
                         (List.length (mfcc_features stored))) as [Hm|Hm];
    [|simpl; split; [intros [] | intros (_ & _ & _ & ? & _); contradiction]].
  cbn [andb]. cbv zeta.
  destruct (F32.at_least (85 # 100) (audio_similarity_of w current stored)) eqn:E.
  - apply at_least_score in E as (sc' & -> & Hle). split.
    + intros [H|[]]. inversion H; subst. auto 6.
    + intros (-> & _ & _ & _ & [= ->] & _). left. reflexivity.
  - split; [intros []|]. intros (_ & _ & _ & _ & Hs & Hle).
    assert (F32.at_least (85 # 100) (audio_similarity_of w current stored) = true)
      as Habs by (apply at_least_score; eauto).
    congruence.
Qed.

Lemma in_document_candidate (w : world) (content stored_path stored_content : string)
      (p : string) (sc : score) :
  In (p, sc) (document_candidate w content stored_path stored_content) ->
  p = stored_path /\ path_exists w stored_path = true
  /\ exists q, sc = Num q /\ (85 # 100 <= q)%Q.
Proof.
  unfold document_candidate, SIMILARITY_THRESHOLDS.text_similarity.
  destruct (path_exists w stored_path); [|intros []].
  destruct (Py.truthy (Some stored_content)); [|intros []].
  cbn [andb].
  destruct (Qle_bool _ _) eqn:E; [|intros []].
  apply Qle_bool_iff in E.
  intros [H|[]]. inversion H; subst. eauto.
Qed.

Lemma in_fuzzy_candidate (w : world) (fuzzy_hash stored_path stored_hash : string)
      (p : string) (sc : score) :
  In (p, sc) (fuzzy_candidate w fuzzy_hash stored_path stored_hash) <->
  p = stored_path /\ path_exists w stored_path = true /\
  80 <= ssdeep_compare w fuzzy_hash stored_hash /\
  sc = Num (inject_Z (ssdeep_compare w fuzzy_hash stored_hash) / 100).
Proof.
  unfold fuzzy_candidate, SIMILARITY_THRESHOLDS.fuzzy_similarity.
  destruct (path_exists w stored_path).
  - destruct (Z.leb_spec 80 (ssdeep_compare w fuzzy_hash stored_hash)); simpl.
    + split.
      * intros [H0|[]]. inversion H0; subst. auto.
      * intros (-> & _ & _ & ->). left. reflexivity.
    + split; [intros [] | intros (_ & _ & ? & _); lia].
  - simpl. split; [intros [] | intros (_ & ? & _); discriminate].
Qed.

(** Membership in the sorted result of a loop over the other rows of a
    table. *)
Lemma in_scan {A : Type} (file_path : string) (t : table A)
      (body : string * A -> list (string * score)) (c : string * score) :
  In c (sorted_by_score (flat_map body (select_others file_path t))) <->
  exists r, In r t /\ fst r <> file_path /\ In c (body r).
Proof.
  rewrite in_sorted_by_score, in_flat_map.
  split; intros (r & Hr & Hc); exists r.
  - apply in_select_others in Hr. tauto.
  - rewrite in_select_others. tauto.
Qed.

Lemma in_hash_scan {A : Type} (w : world) (file_path : string) (t : table (row A))
      (get : A -> Z) (current_hash : Z) (p : string) (sc : score) :
  In (p, sc)
     (sorted_by_score
        (flat_map (fun r => hash_candidate w current_hash (fst r) (get (columns (snd r))))
                  (select_others file_path t))) <->
  exists r, In (p, r) t /\ p <> file_path /\ path_exists w p = true /\
            hash_difference current_hash (get (columns r)) <= 10 /\
            sc = Num (1 - inject_Z (hash_difference current_hash (get (columns r))) / 64).
Proof.
  rewrite in_scan. split.
  - intros ([q r] & Hr & Hne & Hc). simpl in *.
    apply in_hash_candidate in Hc as (-> & He & Hd & ->).
    exists r. auto.
  - intros (r & Hr & Hne & He & Hd & ->).
    exists (p, r). simpl. repeat split; try assumption.
    apply in_hash_candidate. auto.
Qed.

(** ** C5 *)

(** C5. For an image (and for a video thumbnail) the scan returns a stored
    path with a score exactly when that path is another row of the table,
    exists on disk and its perceptual hash differs from the fresh one in
    at most 10 bits; the score is then 1 - distance/64.  Both scans use
    the same bound. *)
Theorem perceptual_hash_scan_threshold :
  forall (w : world) (d : detector_db) (file_path : string),
    cursor d = true ->
    (forall hashes,
        calculate_image_hashes w file_path = Some hashes ->
        forall p sc,
          In (p, sc) (find_similar_images w d file_path) <->
          exists r,
            In (p, r) (image_hashes d) /\ p <> file_path /\
            path_exists w p = true /\
            hash_difference (perceptual_hash hashes)
                            (perceptual_hash (columns r)) <= 10 /\
            sc = Num (1 - inject_Z (hash_difference (perceptual_hash hashes)
                                      (perceptual_hash (columns r))) / 64))
    /\ (forall video_data,
           calculate_video_thumbnail_hash w file_path = Some video_data ->
           forall p sc,
             In (p, sc) (find_similar_videos w d file_path) <->
             exists r,
               In (p, r) (video_thumbnails d) /\ p <> file_path /\
               path_exists w p = true /\
               hash_difference (thumbnail_hash video_data)
                               (thumbnail_hash (columns r)) <= 10 /\
               sc = Num (1 - inject_Z (hash_difference (thumbnail_hash video_data)
                                         (thumbnail_hash (columns r))) / 64)).
Proof.
  intros w d file_path Hcur. split.
  - intros hashes Hh p sc. unfold find_similar_images.
    rewrite Hcur, Hh.
    assert (PIL_AVAILABLE w = true) as ->.
    { unfold calculate_image_hashes in Hh.
      destruct (PIL_AVAILABLE w); [reflexivity | discriminate]. }
    simpl. apply in_hash_scan.
  - intros video_data Hv p sc. unfold find_similar_videos.
    rewrite Hcur, Hv.
    assert (CV2_AVAILABLE w = true) as ->.
    { unfold calculate_video_thumbnail_hash in Hv.
      destruct (CV2_AVAILABLE w); [reflexivity | discriminate]. }
    simpl. apply in_hash_scan.
Qed.

Lemma perceptual_hash_scan_threshold_witness :
  cursor (detector Scenario.cat_known) = true
  /\ In (Scenario.cat, Num (1 - inject_Z 6 / 64))
        (find_similar_images Scenario.image_world (detector Scenario.cat_known)
                             Scenario.kitten).
Proof.
  split; [reflexivity|].
  apply (proj1 (perceptual_hash_scan_threshold
                  Scenario.image_world (detector Scenario.cat_known)
                  Scenario.kitten eq_refl)
               (Scenario.hashes_of 63) eq_refl).
  exists (mk_row (Scenario.hashes_of 0) 4096 1%Q).
  split; [left; reflexivity|].
  split; [discriminate|].
  split; [reflexivity|].
  split; [vm_compute; discriminate | reflexivity].
Defined.

(** ** C6 *)

(** C6 (as the code has it). The similarity of an audio candidate is the
    mean of two cosine similarities, one between the spectral-centroid
    arrays and one between the MFCC arrays, each computed in float32 like
    the mean itself; a candidate is compared only when both pairs of
    arrays have equal lengths, and it is returned, with that mean as its
    score, exactly when the mean is at least 0.85 (which positive infinity
    is, and nan is not). *)
Theorem audio_scan_mean_of_cosines :
  forall (w : world) (d : detector_db) (file_path : string)
         (fingerprint : audio_fingerprint_t),
    cursor d = true ->
    calculate_audio_fingerprint w file_path = Some fingerprint ->
    forall p sc,
      In (p, sc) (find_similar_audio w d file_path) <->
      exists r,
        In (p, r) (audio_fingerprints d) /\ p <> file_path /\
        path_exists w p = true /\
        List.length (spectral_centroid fingerprint)
        = List.length (spectral_centroid (columns r)) /\
        List.length (mfcc_features fingerprint)
        = List.length (mfcc_features (columns r)) /\
        float_of_float32
          (F32.div
             (F32.add (cosine w (spectral_centroid fingerprint)
                                (spectral_centroid (columns r)))
                      (cosine w (mfcc_features fingerprint)
                                (mfcc_features (columns r))))
             (F32.of_Z 2))
        = Some sc /\
        score_le (Num (85 # 100)) sc.
Proof.
  intros w d file_path fingerprint Hcur Hf p sc.
  unfold find_similar_audio. rewrite Hcur, Hf.
  assert (LIBROSA_AVAILABLE w = true) as ->.
  { unfold calculate_audio_fingerprint in Hf.
    destruct (LIBROSA_AVAILABLE w); [reflexivity | discriminate]. }
  simpl. rewrite in_scan. split.
  - intros ([q r] & Hr & Hne & Hc). simpl in *.
    apply in_audio_candidate in Hc as (-> & He & Hlc & Hlm & Hs & Hq).
    exists r. repeat split; assumption.
  - intros (r & Hr & Hne & He & Hlc & Hlm & Hs & Hq).
    exists (p, r). simpl. repeat split; try assumption.
    apply in_audio_candidate. repeat split; assumption.
Qed.

Lemma audio_scan_mean_of_cosines_witness :
  cursor Scenario.song_db = true
  /\ calculate_audio_fingerprint Scenario.audio_world Scenario.remix
     = Some Scenario.remix_features
  /\ In (Scenario.song, Num (F32.finite_value false 15099494 (-24)))
        (find_similar_audio Scenario.audio_world Scenario.song_db Scenario.remix).
Proof.
  split; [reflexivity|]. split; [reflexivity|].
  apply (proj2 (audio_scan_mean_of_cosines
                  Scenario.audio_world Scenario.song_db Scenario.remix
                  Scenario.remix_features eq_refl eq_refl
                  Scenario.song (Num (F32.finite_value false 15099494 (-24))))).
  exists (mk_row Scenario.song_features 4096 1%Q).
  split; [left; reflexivity|].
  split; [discriminate|].
  repeat split; try reflexivity.
  vm_compute. discriminate.
Defined.

(** C6, where the claim fails.  The remix is returned as similar to the
    song with a similarity of about 0.9, although the cosine similarity
    of the MFCC arrays is about 0.8, that of the spectral-centroid arrays
    is 1, and that of the two arrays taken together as one vector is
    about 0.8: the returned value is none of them, and the candidate
    qualifies with a cosine similarity below 0.85. *)
Lemma audio_similarity_is_not_a_cosine :
  exists sc mfcc_sim centroid_sim joint_sim : Q,
    find_similar_audio Scenario.audio_world Scenario.song_db Scenario.remix
    = [(Scenario.song, Num sc)]
    /\ float_of_float32
         (cosine Scenario.audio_world
                 (mfcc_features Scenario.remix_features)
                 (mfcc_features Scenario.song_features)) = Some (Num mfcc_sim)
    /\ float_of_float32
         (cosine Scenario.audio_world
                 (spectral_centroid Scenario.remix_features)
                 (spectral_centroid Scenario.song_features))
       = Some (Num centroid_sim)
    /\ float_of_float32
         (cosine Scenario.audio_world
                 (spectral_centroid Scenario.remix_features
                  ++ mfcc_features Scenario.remix_features)
                 (spectral_centroid Scenario.song_features
                  ++ mfcc_features Scenario.song_features))
       = Some (Num joint_sim)
    /\ (89 # 100 < sc)%Q /\ (sc < 91 # 100)%Q
    /\ (mfcc_sim < 85 # 100)%Q /\ (centroid_sim == 1)%Q
    /\ (joint_sim < 85 # 100)%Q.
Proof.
  exists (F32.finite_value false 15099494 (-24)),
         (F32.finite_value false 13421773 (-24)),
         (F32.finite_value false 8388608 (-23)),
         (F32.finite_value false 13421773 (-24)).
  repeat split; reflexivity.
Qed.

(** The float32 nearest to 0.85 is 14260634 / 2^24, just above 0.85, and
    the float32 before it is below: the test [similarity >= 0.85] holds
    from the first on, whether it is made in float32 or in float64. *)
Example audio_threshold_boundary :
  F32.at_least (85 # 100) (SpecFloat.S754_finite false 14260634 (-24)) = true
  /\ F32.at_least (85 # 100) (SpecFloat.S754_finite false 14260633 (-24)) = false
  /\ F32.at_least (85 # 100) (F32.div (F32.of_Z 1) (F32.of_Z 0)) = true
  /\ F32.at_least (85 # 100) (F32.div (F32.of_Z 0) (F32.of_Z 0)) = false
  /\ F32.div (F32.of_Z 85) (F32.of_Z 100)
     = SpecFloat.S754_finite false 14260634 (-24).
Proof. repeat split; vm_compute; reflexivity. Qed.

(** ** C7 *)

Lemma in_similarity_results (w : world) (d : detector_db) (file_path : string)
      (m : modality) (l : list (string * score)) :
  In (m, l) (similarity_results w d file_path) ->
  l = match m with
      | image_similarity => find_similar_images w d file_path
      | audio_similarity => find_similar_audio w d file_path
      | document_similarity => find_similar_documents w d file_path
      | video_similarity => find_similar_videos w d file_path
      | fuzzy_similarity => find_fuzzy_similar w d file_path
      end.
Proof.
  unfold similarity_results. rewrite !in_app_iff.
  repeat match goal with
         | |- context [if ?b then _ else _] => destruct b
         end; simpl;
    intuition (try match goal with H : (_, _) = (_, _) |- _ => inversion H end;
               subst; try reflexivity; try contradiction).
Qed.

(** C7 (as the code has it). When the text extracted from a document is
    shorter than 100 characters, matching that document returns no
    candidate, whatever the database holds (its own near-duplicate
    included); the document entry of the similarity results, when there
    is one, is empty.  The length is tested for the document that is
    being matched only, not for the stored ones. *)
Theorem short_document_never_matches :
  forall (w : world) (d : detector_db) (file_path text : string),
    extract_document_content w file_path = Some text ->
    Py.len (Py.strip text) < 100 ->
    find_similar_documents w d file_path = []
    /\ forall l, In (document_similarity, l) (similarity_results w d file_path) ->
                 l = [].
Proof.
  intros w d file_path text Ht Hlen.
  assert (find_similar_documents w d file_path = []) as Hnone.
  { unfold find_similar_documents. rewrite Ht.
    destruct (cursor d); simpl; [|reflexivity].
    apply Z.ltb_lt in Hlen. rewrite Hlen, orb_true_r. reflexivity. }
  split; [exact Hnone|].
  intros l Hl. apply in_similarity_results in Hl. congruence.
Qed.

Lemma short_document_never_matches_witness :
  extract_document_content Scenario.notes_world Scenario.notes = Some "hello"
  /\ Py.len (Py.strip "hello") < 100
  /\ find_similar_documents Scenario.notes_world
                            (detector Scenario.first_pass) Scenario.notes = [].
Proof.
  split; [reflexivity|]. split; [reflexivity|].
  exact (proj1 (short_document_never_matches
                  Scenario.notes_world (detector Scenario.first_pass)
                  Scenario.notes "hello" eq_refl eq_refl)).
Defined.

(** C7, where the claim fails.  The brief document, with a text of 93
    characters, is stored when it arrives; the minutes, which start with
    the same text, are then matched with it: the scan returns the short
    document and the minutes are reported as its duplicate by document
    similarity. *)
Lemma stored_short_document_is_matched :
  extract_document_content Scenario.documents_world Scenario.brief
  = Some Scenario.brief_text
  /\ Py.len (Py.strip Scenario.brief_text) < 100
  /\ find_similar_documents Scenario.documents_world
       (detector Scenario.brief_seen) Scenario.minutes
     = [(Scenario.brief, Num (186 # 218))]
  /\ alerts Scenario.minutes_seen
     = [Classified Scenario.brief NewUnique;
        Classified Scenario.minutes
          (ModalitySimilarDuplicate document_similarity Scenario.brief
                                    (Num (186 # 218)))].
Proof. repeat split; vm_compute; reflexivity. Qed.

(** ** C8 *)

Lemma store_typed_other_rows (w : world) (file_path file_ext : string)
      (size : Z) (mtime : Q) (d : detector_db) :
  other_rows_kept file_path d (store_typed w file_path file_ext size mtime d).
Proof.
  unfold store_typed, other_rows_kept.
  repeat match goal with
         | |- context [if ?b then _ else _] => destruct b
         | |- context [match ?o with Some _ => _ | None => _ end] => destruct o
         | |- context [match ?s with EmptyString => _ | String _ _ => _ end] =>
             destruct s
         end; simpl; rewrite ?select_others_insert; auto 6.
Qed.

Lemma store_fuzzy_other_rows (w : world) (file_path file_ext : string)
      (size : Z) (mtime : Q) (d : detector_db) :
  other_rows_kept file_path d (store_fuzzy w file_path file_ext size mtime d).
Proof.
  unfold store_fuzzy, other_rows_kept.
  repeat match goal with
         | |- context [if ?b then _ else _] => destruct b
         | |- context [match ?o with Some _ => _ | None => _ end] => destruct o
         | |- context [match ?s with EmptyString => _ | String _ _ => _ end] =>
             destruct s
         end; simpl; rewrite ?select_others_insert; auto 6.
Qed.

Lemma other_rows_kept_trans (file_path : string) (d1 d2 d3 : detector_db) :
  other_rows_kept file_path d1 d2 -> other_rows_kept file_path d2 d3 ->
  other_rows_kept file_path d1 d3.
Proof.
  unfold other_rows_kept.
  intros (A1 & A2 & A3 & A4 & A5) (B1 & B2 & B3 & B4 & B5).
  repeat split; congruence.
Qed.

Lemma store_fingerprints_other_rows (w : world) (file_path : string)
      (d d' : detector_db) :
  store_fingerprints w file_path d = Some d' -> other_rows_kept file_path d d'.
Proof.
  unfold store_fingerprints.
  destruct (cursor d); simpl.
  - destruct (getsize w file_path); [|discriminate].
    destruct (getmtime w file_path); [|discriminate].
    intros [= <-].
    eapply other_rows_kept_trans;
      [apply store_typed_other_rows | apply store_fuzzy_other_rows].
  - intros [= <-]. unfold other_rows_kept. auto 6.
Qed.

Lemma find_similar_images_alive (w : world) (d : detector_db) (file_path : string) :
  candidates_alive w file_path (find_similar_images w d file_path).
Proof.
  unfold find_similar_images, candidates_alive. intros p sc.
  destruct (negb (cursor d) || negb (PIL_AVAILABLE w))%bool; [intros []|].
  destruct (calculate_image_hashes w file_path); [|intros []].
  rewrite in_hash_scan. intros (r & _ & ? & ? & _). auto.
Qed.

Lemma find_similar_videos_alive (w : world) (d : detector_db) (file_path : string) :
  candidates_alive w file_path (find_similar_videos w d file_path).
Proof.
  unfold find_similar_videos, candidates_alive. intros p sc.
  destruct (negb (cursor d) || negb (CV2_AVAILABLE w))%bool; [intros []|].
  destruct (calculate_video_thumbnail_hash w file_path); [|intros []].
  rewrite in_hash_scan. intros (r & _ & ? & ? & _). auto.
Qed.

Lemma find_similar_audio_alive (w : world) (d : detector_db) (file_path : string) :
  candidates_alive w file_path (find_similar_audio w d file_path).
Proof.
  unfold find_similar_audio, candidates_alive. intros p sc.
  destruct (negb (cursor d) || negb (LIBROSA_AVAILABLE w))%bool; [intros []|].
  destruct (calculate_audio_fingerprint w file_path); [|intros []].
  rewrite in_scan. intros ([q r] & _ & Hne & Hc). simpl in *.
  apply in_audio_candidate in Hc as (-> & ? & _). auto.
Qed.

Lemma find_similar_documents_alive (w : world) (d : detector_db)
      (file_path : string) :
  candidates_alive w file_path (find_similar_documents w d file_path).
Proof.
  unfold find_similar_documents, candidates_alive. intros p sc.
  destruct (negb (cursor d)); [intros []|].
  destruct (extract_document_content w file_path) as [text|]; [|intros []].
  destruct (negb (Py.truthy (Some text)) || (Py.len (Py.strip text) <? 100))%bool;
    [intros []|].
  rewrite in_scan. intros ([q r] & _ & Hne & Hc). simpl in *.
  apply in_document_candidate in Hc as (-> & ? & _). auto.
Qed.

Lemma find_fuzzy_similar_alive (w : world) (d : detector_db) (file_path : string) :
  candidates_alive w file_path (find_fuzzy_similar w d file_path).
Proof.
  unfold find_fuzzy_similar, candidates_alive. intros p sc.
  destruct (negb (cursor d) || negb (SSDEEP_AVAILABLE w))%bool; [intros []|].
  destruct (calculate_fuzzy_hash w file_path) as [[|c f]|]; try (intros []).
  rewrite in_scan. intros ([q r] & _ & Hne & Hc). simpl in *.
  apply in_fuzzy_candidate in Hc as (-> & ? & _). auto.
Qed.

(** C8. Each of the five scans returns only paths other than the querying
    one that exist on disk at the time of the scan; and the whole of
    [find_all_similarities] leaves the rows of every other path, missing
    from disk or not, in the database as they were. *)
Theorem scans_skip_self_and_missing :
  forall (w : world) (d : detector_db) (file_path : string),
    candidates_alive w file_path (find_similar_images w d file_path)
    /\ candidates_alive w file_path (find_similar_audio w d file_path)
    /\ candidates_alive w file_path (find_similar_documents w d file_path)
    /\ candidates_alive w file_path (find_similar_videos w d file_path)
    /\ candidates_alive w file_path (find_fuzzy_similar w d file_path)
    /\ forall d' results,
         find_all_similarities w d file_path = Some (d', results) ->
         other_rows_kept file_path d d'.
Proof.
  intros w d file_path.
  split; [apply find_similar_images_alive|].
  split; [apply find_similar_audio_alive|].
  split; [apply find_similar_documents_alive|].
  split; [apply find_similar_videos_alive|].
  split; [apply find_fuzzy_similar_alive|].
  intros d' results. unfold find_all_similarities.
  destruct (store_fingerprints w file_path d) as [d1|] eqn:E; [|discriminate].
  intros [= <- _]. apply store_fingerprints_other_rows with (w := w). exact E.
Qed.

Lemma scans_skip_self_and_missing_witness :
  In (Scenario.cat, Num (58 # 64))
     (find_similar_images Scenario.image_world (detector Scenario.cat_known)
                          Scenario.kitten)
  /\ Scenario.cat <> Scenario.kitten
  /\ path_exists Scenario.image_world Scenario.cat = true
  /\ match find_all_similarities Scenario.image_world
                                 (detector Scenario.cat_known) Scenario.kitten with
     | Some (d', _) => other_rows_kept Scenario.kitten (detector Scenario.cat_known) d'
     | None => False
     end.
Proof.
  pose proof (scans_skip_self_and_missing
                Scenario.image_world (detector Scenario.cat_known) Scenario.kitten)
    as (Himg & _ & _ & _ & _ & Hkept).
  assert (In (Scenario.cat, Num (58 # 64))
             (find_similar_images Scenario.image_world
                                  (detector Scenario.cat_known) Scenario.kitten))
    as Hin by (left; reflexivity).
  split; [exact Hin|].
  split; [exact (proj1 (Himg _ _ Hin))|].
  split; [exact (proj2 (Himg _ _ Hin))|].
  destruct (find_all_similarities Scenario.image_world
                                  (detector Scenario.cat_known) Scenario.kitten)
    as [[d' results]|] eqn:E.
  - exact (Hkept d' results eq_refl).
  - vm_compute in E. discriminate.
Defined.

(** ** C9 *)

(** C9. Two filenames whose extensions differ once lower-cased are never
    similar, whatever their base names; hence the filename step of the
    decision never picks a stored name with another extension. *)
Theorem different_extension_never_similar :
  forall file1 file2 : string,
    Py.lower (snd (OsPath.splitext file1)) <> Py.lower (snd (OsPath.splitext file2)) ->
    is_similar_filename file1 file2 = false
    /\ forall (stored : list (string * string)) (h : string),
         List.find (name_matches file1) stored <> Some (h, file2).
Proof.
  intros file1 file2 Hext.
  assert (is_similar_filename file1 file2 = false) as Hsim.
  { unfold is_similar_filename.
    destruct (OsPath.splitext file1) as [name1 ext1].
    destruct (OsPath.splitext file2) as [name2 ext2]. simpl in Hext.
    destruct (String.eqb_spec (Py.lower ext1) (Py.lower ext2));
      [contradiction | reflexivity]. }
  split; [exact Hsim|].
  intros stored h Hfind. apply List.find_some in Hfind as [_ Hm].
  unfold name_matches in Hm. simpl in Hm.
  rewrite Hsim, andb_false_r in Hm. discriminate.
Qed.

Lemma different_extension_never_similar_witness :
  Py.lower (snd (OsPath.splitext "Report.PDF"))
  <> Py.lower (snd (OsPath.splitext "report.txt"))
  /\ is_similar_filename "Report.PDF" "report.txt" = false.
Proof.
  assert (Py.lower (snd (OsPath.splitext "Report.PDF"))
          <> Py.lower (snd (OsPath.splitext "report.txt"))) as H
      by (vm_compute; discriminate).
  split; [exact H|].
  exact (proj1 (different_extension_never_similar "Report.PDF" "report.txt" H)).
Defined.

(** ** C10 *)

(** C10. A file smaller than 1024 bytes or larger than 500 MB is refused
    by [should_process_file], and an event for it leaves the whole state
    as it was: nothing is fingerprinted, no alert is shown and no store is
    written. *)
Theorem size_limits_reject :
  forall (w : world) (file_path : string) (size : Z),
    getsize w file_path = Some size ->
    size < 1024 \/ 500 * 1024 * 1024 < size ->
    should_process_file w file_path = false
    /\ forall samples current_time is_new_file s,
         handle_file_event w samples current_time file_path is_new_file s = s.
Proof.
  intros w file_path size Hsize Hout.
  assert (should_process_file w file_path = false) as Hno.
  { unfold should_process_file. rewrite Hsize.
    unfold MIN_FILE_SIZE, MAX_FILE_SIZE.
    repeat match goal with
           | |- (if ?b then false else _) = false =>
               lazymatch b with
               | Z.ltb _ _ => fail
               | _ => destruct b; [reflexivity|]
               end
           end.
    destruct (Z.ltb_spec size 1024); [reflexivity|].
    destruct (Z.ltb_spec (500 * 1024 * 1024) size); [reflexivity|]. lia. }
  split; [exact Hno|].
  intros. unfold handle_file_event. rewrite Hno. reflexivity.
Qed.

Lemma size_limits_reject_witness :
  getsize Scenario.stub_world Scenario.stub = Some 512
  /\ (512 < 1024 \/ 500 * 1024 * 1024 < 512)
  /\ should_process_file Scenario.stub_world Scenario.stub = false.
Proof.
  split; [reflexivity|].
  split; [left; lia|].
  exact (proj1 (size_limits_reject Scenario.stub_world Scenario.stub 512
                                   eq_refl (or_introl eq_refl))).
Defined.

(** ** C3 *)

Lemma wait_loop_step (samples : nat -> observation) (remaining : nat)
      (st : wait_state) :
  wait_loop samples (S remaining) st
  = if stable_count st <? 3 then
      match wait_round (samples (wait_count st)) st with
      | Some st' => wait_loop samples remaining st'
      | None => (false, wait_count st)
      end
    else (3 <=? stable_count st, wait_count st).
Proof. reflexivity. Qed.

Lemma wait_round_size (current_size : Z) (st : wait_state) :
  wait_round (Size current_size) st
  = Some (if ((current_size =? last_size st) && (0 <? current_size))%bool
          then {| stable_count := stable_count st + 1;
                  wait_count := S (wait_count st);
                  last_size := last_size st |}
          else {| stable_count := 0;
                  wait_count := S (wait_count st);
                  last_size := current_size |}).
Proof. unfold wait_round. destruct (_ && _)%bool; reflexivity. Qed.











(** ** The decision engine *)

Lemma score_of_difference_confident (difference : Z) :
  difference <= 10 ->
  (7 # 10 < 1 - inject_Z difference / 64)%Q.
Proof.
  intros H.
  assert (inject_Z difference <= inject_Z 10)%Q as Hq
      by (rewrite <- Zle_Qle; exact H).
  setoid_replace (inject_Z difference / 64)%Q
    with (inject_Z difference * (1 # 64))%Q using relation Qeq by reflexivity.
  assert (inject_Z 10 == 10)%Q as H10 by reflexivity.
  lra.
Qed.

Lemma score_of_fuzzy_confident (similarity : Z) :
  80 <= similarity ->
  (7 # 10 < inject_Z similarity / 100)%Q.
Proof.
  intros H.
  assert (inject_Z 80 <= inject_Z similarity)%Q as Hq
      by (rewrite <- Zle_Qle; exact H).
  setoid_replace (inject_Z similarity / 100)%Q
    with (inject_Z similarity * (1 # 100))%Q using relation Qeq by reflexivity.
  assert (inject_Z 80 == 80)%Q as H80 by reflexivity.
  lra.
Qed.

Lemma Qlt_bool_true (x y : Q) : (x < y)%Q -> Qlt_bool x y = true.
Proof.
  intros H. unfold Qlt_bool. apply negb_true_iff.
  destruct (Qle_bool y x) eqn:E; [|reflexivity].
  apply Qle_bool_iff in E. exfalso. apply (Qlt_not_le _ _ H E).
Qed.

Lemma confident_intro (w : world) (p : string) (sc : score) :
  path_exists w p = true -> exceeds sc (7 # 10) -> confident w (7 # 10) (p, sc) = true.
Proof.
  intros He Hs. unfold confident; simpl.
  rewrite He. apply above_iff in Hs. rewrite Hs. reflexivity.
Qed.

Lemma score_le_exceeds (a threshold : Q) (sc : score) :
  (threshold < a)%Q -> score_le (Num a) sc -> exceeds sc threshold.
Proof.
  destruct sc as [q|]; simpl; [|tauto].
  intros Hlt Hle. eapply Qlt_le_trans; eassumption.
Qed.

Lemma find_similar_images_confident (w : world) (d : detector_db)
      (file_path : string) :
  all_confident w (find_similar_images w d file_path).
Proof.
  unfold find_similar_images, all_confident. intros [p sc].
  destruct (negb (cursor d) || negb (PIL_AVAILABLE w))%bool; [intros []|].
  destruct (calculate_image_hashes w file_path); [|intros []].
  rewrite in_hash_scan. intros (r & _ & _ & He & Hd & ->).
  apply confident_intro; [exact He | apply score_of_difference_confident, Hd].
Qed.

Lemma find_similar_videos_confident (w : world) (d : detector_db)
      (file_path : string) :
  all_confident w (find_similar_videos w d file_path).
Proof.
  unfold find_similar_videos, all_confident. intros [p sc].
  destruct (negb (cursor d) || negb (CV2_AVAILABLE w))%bool; [intros []|].
  destruct (calculate_video_thumbnail_hash w file_path); [|intros []].
  rewrite in_hash_scan. intros (r & _ & _ & He & Hd & ->).
  apply confident_intro; [exact He | apply score_of_difference_confident, Hd].
Qed.

Lemma find_similar_audio_confident (w : world) (d : detector_db)
      (file_path : string) :
  all_confident w (find_similar_audio w d file_path).
Proof.
  unfold find_similar_audio, all_confident. intros [p sc].
  destruct (negb (cursor d) || negb (LIBROSA_AVAILABLE w))%bool; [intros []|].
  destruct (calculate_audio_fingerprint w file_path); [|intros []].
  rewrite in_scan. intros ([q r] & _ & _ & Hc). simpl in Hc.
  apply in_audio_candidate in Hc as (-> & He & _ & _ & _ & Hq).
  apply confident_intro; [exact He|].
  eapply score_le_exceeds; [|exact Hq]. reflexivity.
Qed.

Lemma find_similar_documents_confident (w : world) (d : detector_db)
      (file_path : string) :
  all_confident w (find_similar_documents w d file_path).
Proof.
  unfold find_similar_documents, all_confident. intros [p sc].
  destruct (negb (cursor d)); [intros []|].
  destruct (extract_document_content w file_path) as [text|]; [|intros []].
  destruct (negb (Py.truthy (Some text)) || (Py.len (Py.strip text) <? 100))%bool;
    [intros []|].
  rewrite in_scan. intros ([q r] & _ & _ & Hc). simpl in Hc.
  apply in_document_candidate in Hc as (-> & He & q0 & -> & Hq).
  apply confident_intro; [exact He|]. simpl.
  eapply Qlt_le_trans; [|exact Hq]. reflexivity.
Qed.

Lemma find_fuzzy_similar_confident (w : world) (d : detector_db)
      (file_path : string) :
  all_confident w (find_fuzzy_similar w d file_path).
Proof.
  unfold find_fuzzy_similar, all_confident. intros [p sc].
  destruct (negb (cursor d) || negb (SSDEEP_AVAILABLE w))%bool; [intros []|].
  destruct (calculate_fuzzy_hash w file_path) as [[|c f]|]; try (intros []).
  rewrite in_scan. intros ([q r] & _ & _ & Hc). simpl in Hc.
  apply in_fuzzy_candidate in Hc as (-> & He & Hs & ->).
  apply confident_intro; [exact He | apply score_of_fuzzy_confident, Hs].
Qed.

Lemma similarity_results_confident (w : world) (d : detector_db)
      (file_path : string) (m : modality) (l : list (string * score)) :
  In (m, l) (similarity_results w d file_path) -> all_confident w l.
Proof.
  intros H. apply in_similarity_results in H as ->.
  destruct m;
    [ apply find_similar_images_confident
    | apply find_similar_audio_confident
    | apply find_similar_documents_confident
    | apply find_similar_videos_confident
    | apply find_fuzzy_similar_confident ].
Qed.

(** When every candidate passes the test, the loops stop at the first
    candidate of the first type that has one. *)
Lemma first_confident_qualifying (w : world)
      (similarities : list (modality * list (string * score))) :
  (forall m l, In (m, l) similarities -> all_confident w l) ->
  first_confident w similarities = first_qualifying similarities.
Proof.
  induction similarities as [|[m l] rest IH]; intros Hall; [reflexivity|].
  simpl. destruct l as [|c l].
  - simpl. apply IH. intros m' l' H. apply (Hall m' l'). right. exact H.
  - simpl. rewrite (Hall m (c :: l)); [reflexivity | left; reflexivity | left; reflexivity].
Qed.

Lemma first_confident_results (w : world) (d : detector_db) (file_path : string) :
  first_confident w (similarity_results w d file_path)
  = first_qualifying (similarity_results w d file_path).
Proof.
  apply first_confident_qualifying.
  intros m l. apply similarity_results_confident.
Qed.

(** ** Storing twice *)

Lemma store_typed_cursor (w : world) (file_path file_ext : string) (size : Z)
      (mtime : Q) (d : detector_db) :
  cursor (store_typed w file_path file_ext size mtime d) = cursor d.
Proof. unfold store_typed. split_store; reflexivity. Qed.

Lemma store_fuzzy_cursor (w : world) (file_path file_ext : string) (size : Z)
      (mtime : Q) (d : detector_db) :
  cursor (store_fuzzy w file_path file_ext size mtime d) = cursor d.
Proof. unfold store_fuzzy. split_store; reflexivity. Qed.

Lemma store_twice (w : world) (file_path file_ext : string) (size : Z)
      (mtime : Q) (d : detector_db) :
  let once := store_fuzzy w file_path file_ext size mtime
                (store_typed w file_path file_ext size mtime d) in
  store_fuzzy w file_path file_ext size mtime
    (store_typed w file_path file_ext size mtime once) = once.
Proof.
  unfold store_fuzzy, store_typed.
  split_store; simpl;
    unfold set_image_hashes, set_audio_fingerprints, set_document_content,
           set_video_thumbnails, set_fuzzy_hashes; simpl;
    rewrite ?insert_or_replace_twice; reflexivity.
Qed.

(** Storing the fingerprints of a file a second time changes nothing. *)
Lemma store_fingerprints_idempotent (w : world) (file_path : string)
      (d d' : detector_db) :
  store_fingerprints w file_path d = Some d' ->
  store_fingerprints w file_path d' = Some d'.
Proof.
  unfold store_fingerprints.
  destruct (cursor d) eqn:Hc; simpl.
  - destruct (getsize w file_path) as [size|]; [|discriminate].
    destruct (getmtime w file_path) as [mtime|]; [|discriminate].
    intros [= <-].
    rewrite store_fuzzy_cursor, store_typed_cursor, Hc. simpl.
    f_equal. apply store_twice.
  - intros [= <-]. rewrite Hc. reflexivity.
Qed.

Lemma store_fingerprints_defined (w : world) (file_path : string)
      (d : detector_db) (info : file_info) :
  fs w file_path = Some info ->
  exists d', store_fingerprints w file_path d = Some d'.
Proof.
  intros Hf. unfold store_fingerprints, getsize, getmtime. rewrite Hf. simpl.
  destruct (negb (cursor d)); eexists; reflexivity.
Qed.

(** ** Ordered dictionary *)

Lemma dict_get_set (k v : string) (l : list (string * string)) :
  dict_get k (dict_set k v l) = Some v.
Proof.
  induction l as [|[k' v'] l IH]; simpl.
  - rewrite String.eqb_refl. reflexivity.
  - destruct (String.eqb k' k) eqn:E; simpl.
    + rewrite String.eqb_refl. reflexivity.
    + rewrite E. exact IH.
Qed.

Lemma dict_set_twice (k v : string) (l : list (string * string)) :
  dict_set k v (dict_set k v l) = dict_set k v l.
Proof.
  induction l as [|[k' v'] l IH]; simpl.
  - rewrite String.eqb_refl. reflexivity.
  - destruct (String.eqb k' k) eqn:E; simpl.
    + rewrite String.eqb_refl. reflexivity.
    + rewrite E, IH. reflexivity.
Qed.

Lemma find_name_matches_set (file_name k : string) (l : list (string * string)) :
  List.find (name_matches file_name) l = None ->
  List.find (name_matches file_name) (dict_set k file_name l) = None.
Proof.
  assert (name_matches file_name (k, file_name) = false) as Hown.
  { unfold name_matches; simpl. rewrite String.eqb_refl. reflexivity. }
  induction l as [|[k' v'] l IH]; simpl.
  - rewrite Hown. reflexivity.
  - destruct (name_matches file_name (k', v')) eqn:E; [discriminate|].
    intros H. destruct (String.eqb k' k); simpl.
    + rewrite Hown. exact H.
    + rewrite E. apply IH, H.
Qed.

(** ** One pass of the decision engine *)

Lemma check_for_advanced_duplicates_run (w : world) (s : state)
      (file_path file_name file_hash : string) (info : file_info)
      (d' : detector_db) :
  fs w file_path = Some info ->
  store_fingerprints w file_path (detector s) = Some d' ->
  check_for_advanced_duplicates w file_path file_name file_hash s
  = (Some tt,
     state_after file_path file_name file_hash (modification_time info)
       (priority_classification file_name file_hash (file_hashes s)
          (similarity_results w d' file_path))
       d' s).
Proof.
  intros Hfs Hstore.
  pose proof (store_fingerprints_idempotent w file_path _ _ Hstore) as Hagain.
  unfold check_for_advanced_duplicates, priority_classification,
    check_exact, check_filename, check_similarity, record_new_file,
    store_fingerprints_guarded, find_all_similarities, getmtime.
  unfold bind at 1. unfold gets at 1. unfold bind at 1. unfold gets at 1.
  destruct (dict_get file_hash (file_hashes s)) as [original_name|] eqn:Hget.
  - destruct (negb (String.eqb original_name file_name)) eqn:Hown.
    + unfold_monad. simpl. reflexivity.
    + unfold_monad. simpl.
      destruct (List.find (name_matches file_name) (file_hashes s))
        as [[existing_hash existing_name]|] eqn:Hfind; simpl.
      * reflexivity.
      * rewrite Hstore. simpl. rewrite first_confident_results.
        destruct (first_qualifying (similarity_results w d' file_path))
          as [[similarity_type [similar_path score]]|]; simpl.
        -- reflexivity.
        -- rewrite Hfs. simpl. rewrite Hagain. simpl. reflexivity.
  - unfold_monad. simpl.
    destruct (List.find (name_matches file_name) (file_hashes s))
      as [[existing_hash existing_name]|] eqn:Hfind; simpl.
    + reflexivity.
    + rewrite Hstore. simpl. rewrite first_confident_results.
      destruct (first_qualifying (similarity_results w d' file_path))
        as [[similarity_type [similar_path score]]|]; simpl.
      * reflexivity.
      * rewrite Hfs. simpl. rewrite Hagain. simpl. reflexivity.
Qed.

Lemma similarity_results_order (w : world) (d : detector_db) (file_path : string) :
  similarity_results w d file_path
  = List.filter (fun e => applies (file_ext_of file_path) (fst e))
                (all_scans w d file_path).
Proof.
  unfold similarity_results, all_scans. simpl.
  destruct (in_set (file_ext_of file_path) IMAGE_EXTENSIONS);
    destruct (in_set (file_ext_of file_path) AUDIO_EXTENSIONS);
    destruct (in_set (file_ext_of file_path) DOCUMENT_EXTENSIONS);
    destruct (in_set (file_ext_of file_path) VIDEO_EXTENSIONS);
    destruct (in_set (file_ext_of file_path) SUPPORTED_FILE_TYPES);
    reflexivity.
Qed.

Lemma similarity_results_descending (w : world) (d : detector_db)
      (file_path : string) (m : modality) (l : list (string * score)) :
  In (m, l) (similarity_results w d file_path) -> descending l.
Proof.
  intros H. apply in_similarity_results in H as ->.
  destruct m; cbv beta iota;
    [ unfold find_similar_images | unfold find_similar_audio
    | unfold find_similar_documents | unfold find_similar_videos
    | unfold find_fuzzy_similar ];
    repeat match goal with
           | |- descending (sorted_by_score _) => apply sorted_by_score_descending
           | |- descending [] => constructor
           | |- descending (if ?b then _ else _) => destruct b
           | |- descending (match ?o with _ => _ end) => destruct o
           end.
Qed.

Lemma should_process_file_exists (w : world) (file_path : string) :
  should_process_file w file_path = true ->
  exists info, fs w file_path = Some info.
Proof.
  unfold should_process_file, path_exists.
  destruct (fs w file_path) as [info|]; [eauto | discriminate].
Qed.

(** An accepted event for a new file that becomes stable runs exactly one
    pass of the decision engine. *)
Lemma handle_file_event_new (w : world) (samples : nat -> observation)
      (current_time : Q) (file_path file_hash : string) (s : state)
      (info : file_info) (d' : detector_db) :
  should_process_file w file_path = true ->
  bool_decide (file_path ∈ processing_files s) = false ->
  wait_for_stable_file samples = true ->
  calculate_hash w file_path = Some file_hash ->
  fs w file_path = Some info ->
  store_fingerprints w file_path (detector s) = Some d' ->
  handle_file_event w samples current_time file_path true s
  = set_processing_files (fun p => p ∖ {[ file_path ]})
      (state_after file_path (OsPath.basename file_path) file_hash
         (modification_time info)
         (priority_classification (OsPath.basename file_path) file_hash
            (file_hashes s) (similarity_results w d' file_path))
         d' (taken_up current_time file_path s)).
Proof.
  intros Hproc Hfree Hstable Hhash Hfs Hstore.
  unfold handle_file_event. rewrite Hproc, Hfree. simpl.
  unfold monitor_and_process_file. rewrite Hstable, Hhash. simpl.
  rewrite (check_for_advanced_duplicates_run w _ file_path _ file_hash info d' Hfs);
    [reflexivity | exact Hstore].
Qed.

Lemma alerts_state_after (file_path file_name file_hash : string) (mtime : Q)
      (c : classification) (d' : detector_db) (s : state) :
  alerts (state_after file_path file_name file_hash mtime c d' s)
  = alerts s ++ [Classified file_path c].
Proof. destruct c; reflexivity. Qed.

(** ** C1 *)

(** C1 (as the code has it). A new file that passes the filter and becomes
    stable gets exactly one classification, by fixed priority: its hash
    stored under a name other than its own gives ExactDuplicate with score
    1.0; otherwise the first stored name, other than its own, that is
    similar gives NameSimilarDuplicate with score 0.8; otherwise the scans
    that apply to the file type are consulted in the order image, audio,
    document, video, fuzzy, and the top-ranked candidate of the first one
    that returned any gives ModalitySimilarDuplicate; otherwise NewUnique.
    A hash stored under the file's own name is not a match. *)
Theorem decision_by_fixed_priority :
  forall (w : world) (samples : nat -> observation) (current_time : Q)
         (file_path file_hash : string) (s : state),
    should_process_file w file_path = true ->
    bool_decide (file_path ∈ processing_files s) = false ->
    wait_for_stable_file samples = true ->
    calculate_hash w file_path = Some file_hash ->
    exists d',
      store_fingerprints w file_path (detector s) = Some d'
      /\ alerts (handle_file_event w samples current_time file_path true s)
         = alerts s
           ++ [Classified file_path
                 (priority_classification (OsPath.basename file_path) file_hash
                    (file_hashes s) (similarity_results w d' file_path))]
      /\ similarity_results w d' file_path
         = List.filter (fun e => applies (file_ext_of file_path) (fst e))
                       (all_scans w d' file_path)
      /\ forall m l, In (m, l) (similarity_results w d' file_path) ->
                     descending l.
Proof.
  intros w samples current_time file_path file_hash s Hproc Hfree Hstable Hhash.
  destruct (should_process_file_exists w file_path Hproc) as [info Hfs].
  destruct (store_fingerprints_defined w file_path (detector s) info Hfs)
    as [d' Hstore].
  exists d'. split; [exact Hstore|]. split; [|split].
  - rewrite (handle_file_event_new w samples current_time file_path file_hash s
                                   info d'); try assumption.
    simpl. rewrite alerts_state_after. reflexivity.
  - apply similarity_results_order.
  - intros m l. apply similarity_results_descending.
Qed.

Lemma decision_by_fixed_priority_witness :
  should_process_file Scenario.image_world Scenario.kitten = true
  /\ bool_decide (Scenario.kitten ∈ processing_files Scenario.cat_known) = false
  /\ wait_for_stable_file (Scenario.settled 3072) = true
  /\ calculate_hash Scenario.image_world Scenario.kitten = Some "bbbb"
  /\ exists d',
      store_fingerprints Scenario.image_world Scenario.kitten
                         (detector Scenario.cat_known) = Some d'
      /\ alerts (handle_file_event Scenario.image_world (Scenario.settled 3072) 20
                                   Scenario.kitten true Scenario.cat_known)
         = alerts Scenario.cat_known
           ++ [Classified Scenario.kitten
                 (priority_classification (OsPath.basename Scenario.kitten) "bbbb"
                    (file_hashes Scenario.cat_known)
                    (similarity_results Scenario.image_world d' Scenario.kitten))].
Proof.
  assert (should_process_file Scenario.image_world Scenario.kitten = true) as H1
      by (vm_compute; reflexivity).
  assert (bool_decide (Scenario.kitten ∈ processing_files Scenario.cat_known)
          = false) as H2 by (vm_compute; reflexivity).
  assert (wait_for_stable_file (Scenario.settled 3072) = true) as H3
      by (vm_compute; reflexivity).
  assert (calculate_hash Scenario.image_world Scenario.kitten = Some "bbbb") as H4
      by reflexivity.
  repeat (split; [assumption|]).
  destruct (decision_by_fixed_priority
              Scenario.image_world (Scenario.settled 3072) 20 Scenario.kitten "bbbb"
              Scenario.cat_known H1 H2 H3 H4) as (d' & Hd & Ha & _).
  exists d'. split; assumption.
Defined.

(** C1, where the claim fails.  The hash of the file is among the stored
    hashes, and the pass reports NewUnique, not ExactDuplicate: the stored
    name is the file's own. *)
Lemma own_hash_is_not_exact_duplicate :
  dict_get "5d41402a" (file_hashes Scenario.notes_known) = Some "notes.txt"
  /\ calculate_hash Scenario.notes_world Scenario.notes = Some "5d41402a"
  /\ should_process_file Scenario.notes_world Scenario.notes = true
  /\ wait_for_stable_file (Scenario.settled 2048) = true
  /\ alerts (handle_file_event Scenario.notes_world (Scenario.settled 2048) 20
                               Scenario.notes true Scenario.notes_known)
     = [Classified Scenario.notes NewUnique].
Proof.
  repeat split; vm_compute; reflexivity.
Qed.

(** ** C4 *)

(** C4 (as the code has it). A pass that reports a hash or a name
    duplicate leaves the fingerprint database and both hash stores as they
    were.  A pass that reports a modality duplicate leaves both hash stores
    as they were, but by then [find_all_similarities] has inserted or
    replaced the file's own fingerprint rows; the rows of every other path
    are as they were.  Only a pass that reports NewUnique writes the hash
    stores. *)
Theorem duplicate_pass_store_effects :
  forall (w : world) (s : state) (file_path file_name file_hash : string)
         (info : file_info),
    fs w file_path = Some info ->
    exists c d' s',
      check_for_advanced_duplicates w file_path file_name file_hash s = (Some tt, s')
      /\ alerts s' = alerts s ++ [Classified file_path c]
      /\ store_fingerprints w file_path (detector s) = Some d'
      /\ other_rows_kept file_path (detector s) (detector s')
      /\ match c with
         | ExactDuplicate _ _ | NameSimilarDuplicate _ _ =>
             detector s' = detector s
             /\ file_hashes s' = file_hashes s /\ mod_db s' = mod_db s
         | ModalitySimilarDuplicate _ _ _ =>
             detector s' = d'
             /\ file_hashes s' = file_hashes s /\ mod_db s' = mod_db s
         | NewUnique =>
             detector s' = d'
             /\ file_hashes s' = dict_set file_hash file_name (file_hashes s)
             /\ mod_db s'
                = <[ file_name := (file_hash, modification_time info) ]> (mod_db s)
         end.
Proof.
  intros w s file_path file_name file_hash info Hfs.
  destruct (store_fingerprints_defined w file_path (detector s) info Hfs)
    as [d' Hstore].
  pose proof (store_fingerprints_other_rows w file_path _ _ Hstore) as Hkept.
  exists (priority_classification file_name file_hash (file_hashes s)
            (similarity_results w d' file_path)), d'.
  eexists. split.
  - apply (check_for_advanced_duplicates_run w s file_path file_name file_hash
                                             info d' Hfs Hstore).
  - split; [apply alerts_state_after|]. split; [exact Hstore|].
    destruct (priority_classification _ _ _ _); simpl;
      (split; [try exact Hkept; unfold other_rows_kept; auto 6 | auto]).
Qed.

Lemma duplicate_pass_store_effects_witness :
  fs Scenario.image_world Scenario.kitten = Some (Scenario.regular 3072 "bbbb")
  /\ exists c d' s',
      check_for_advanced_duplicates Scenario.image_world Scenario.kitten
        "kitten.png" "bbbb" Scenario.cat_known = (Some tt, s')
      /\ alerts s' = alerts Scenario.cat_known ++ [Classified Scenario.kitten c]
      /\ store_fingerprints Scenario.image_world Scenario.kitten
                            (detector Scenario.cat_known) = Some d'
      /\ other_rows_kept Scenario.kitten (detector Scenario.cat_known) (detector s').
Proof.
  split; [reflexivity|].
  destruct (duplicate_pass_store_effects
              Scenario.image_world Scenario.cat_known Scenario.kitten
              "kitten.png" "bbbb" (Scenario.regular 3072 "bbbb") eq_refl)
    as (c & d' & s' & H1 & H2 & H3 & H4 & _).
  exists c, d', s'.
  split; [exact H1|]. split; [exact H2|]. split; [exact H3 | exact H4].
Defined.

(** C4, where the claim fails.  The kitten picture is classified as a
    duplicate by image similarity, and the pass has added its row to the
    image table. *)
Lemma modality_duplicate_is_stored :
  alerts Scenario.kitten_seen
  = alerts Scenario.cat_known
    ++ [Classified Scenario.kitten
          (ModalitySimilarDuplicate image_similarity Scenario.cat (Num (58 # 64)))]
  /\ map fst (image_hashes (detector Scenario.cat_known)) = [Scenario.cat]
  /\ map fst (image_hashes (detector Scenario.kitten_seen))
     = [Scenario.cat; Scenario.kitten]
  /\ detector Scenario.kitten_seen <> detector Scenario.cat_known.
Proof.
  repeat split; try (vm_compute; reflexivity).
  intros H. apply (f_equal (fun d => List.length (image_hashes d))) in H.
  vm_compute in H. discriminate.
Qed.

(** ** C2 *)

Lemma not_processing_after (file_path : string) (p : gset string) :
  bool_decide (file_path ∈ p ∖ {[ file_path ]}) = false.
Proof.
  apply bool_decide_eq_false_2. intros [_ Hnot]%elem_of_difference.
  apply Hnot, elem_of_singleton. reflexivity.
Qed.

(** Classifying again from the state a pass has left gives the same
    classification and writes nothing new. *)
Lemma priority_classification_again (w : world)
      (file_path file_name file_hash : string) (mtime : Q) (d' : detector_db)
      (s : state) :
  let c := priority_classification file_name file_hash (file_hashes s)
             (similarity_results w d' file_path) in
  let s' := state_after file_path file_name file_hash mtime c d' s in
  priority_classification file_name file_hash (file_hashes s')
    (similarity_results w d' file_path) = c
  /\ file_hashes (state_after file_path file_name file_hash mtime c d' s')
     = file_hashes s'
  /\ mod_db (state_after file_path file_name file_hash mtime c d' s') = mod_db s'
  /\ detector (state_after file_path file_name file_hash mtime c d' s')
     = detector s'.
Proof.
  cbv zeta. unfold priority_classification.
  destruct (dict_get file_hash (file_hashes s)) as [original_name|] eqn:Hget.
  - destruct (negb (String.eqb original_name file_name)) eqn:Hown.
    + simpl. rewrite Hget, Hown. simpl. auto.
    + destruct (List.find (name_matches file_name) (file_hashes s))
        as [[existing_hash existing_name]|] eqn:Hfind.
      * simpl. rewrite Hget, Hown, Hfind. simpl. auto.
      * destruct (first_qualifying (similarity_results w d' file_path))
          as [[similarity_type [similar_path score]]|] eqn:Hq.
        -- simpl. rewrite Hget, Hown, Hfind. simpl. auto.
        -- simpl. rewrite dict_get_set, String.eqb_refl. simpl.
           rewrite (find_name_matches_set _ _ _ Hfind). simpl.
           rewrite dict_set_twice, insert_insert_eq. auto.
  - destruct (List.find (name_matches file_name) (file_hashes s))
      as [[existing_hash existing_name]|] eqn:Hfind.
    + simpl. rewrite Hget, Hfind. simpl. auto.
    + destruct (first_qualifying (similarity_results w d' file_path))
        as [[similarity_type [similar_path score]]|] eqn:Hq.
      * simpl. rewrite Hget, Hfind. simpl. auto.
      * simpl. rewrite dict_get_set, String.eqb_refl. simpl.
        rewrite (find_name_matches_set _ _ _ Hfind). simpl.
        rewrite dict_set_twice, insert_insert_eq. auto.
Qed.

Lemma state_after_same_stores (file_path file_name file_hash : string)
      (mtime : Q) (c : classification) (d' : detector_db) (s1 s2 : state) :
  file_hashes s1 = file_hashes s2 -> mod_db s1 = mod_db s2 ->
  detector s1 = detector s2 ->
  file_hashes (state_after file_path file_name file_hash mtime c d' s1)
  = file_hashes (state_after file_path file_name file_hash mtime c d' s2)
  /\ mod_db (state_after file_path file_name file_hash mtime c d' s1)
     = mod_db (state_after file_path file_name file_hash mtime c d' s2)
  /\ detector (state_after file_path file_name file_hash mtime c d' s1)
     = detector (state_after file_path file_name file_hash mtime c d' s2).
Proof.
  intros H1 H2 H3. destruct c; simpl; rewrite ?H1, ?H2, ?H3; auto.
Qed.

Lemma store_after_pass (w : world) (file_path file_name file_hash : string)
      (mtime : Q) (c : classification) (d' : detector_db) (s : state) :
  store_fingerprints w file_path (detector s) = Some d' ->
  store_fingerprints w file_path
    (detector (state_after file_path file_name file_hash mtime c d' s)) = Some d'.
Proof.
  intros Hstore.
  pose proof (store_fingerprints_idempotent w file_path _ _ Hstore).
  destruct c; simpl; assumption.
Qed.

(** C2 (as the code has it). When the same stable file is processed twice
    as a new file, the second pass creates no row: it leaves the hash
    store, the modification store and the fingerprint database exactly as
    the first pass left them.  It is not suppressed, and it is not
    classified as an exact duplicate of itself: it reports the very
    classification the first pass reported, NewUnique included. *)
Theorem second_pass_repeats_first :
  forall (w : world) (samples1 samples2 : nat -> observation) (t1 t2 : Q)
         (file_path file_hash : string) (s0 : state),
    should_process_file w file_path = true ->
    bool_decide (file_path ∈ processing_files s0) = false ->
    wait_for_stable_file samples1 = true ->
    wait_for_stable_file samples2 = true ->
    calculate_hash w file_path = Some file_hash ->
    let s1 := handle_file_event w samples1 t1 file_path true s0 in
    let s2 := handle_file_event w samples2 t2 file_path true s1 in
    exists c,
      alerts s1 = alerts s0 ++ [Classified file_path c]
      /\ alerts s2 = alerts s1 ++ [Classified file_path c]
      /\ file_hashes s2 = file_hashes s1
      /\ mod_db s2 = mod_db s1
      /\ detector s2 = detector s1.
Proof.
  intros w samples1 samples2 t1 t2 file_path file_hash s0
         Hproc Hfree Hstable1 Hstable2 Hhash.
  destruct (should_process_file_exists w file_path Hproc) as [info Hfs].
  destruct (store_fingerprints_defined w file_path (detector s0) info Hfs)
    as [d' Hstore].
  set (file_name := OsPath.basename file_path).
  set (c := priority_classification file_name file_hash (file_hashes s0)
              (similarity_results w d' file_path)).
  set (s' := state_after file_path file_name file_hash (modification_time info)
               c d' (taken_up t1 file_path s0)).
  cbv zeta.
  rewrite (handle_file_event_new w samples1 t1 file_path file_hash s0 info d');
    try assumption.
  fold file_name c s'.
  assert (store_fingerprints w file_path (detector s') = Some d') as Hstore'
      by (apply store_after_pass; exact Hstore).
  rewrite (handle_file_event_new w samples2 t2 file_path file_hash _ info d');
    try assumption;
    [| simpl; apply not_processing_after ].
  fold file_name.
  destruct (priority_classification_again
              w file_path file_name file_hash (modification_time info) d'
              (taken_up t1 file_path s0)) as (Hc & Hfh & Hmod & Hdet).
  change (file_hashes (taken_up t1 file_path s0)) with (file_hashes s0) in Hc, Hfh, Hmod, Hdet.
  fold c in Hc, Hfh, Hmod, Hdet. fold s' in Hc, Hfh, Hmod, Hdet.
  change (file_hashes (set_processing_files (fun p => p ∖ {[file_path]}) s'))
    with (file_hashes s').
  rewrite Hc.
  destruct (state_after_same_stores
              file_path file_name file_hash (modification_time info) c d'
              (taken_up t2 file_path
                 (set_processing_files (fun p => p ∖ {[file_path]}) s'))
              s' eq_refl eq_refl eq_refl) as (Efh & Emod & Edet).
  exists c. simpl.
  split; [unfold s'; rewrite alerts_state_after; reflexivity|].
  split; [rewrite alerts_state_after; reflexivity|].
  split; [exact (eq_trans Efh Hfh)|].
  split; [exact (eq_trans Emod Hmod) | exact (eq_trans Edet Hdet)].
Qed.

Lemma second_pass_repeats_first_witness :
  should_process_file Scenario.notes_world Scenario.notes = true
  /\ bool_decide (Scenario.notes ∈ processing_files Scenario.empty_state) = false
  /\ wait_for_stable_file (Scenario.settled 2048) = true
  /\ calculate_hash Scenario.notes_world Scenario.notes = Some "5d41402a"
  /\ exists c,
      alerts Scenario.first_pass
      = alerts Scenario.empty_state ++ [Classified Scenario.notes c]
      /\ alerts Scenario.second_pass
         = alerts Scenario.first_pass ++ [Classified Scenario.notes c]
      /\ file_hashes Scenario.second_pass = file_hashes Scenario.first_pass
      /\ mod_db Scenario.second_pass = mod_db Scenario.first_pass
      /\ detector Scenario.second_pass = detector Scenario.first_pass.
Proof.
  assert (should_process_file Scenario.notes_world Scenario.notes = true) as H1
      by (vm_compute; reflexivity).
  assert (bool_decide (Scenario.notes ∈ processing_files Scenario.empty_state)
          = false) as H2 by (vm_compute; reflexivity).
  assert (wait_for_stable_file (Scenario.settled 2048) = true) as H3
      by (vm_compute; reflexivity).
  assert (calculate_hash Scenario.notes_world Scenario.notes = Some "5d41402a")
    as H4 by reflexivity.
  repeat (split; [assumption|]).
  exact (second_pass_repeats_first
           Scenario.notes_world (Scenario.settled 2048) (Scenario.settled 2048)
           10 20 Scenario.notes "5d41402a" Scenario.empty_state H1 H2 H3 H3 H4).
Defined.

(** C2, where the claim fails.  The same stable file is processed twice as
    a new file: the second pass is not suppressed and does not report an
    exact duplicate; NewUnique is reported both times. *)
Lemma new_unique_reported_twice :
  alerts Scenario.empty_state = []
  /\ alerts (handle_file_event Scenario.notes_world (Scenario.settled 2048) 10
                               Scenario.notes true Scenario.empty_state)
     = [Classified Scenario.notes NewUnique]
  /\ alerts (handle_file_event Scenario.notes_world (Scenario.settled 2048) 20
               Scenario.notes true
               (handle_file_event Scenario.notes_world (Scenario.settled 2048) 10
                                  Scenario.notes true Scenario.empty_state))
     = [Classified Scenario.notes NewUnique; Classified Scenario.notes NewUnique].
Proof.
  repeat split; vm_compute; reflexivity.
Qed.

(** ** The model on sample inputs *)

Lemma count_bits_range (n : nat) (x : Z) : 0 <= count_bits n x <= Z.of_nat n.
Proof.
  induction n as [|n IH]; [simpl; lia|].
  change (count_bits (S n) x)
    with (Z.b2z (Z.testbit x (Z.of_nat n)) + count_bits n x).
  destruct (Z.testbit x (Z.of_nat n)); simpl Z.b2z; lia.
Qed.

Lemma hash_difference_range (h1 h2 : Z) : 0 <= hash_difference h1 h2 <= 64.
Proof. unfold hash_difference. apply (count_bits_range 64). Qed.

Lemma hash_difference_sym (h1 h2 : Z) :
  hash_difference h1 h2 = hash_difference h2 h1.
Proof. unfold hash_difference. rewrite Z.lxor_comm. reflexivity. Qed.

Example hash_difference_six : hash_difference 0 63 = 6.
Proof. reflexivity. Qed.

Example compile_parenthesised_number :
  Re.re_compile "\s*\(\d+\)"
  = [Re.Many0 Re.ASpace; Re.One (Re.AChar "("); Re.Many1 Re.ADigit;
     Re.One (Re.AChar ")")].
Proof. reflexivity. Qed.

Example sub_parenthesised_number :
  Re.sub_empty (Re.re_compile "\s*\(\d+\)") "report (1)" = "report".
Proof. reflexivity. Qed.

Example sub_every_match :
  Re.sub_empty (Re.re_compile "\s*-\s*copy") "a - copy - copyb" = "ab".
Proof. reflexivity. Qed.

Example search_ignores_case :
  Re.search_ignorecase (Re.re_compile "^desktop\.ini$") "Desktop.INI" = true.
Proof. reflexivity. Qed.

Example search_office_lock_file :
  Re.search (Re.re_compile "^~\$") "~$doc.docx" = true.
Proof. reflexivity. Qed.

Example splitext_last_dot :
  OsPath.splitext "C:\a.b\report (1).PDF" = ("C:\a.b\report (1)", ".PDF").
Proof. reflexivity. Qed.

Example splitext_leading_dot : OsPath.splitext ".bashrc" = (".bashrc", EmptyString).
Proof. reflexivity. Qed.

Example basename_of_download :
  OsPath.basename "C:\Users\Manoj\Downloads\a.txt" = "a.txt".
Proof. reflexivity. Qed.

Example similar_numbered_copy :
  is_similar_filename "report.pdf" "report (1).PDF" = true.
Proof. vm_compute. reflexivity. Qed.

Example similar_explicit_copy :
  is_similar_filename "Report - Copy.pdf" "report.pdf" = true.
Proof. vm_compute. reflexivity. Qed.

Example version_suffix_needs_parenthesis :
  is_similar_filename "a_v2.pdf" "a.pdf" = false.
Proof. vm_compute. reflexivity. Qed.

Example empty_clean_name_is_not_similar :
  is_similar_filename "_1.pdf" "_2.pdf" = false.
Proof. vm_compute. reflexivity. Qed.

Example wait_on_settled_file :
  wait_for_stable_file_counted (Scenario.settled 5) 30 = (true, 4%nat).
Proof. reflexivity. Qed.

Example wait_on_vanishing_file :
  wait_for_stable_file_counted
    (fun n => if Nat.eqb n 2 then Gone else Size 5) 30 = (false, 2%nat).
Proof. reflexivity. Qed.

Example wait_runs_out :
  wait_for_stable_file_counted (Scenario.growing_to 27) 30 = (false, 30%nat).
Proof. reflexivity. Qed.

(** * Further properties of the handler *)

Lemma handler_frame_refl (s : state) : handler_frame s s.
Proof.
  unfold handler_frame. repeat split. exists []. rewrite app_nil_r. reflexivity.
Qed.

Lemma handler_frame_trans (s1 s2 s3 : state) :
  handler_frame s1 s2 -> handler_frame s2 s3 -> handler_frame s1 s3.
Proof.
  intros (A1 & A2 & l1 & A3) (B1 & B2 & l2 & B3).
  unfold handler_frame. repeat split; try congruence.
  exists (l1 ++ l2). rewrite B3, A3, app_assoc. reflexivity.
Qed.

Lemma bind_frame {A B : Type} (m : M A) (f : A -> M B) :
  (forall s, handler_frame s (snd (m s))) ->
  (forall a s, handler_frame s (snd (f a s))) ->
  forall s, handler_frame s (snd (bind m f s)).
Proof.
  intros Hm Hf s. unfold bind. specialize (Hm s).
  destruct (m s) as [[a|] s1]; simpl in *.
  - eapply handler_frame_trans; [exact Hm | apply Hf].
  - exact Hm.
Qed.

Lemma show_alert_frame (a : alert) (s : state) :
  handler_frame s (snd (show_alert a s)).
Proof.
  unfold show_alert, modify, handler_frame; simpl. repeat split. eauto.
Qed.

Lemma ret_frame {A : Type} (a : A) (s : state) : handler_frame s (snd (ret a s)).
Proof. apply handler_frame_refl. Qed.

Lemma or_raise_frame {A : Type} (o : option A) (s : state) :
  handler_frame s (snd (or_raise o s)).
Proof. destruct o; apply handler_frame_refl. Qed.

Lemma gets_frame {A : Type} (f : state -> A) (s : state) :
  handler_frame s (snd (gets f s)).
Proof. apply handler_frame_refl. Qed.

Lemma try_pass_frame (m : M unit) :
  (forall s, handler_frame s (snd (m s))) ->
  forall s, handler_frame s (snd (try_pass m s)).
Proof.
  intros Hm s. unfold try_pass. specialize (Hm s).
  destruct (m s) as [[[]|] s1]; exact Hm.
Qed.

Lemma modify_stores_frame (f : state -> state) :
  (forall s, processing_files (f s) = processing_files s
             /\ file_modification_times (f s) = file_modification_times s
             /\ alerts (f s) = alerts s) ->
  forall s, handler_frame s (snd (modify f s)).
Proof.
  intros Hf s. destruct (Hf s) as (H1 & H2 & H3).
  unfold modify, handler_frame; simpl. repeat split; try assumption.
  exists []. rewrite app_nil_r. exact H3.
Qed.

Ltac frame_step :=
  first
    [ apply bind_frame; [intros ? | intros ? ?]
    | apply show_alert_frame
    | apply ret_frame
    | apply or_raise_frame
    | apply gets_frame
    | apply try_pass_frame; intros ?
    | apply modify_stores_frame; intros ?; repeat split; reflexivity
    | apply handler_frame_refl ].

Lemma store_fingerprints_guarded_frame (w : world) (file_path : string) (s : state) :
  handler_frame s (snd (store_fingerprints_guarded w file_path s)).
Proof.
  revert s. unfold store_fingerprints_guarded. repeat frame_step.
Qed.

Lemma check_for_advanced_duplicates_frame (w : world)
      (file_path file_name file_hash : string) (s : state) :
  handler_frame s
    (snd (check_for_advanced_duplicates w file_path file_name file_hash s)).
Proof.
  revert s.
  unfold check_for_advanced_duplicates, check_exact, check_filename,
    check_similarity, record_new_file.
  repeat (split_matches; frame_step); try apply store_fingerprints_guarded_frame.
Qed.

Lemma check_for_modifications_frame (w : world)
      (file_path file_name current_hash : string) (s : state) :
  handler_frame s
    (snd (check_for_modifications w file_path file_name current_hash s)).
Proof.
  revert s. unfold check_for_modifications.
  repeat (split_matches; frame_step);
    try apply store_fingerprints_guarded_frame;
    try apply check_for_advanced_duplicates_frame.
Qed.

Lemma monitor_and_process_file_frame (w : world) (samples : nat -> observation)
      (file_path : string) (is_new_file : bool) (s : state) :
  let s' := monitor_and_process_file w samples file_path is_new_file s in
  processing_files s' = processing_files s ∖ {[ file_path ]}
  /\ file_modification_times s' = file_modification_times s
  /\ exists shown, alerts s' = alerts s ++ shown.
Proof.
  unfold monitor_and_process_file.
  match goal with
  | |- context [snd (?body s)] =>
      assert (handler_frame s (snd (body s))) as (H1 & H2 & H3)
  end.
  { destruct (negb (wait_for_stable_file samples)); [apply ret_frame|].
    destruct (calculate_hash w file_path); [|apply ret_frame].
    destruct is_new_file;
      [apply check_for_advanced_duplicates_frame
      | apply check_for_modifications_frame]. }
  simpl. rewrite H1. auto.
Qed.

Lemma in_flight_round_trip (x : string) (p : gset string) :
  x ∉ p -> (p ∪ {[ x ]}) ∖ {[ x ]} = p.
Proof.
  intros H. apply set_eq. intros y.
  rewrite elem_of_difference, elem_of_union, !elem_of_singleton. split.
  - intros [[Hy|Hy] Hne]; [assumption | contradiction].
  - intros Hy. split; [left; assumption|]. intros ->. contradiction.
Qed.

(** X1. Whatever an event does, the set of paths in flight is the same
    after it as before: a path is never left behind in
    [processing_files].  The alerts shown earlier stay, in order, and the
    only event time that can change is the one of the path itself. *)
Theorem handle_file_event_in_flight_restored :
  forall (w : world) (samples : nat -> observation) (current_time : Q)
         (file_path : string) (is_new_file : bool) (s : state),
    let s' := handle_file_event w samples current_time file_path is_new_file s in
    processing_files s' = processing_files s
    /\ (exists shown, alerts s' = alerts s ++ shown)
    /\ forall other, other <> file_path ->
                     file_modification_times s' !! other
                     = file_modification_times s !! other.
Proof.
  intros w samples current_time file_path is_new_file s.
  assert (processing_files s = processing_files s
          /\ (exists shown, alerts s = alerts s ++ shown)
          /\ forall other, other <> file_path ->
                           file_modification_times s !! other
                           = file_modification_times s !! other) as Hsame.
  { split; [reflexivity|]. split; [|reflexivity].
    exists []. rewrite app_nil_r. reflexivity. }
  unfold handle_file_event. cbv zeta.
  destruct (negb (should_process_file w file_path)); [exact Hsame|].
  destruct (bool_decide (file_path ∈ processing_files s)) eqn:Hin; [exact Hsame|].
  match goal with |- context [if ?b then s else _] => destruct b end;
    [exact Hsame|].
  destruct (monitor_and_process_file_frame
              w samples file_path is_new_file
              (set_file_modification_times (insert file_path current_time)
                 (set_processing_files (fun p => p ∪ {[ file_path ]}) s)))
    as (H1 & H2 & H3).
  cbv zeta in H1, H2, H3.
  apply bool_decide_eq_false_1 in Hin.
  split; [rewrite H1; simpl; apply in_flight_round_trip, Hin|].
  split; [exact H3|].
  intros other Hother. rewrite H2. simpl. apply lookup_insert_ne. congruence.
Qed.

Lemma handle_file_event_accepted (w : world) (samples : nat -> observation)
      (current_time : Q) (file_path : string) (s : state) :
  should_process_file w file_path = true ->
  bool_decide (file_path ∈ processing_files s) = false ->
  handle_file_event w samples current_time file_path true s
  = monitor_and_process_file w samples file_path true
      (taken_up current_time file_path s).
Proof.
  intros Hproc Hfree. unfold handle_file_event. rewrite Hproc, Hfree. reflexivity.
Qed.

(** X2. A modification event that follows an accepted creation event for
    the same path by less than two seconds is dropped: the state stays
    exactly as the creation event left it. *)
Theorem created_then_modified_collapses :
  forall (w : world) (samples1 samples2 : nat -> observation) (t1 t2 : Q)
         (file_path : string) (s : state),
    should_process_file w file_path = true ->
    bool_decide (file_path ∈ processing_files s) = false ->
    (t2 - t1 < 2)%Q ->
    let s1 := handle_file_event w samples1 t1 file_path true s in
    handle_file_event w samples2 t2 file_path false s1 = s1.
Proof.
  intros w samples1 samples2 t1 t2 file_path s Hproc Hfree Hsoon. cbv zeta.
  rewrite (handle_file_event_accepted w samples1 t1 file_path s Hproc Hfree).
  destruct (monitor_and_process_file_frame
              w samples1 file_path true (taken_up t1 file_path s))
    as (H1 & H2 & _).
  cbv zeta in H1, H2.
  unfold handle_file_event at 1. rewrite Hproc. simpl negb. cbv iota.
  rewrite H1, not_processing_after, H2. simpl.
  rewrite lookup_insert_eq, (Qlt_bool_true _ _ Hsoon). reflexivity.
Qed.

Lemma created_then_modified_collapses_witness :
  should_process_file Scenario.notes_world Scenario.notes = true
  /\ bool_decide (Scenario.notes ∈ processing_files Scenario.empty_state) = false
  /\ (11 - 10 < 2)%Q
  /\ handle_file_event Scenario.notes_world (Scenario.settled 2048) 11
                       Scenario.notes false Scenario.first_pass
     = Scenario.first_pass.
Proof.
  assert (should_process_file Scenario.notes_world Scenario.notes = true) as H1
      by (vm_compute; reflexivity).
  assert (bool_decide (Scenario.notes ∈ processing_files Scenario.empty_state)
          = false) as H2 by (vm_compute; reflexivity).
  assert (11 - 10 < 2)%Q as H3 by reflexivity.
  repeat (split; [assumption|]).
  exact (created_then_modified_collapses
           Scenario.notes_world (Scenario.settled 2048) (Scenario.settled 2048)
           10 11 Scenario.notes Scenario.empty_state H1 H2 H3).
Defined.

(** X3. An event writes nothing and shows nothing when the file does not
    become stable, when its hash cannot be computed, or when it is a
    modification event for a file whose name is known with the very hash
    the file has now. *)
Theorem silent_events :
  forall (w : world) (samples : nat -> observation) (current_time : Q)
         (file_path : string) (is_new_file : bool) (s : state),
    (wait_for_stable_file samples = false
     \/ calculate_hash w file_path = None
     \/ (is_new_file = false
         /\ exists file_hash timestamp,
             calculate_hash w file_path = Some file_hash
             /\ mod_db s !! OsPath.basename file_path = Some (file_hash, timestamp))) ->
    let s' := handle_file_event w samples current_time file_path is_new_file s in
    file_hashes s' = file_hashes s /\ mod_db s' = mod_db s
    /\ detector s' = detector s /\ alerts s' = alerts s.
Proof.
  intros w samples current_time file_path is_new_file s Hcase. cbv zeta.
  unfold handle_file_event.
  destruct (negb (should_process_file w file_path)); [auto|].
  destruct (bool_decide (file_path ∈ processing_files s)); [auto|].
  match goal with |- context [if ?b then s else _] => destruct b end; [auto|].
  unfold monitor_and_process_file.
  destruct Hcase as [Hw | [Hh | (-> & file_hash & timestamp & Hh & Hdb)]].
  - rewrite Hw. simpl. auto.
  - rewrite Hh. destruct (negb (wait_for_stable_file samples)); simpl; auto.
  - rewrite Hh. destruct (negb (wait_for_stable_file samples)); simpl; [auto|].
    unfold check_for_modifications, bind, gets, ret. simpl.
    rewrite Hdb, String.eqb_refl. simpl. auto.
Qed.

Lemma silent_events_witness :
  wait_for_stable_file (Scenario.growing_to 27) = false
  /\ alerts (handle_file_event Scenario.notes_world (Scenario.growing_to 27) 10
                               Scenario.notes true Scenario.empty_state)
     = alerts Scenario.empty_state.
Proof.
  assert (wait_for_stable_file (Scenario.growing_to 27) = false) as H
      by (vm_compute; reflexivity).
  split; [exact H|].
  exact (proj2 (proj2 (proj2
           (silent_events Scenario.notes_world (Scenario.growing_to 27) 10
                          Scenario.notes true Scenario.empty_state
                          (or_introl H))))).
Defined.

(** ** A changed file *)

Lemma in_dict_set (k v : string) (l : list (string * string)) (x : string * string) :
  In x (dict_set k v l) -> x = (k, v) \/ In x l.
Proof.
  induction l as [|[k' v'] l IH]; simpl.
  - intros [<-|[]]. auto.
  - destruct (String.eqb k' k); simpl.
    + intros [<-|H]; auto.
    + intros [<-|H]; [auto|]. destruct (IH H); auto.
Qed.

Lemma in_dict_set_other (k v : string) (l : list (string * string))
      (x : string * string) :
  In x l -> fst x <> k -> In x (dict_set k v l).
Proof.
  induction l as [|[k' v'] l IH]; simpl; [intros []|].
  intros [<-|H] Hne.
  - simpl in Hne. destruct (String.eqb_spec k' k); [contradiction|]. left. reflexivity.
  - destruct (String.eqb k' k); right; [assumption | apply IH; assumption].
Qed.

Lemma stale_hash_false (file_name current_hash : string) (x : string * string) :
  stale_hash file_name current_hash x = false <->
  (snd x <> file_name \/ fst x = current_hash).
Proof.
  unfold stale_hash.
  destruct (String.eqb_spec (snd x) file_name);
    destruct (String.eqb_spec (fst x) current_hash); simpl; split; auto;
    try discriminate; intros [?|?]; contradiction.
Qed.
(** X4. When a known file has changed, [check_for_modifications] shows
    "File modified", then at most one more alert, the match of the new
    content with another file, and the file's fingerprints are stored.
    If the user has the file deleted in the modal of that match, reading
    the modification time raises and both hash stores stay as they were.
    Otherwise the new hash and time are recorded under the name, and the
    name is left under exactly one hash, the new one: entries of other
    names under other hashes are untouched, and an entry another name had
    under the new hash is overwritten. *)
Theorem modification_replaces_hash :
  forall (w : world) (s : state) (file_path file_name current_hash : string)
         (info : file_info) (old_hash : string) (old_time : Q),
    fs w file_path = Some info ->
    mod_db s !! file_name = Some (old_hash, old_time) ->
    old_hash <> current_hash ->
    exists outcome s' shown,
      check_for_modifications w file_path file_name current_hash s = (outcome, s')
      /\ alerts s' = alerts s ++ FileModified file_name :: shown
      /\ (List.length shown <= 1)%nat
      /\ store_fingerprints w file_path (detector s) = Some (detector s')
      /\ if removed_by_modal w file_path shown
         then outcome = None
              /\ mod_db s' = mod_db s /\ file_hashes s' = file_hashes s
         else outcome = Some tt
              /\ mod_db s'
                 = <[ file_name := (current_hash, modification_time info) ]>
                     (mod_db s)
              /\ dict_get current_hash (file_hashes s') = Some file_name
              /\ (forall h, In (h, file_name) (file_hashes s') -> h = current_hash)
              /\ (forall h n, n <> file_name -> h <> current_hash ->
                              (In (h, n) (file_hashes s')
                               <-> In (h, n) (file_hashes s))).
Proof.
  intros w s file_path file_name current_hash info old_hash old_time
         Hfs Hdb Hchanged.
  destruct (store_fingerprints_defined w file_path (detector s) info Hfs)
    as [d' Hstore].
  pose proof (store_fingerprints_idempotent w file_path _ _ Hstore) as Hagain.
  assert (negb (String.eqb old_hash current_hash) = true) as Hneq.
  { apply negb_true_iff. destruct (String.eqb_spec old_hash current_hash);
      [contradiction | reflexivity]. }
  set (kept := List.filter (fun i => negb (stale_hash file_name current_hash i))
                           (file_hashes s)).
  assert (dict_get current_hash (dict_set current_hash file_name kept)
          = Some file_name
          /\ (forall h, In (h, file_name) (dict_set current_hash file_name kept) ->
                        h = current_hash)
          /\ (forall h n, n <> file_name -> h <> current_hash ->
                          (In (h, n) (dict_set current_hash file_name kept)
                           <-> In (h, n) (file_hashes s))))
    as Hfacts.
  { split; [apply dict_get_set|]. split.
    - intros h Hin. apply in_dict_set in Hin as [Heq|Hin]; [congruence|].
      unfold kept in Hin. apply filter_In in Hin as [_ Hkeep].
      apply negb_true_iff, stale_hash_false in Hkeep. simpl in Hkeep.
      destruct Hkeep; [contradiction | assumption].
    - intros h n Hn Hh. split.
      + intros Hin. apply in_dict_set in Hin as [Heq|Hin]; [congruence|].
        unfold kept in Hin. apply filter_In in Hin. tauto.
      + intros Hin. apply in_dict_set_other; [|exact Hh].
        unfold kept. apply filter_In. split; [exact Hin|].
        apply negb_true_iff, stale_hash_false. left. exact Hn. }
  unfold check_for_modifications.
  unfold bind at 1. unfold gets at 1. rewrite Hdb, Hneq.
  unfold find_all_similarities, store_fingerprints_guarded, getmtime.
  unfold_monad. simpl. rewrite Hstore. simpl.
  destruct (first_modified_match w file_name (similarity_results w d' file_path))
    as [[similarity_type [similar_path similarity_score]]|]; simpl.
  - destruct (modal_deletes w file_path similar_path) eqn:Hdel; simpl.
    + eexists _, _, [ModifiedNowMatches file_path similarity_type similar_path
                                        similarity_score].
      split; [reflexivity|]. simpl. rewrite Hdel.
      split; [rewrite <- app_assoc; reflexivity|].
      split; [lia|]. split; [first [exact Hstore | reflexivity]|]. auto.
    + rewrite Hfs; simpl; rewrite Hagain; simpl.
      eexists _, _, [ModifiedNowMatches file_path similarity_type similar_path
                                        similarity_score].
      split; [reflexivity|]. simpl. rewrite Hdel.
      split; [rewrite <- app_assoc; reflexivity|].
      split; [lia|]. split; [first [exact Hstore | reflexivity]|].
      split; [reflexivity|]. split; [reflexivity|]. exact Hfacts.
  - rewrite Hfs; simpl; rewrite Hagain; simpl.
    eexists _, _, []. split; [reflexivity|]. simpl.
    split; [reflexivity|]. split; [lia|]. split; [first [exact Hstore | reflexivity]|].
    split; [reflexivity|]. split; [reflexivity|]. exact Hfacts.
Qed.

Lemma modification_replaces_hash_witness :
  (exists s' shown,
      check_for_modifications Cases.notes_edited Scenario.notes "notes.txt"
                              "7d793037" Scenario.notes_known = (Some tt, s')
      /\ alerts s' = alerts Scenario.notes_known ++ FileModified "notes.txt" :: shown
      /\ (forall h, In (h, "notes.txt") (file_hashes s') -> h = "7d793037"))
  /\ (exists s' shown,
         check_for_modifications (Cases.with_deletion Scenario.image_world)
                                 Scenario.kitten "kitten.png" "bbbb"
                                 Cases.kitten_known = (None, s')
         /\ alerts s' = FileModified "kitten.png" :: shown
         /\ mod_db s' = mod_db Cases.kitten_known
         /\ file_hashes s' = file_hashes Cases.kitten_known).
Proof.
  split.
  - assert (mod_db Scenario.notes_known !! "notes.txt" = Some ("5d41402a", 1%Q))
      as Hdb by (vm_compute; reflexivity).
    assert ("5d41402a" <> "7d793037") as Hne by discriminate.
    destruct (modification_replaces_hash
                Cases.notes_edited Scenario.notes_known Scenario.notes "notes.txt"
                "7d793037" (Scenario.regular 2100 "7d793037") "5d41402a" 1%Q
                eq_refl Hdb Hne)
      as (outcome & s' & shown & Hrun & Halerts & _ & _ & Hcase).
    assert (removed_by_modal Cases.notes_edited Scenario.notes shown = false)
      as Hkept by (destruct shown as [|[] ?]; reflexivity).
    rewrite Hkept in Hcase. destruct Hcase as (-> & _ & _ & Honly & _).
    exists s', shown. split; [exact Hrun|]. split; [exact Halerts | exact Honly].
  - assert (mod_db Cases.kitten_known !! "kitten.png" = Some ("0000", 1%Q))
      as Hdb by (vm_compute; reflexivity).
    assert ("0000" <> "bbbb") as Hne by discriminate.
    destruct (modification_replaces_hash
                (Cases.with_deletion Scenario.image_world) Cases.kitten_known
                Scenario.kitten "kitten.png" "bbbb"
                (Scenario.regular 3072 "bbbb") "0000" 1%Q eq_refl Hdb Hne)
      as (outcome & s' & shown & Hrun & Halerts & _ & _ & Hcase).
    assert (exists a rest, shown = a :: rest
                           /\ removed_by_modal
                                (Cases.with_deletion Scenario.image_world)
                                Scenario.kitten shown = true) as (a & rest & -> & Hdel).
    { vm_compute in Hrun. injection Hrun as _ Hs'. subst s'.
      vm_compute in Halerts. injection Halerts as <-.
      eexists _, _. split; reflexivity. }
    rewrite Hdel in Hcase. destruct Hcase as (-> & Hmod & Hhashes).
    exists s', (a :: rest). split; [exact Hrun|].
    split; [exact Halerts|]. split; assumption.
Defined.

(** * Further properties of the stability wait *)

Lemma wait_loop_bounds (samples : nat -> observation) (max_wait : nat) :
  forall remaining st,
    (wait_count st + remaining = max_wait)%nat ->
    (0 < last_size st -> (1 <= wait_count st)%nat) ->
    (stable_count st <= 0 \/ stable_count st + 1 <= Z.of_nat (wait_count st)) ->
    (snd (wait_loop samples remaining st) <= max_wait)%nat
    /\ (fst (wait_loop samples remaining st) = true ->
        (4 <= snd (wait_loop samples remaining st))%nat).
Proof.
  induction remaining as [|remaining IH]; intros st Hwc Hlast Hsc.
  - simpl. split; [lia|]. intros H3. apply Z.leb_le in H3. lia.
  - rewrite wait_loop_step.
    destruct (Z.ltb_spec (stable_count st) 3) as [Hlt|Hge].
    + destruct (samples (wait_count st)) as [| current_size |].
      * simpl. split; [lia | discriminate].
      * rewrite wait_round_size.
        apply IH;
          destruct (Z.eqb_spec current_size (last_size st));
          destruct (Z.ltb_spec 0 current_size); simpl; lia.
      * simpl. apply IH; simpl; lia.
    + simpl. split; [lia|]. intros _. lia.
Qed.

(** X5. The wait reads at most [max_wait] samples, and it never succeeds
    on fewer than four: with the default half-second pause a file is
    classified no sooner than two seconds after the event, and a wait
    limited to fewer than four samples always fails. *)
Theorem wait_sample_bounds :
  forall (samples : nat -> observation) (max_wait : nat),
    (snd (wait_for_stable_file_counted samples max_wait) <= max_wait)%nat
    /\ (fst (wait_for_stable_file_counted samples max_wait) = true ->
        (4 <= snd (wait_for_stable_file_counted samples max_wait))%nat)
    /\ ((max_wait < 4)%nat ->
        fst (wait_for_stable_file_counted samples max_wait) = false).
Proof.
  intros samples max_wait.
  destruct (wait_loop_bounds samples max_wait max_wait
              {| stable_count := 0; wait_count := O; last_size := -1 |})
    as [Hle Hfour]; simpl; try lia.
  unfold wait_for_stable_file_counted.
  split; [exact Hle|]. split; [exact Hfour|].
  intros Hsmall.
  destruct (fst (wait_loop samples max_wait _)) eqn:E; [|reflexivity].
  specialize (Hfour eq_refl). lia.
Qed.

Lemma wait_sample_bounds_witness :
  (3 < 4)%nat
  /\ fst (wait_for_stable_file_counted (Scenario.settled 5) 3) = false.
Proof.
  split; [lia|].
  apply (proj2 (proj2 (wait_sample_bounds (Scenario.settled 5) 3))). lia.
Defined.

(** * Further properties of the scans *)

Lemma Qlt_bool_iff (x y : Q) : Qlt_bool x y = true <-> (x < y)%Q.
Proof.
  split; [|apply Qlt_bool_true].
  unfold Qlt_bool. intros H. apply negb_true_iff in H.
  apply Qnot_le_lt. intros Hle. apply Qle_bool_iff in Hle. congruence.
Qed.

(** X6. Every candidate that a scan returns exists on disk and has a score
    above 0.7, so the test [os.path.exists(similar_path) and
    similarity_score > 0.7] of the decision loop never turns a candidate
    down: the loop always takes the first candidate of the first type
    that has one. *)
Theorem decision_test_never_rejects :
  forall (w : world) (d : detector_db) (file_path : string),
    (forall m l c,
        In (m, l) (similarity_results w d file_path) -> In c l ->
        path_exists w (fst c) = true /\ exceeds (snd c) (7 # 10))
    /\ first_confident w (similarity_results w d file_path)
       = first_qualifying (similarity_results w d file_path).
Proof.
  intros w d file_path. split; [|apply first_confident_results].
  intros m l c Hl Hc.
  pose proof (similarity_results_confident w d file_path m l Hl c Hc) as H.
  unfold confident in H. apply andb_true_iff in H as [He Hs].
  split; [exact He | apply above_iff, Hs].
Qed.

Lemma decision_test_never_rejects_witness :
  In (image_similarity, [(Scenario.cat, Num (58 # 64))])
     (similarity_results Scenario.image_world (detector Scenario.kitten_seen)
                         Scenario.kitten)
  /\ path_exists Scenario.image_world Scenario.cat = true
  /\ exceeds (Num (58 # 64)) (7 # 10).
Proof.
  assert (In (image_similarity, [(Scenario.cat, Num (58 # 64))])
             (similarity_results Scenario.image_world
                                 (detector Scenario.kitten_seen) Scenario.kitten))
    as Hin by (vm_compute; left; reflexivity).
  split; [exact Hin|].
  exact (proj1 (decision_test_never_rejects
                  Scenario.image_world (detector Scenario.kitten_seen)
                  Scenario.kitten)
               image_similarity _ (Scenario.cat, Num (58 # 64)) Hin
               (or_introl eq_refl)).
Defined.

Lemma descending_head (c : string * score) (rest : list (string * score)) :
  descending (c :: rest) -> forall c', In c' rest -> score_le (snd c') (snd c).
Proof.
  intros H. inversion H as [|x l Hall Hrest]; subst.
  rewrite List.Forall_forall in Hall. exact Hall.
Qed.

(** X7. The first candidate of every list of the similarity results is a
    best one: no other candidate of that list has a higher score. *)
Theorem first_candidate_is_best :
  forall (w : world) (d : detector_db) (file_path : string) (m : modality)
         (c : string * score) (rest : list (string * score)),
    In (m, c :: rest) (similarity_results w d file_path) ->
    forall c', In c' rest -> score_le (snd c') (snd c).
Proof.
  intros w d file_path m c rest Hin.
  apply descending_head.
  apply (similarity_results_descending w d file_path m). exact Hin.
Qed.

Lemma first_candidate_is_best_witness :
  In (image_similarity, [(Cases.lion, Num (59 # 64)); (Scenario.cat, Num (58 # 64))])
     (similarity_results Cases.gallery_world Cases.gallery_db Scenario.kitten)
  /\ score_le (Num (58 # 64)) (Num (59 # 64)).
Proof.
  assert (In (image_similarity,
              [(Cases.lion, Num (59 # 64)); (Scenario.cat, Num (58 # 64))])
             (similarity_results Cases.gallery_world Cases.gallery_db
                                 Scenario.kitten))
    as Hin by (vm_compute; left; reflexivity).
  split; [exact Hin|].
  exact (first_candidate_is_best
           Cases.gallery_world Cases.gallery_db Scenario.kitten image_similarity
           _ _ Hin (Scenario.cat, Num (58 # 64)) (or_introl eq_refl)).
Defined.

Lemma difference_above_modified_threshold (difference : Z) :
  (85 # 100 < similarity_of_difference difference)%Q <-> difference <= 9.
Proof.
  unfold similarity_of_difference.
  setoid_replace (inject_Z difference / 64)%Q
    with (inject_Z difference * (1 # 64))%Q using relation Qeq by reflexivity.
  split.
  - intros H. assert (inject_Z difference < 48 # 5)%Q as Hq by lra.
    unfold Qlt in Hq. simpl in Hq. lia.
  - intros H. assert (inject_Z difference <= inject_Z 9)%Q as Hq
        by (rewrite <- Zle_Qle; exact H).
    assert (inject_Z 9 == 9)%Q as H9 by reflexivity. lra.
Qed.

Lemma fuzzy_above_modified_threshold (similarity : Z) :
  (85 # 100 < inject_Z similarity / 100)%Q <-> 86 <= similarity.
Proof.
  setoid_replace (inject_Z similarity / 100)%Q
    with (inject_Z similarity * (1 # 100))%Q using relation Qeq by reflexivity.
  split.
  - intros H. assert (85 < inject_Z similarity)%Q as Hq by lra.
    unfold Qlt in Hq. simpl in Hq. lia.
  - intros H. assert (inject_Z 86 <= inject_Z similarity)%Q as Hq
        by (rewrite <- Zle_Qle; exact H).
    assert (inject_Z 86 == 86)%Q as H86 by reflexivity. lra.
Qed.

(** X8. For a modified file the best match of a type is reported only
    above 0.85.  A perceptual-hash match is therefore reported exactly up
    to distance 9, although the scan returns matches up to distance 10;
    a fuzzy match exactly from 86 on, although the scan returns matches
    from 80 on. *)
Theorem modified_file_needs_closer_match :
  forall (w : world) (file_name : string) (m : modality) (similar_path : string)
         (rest : list (string * score)),
    path_exists w similar_path = true ->
    OsPath.basename similar_path <> file_name ->
    (forall difference : Z,
        first_modified_match w file_name
          [(m, (similar_path, Num (similarity_of_difference difference)) :: rest)]
        = Some (m, (similar_path, Num (similarity_of_difference difference)))
        <-> difference <= 9)
    /\ (forall similarity : Z,
           first_modified_match w file_name
             [(m, (similar_path, Num (inject_Z similarity / 100)) :: rest)]
           = Some (m, (similar_path, Num (inject_Z similarity / 100)))
           <-> 86 <= similarity).
Proof.
  intros w file_name m similar_path rest Hexists Hother.
  assert (forall q : Q,
             first_modified_match w file_name [(m, (similar_path, Num q) :: rest)]
             = Some (m, (similar_path, Num q)) <-> (85 # 100 < q)%Q) as Hone.
  { intros q. simpl. unfold confident at 1. simpl. rewrite Hexists. simpl.
    destruct (Qlt_bool (85 # 100) q) eqn:E.
    - simpl. destruct (String.eqb_spec (OsPath.basename similar_path) file_name);
        [contradiction|]. simpl. apply Qlt_bool_iff in E. tauto.
    - split; [discriminate|]. intros H. apply Qlt_bool_iff in H. congruence. }
  split; intros x; rewrite Hone;
    [apply difference_above_modified_threshold
    | apply fuzzy_above_modified_threshold].
Qed.

Lemma modified_file_needs_closer_match_witness :
  path_exists Scenario.image_world Scenario.cat = true
  /\ OsPath.basename Scenario.cat <> "kitten.png"
  /\ first_modified_match Scenario.image_world "kitten.png"
       [(image_similarity, [(Scenario.cat, Num (similarity_of_difference 10))])]
     <> Some (image_similarity, (Scenario.cat, Num (similarity_of_difference 10))).
Proof.
  assert (OsPath.basename Scenario.cat <> "kitten.png") as Hne
      by (vm_compute; discriminate).
  split; [reflexivity|]. split; [exact Hne|].
  intros H.
  apply (proj1 (modified_file_needs_closer_match
                  Scenario.image_world "kitten.png" image_similarity Scenario.cat []
                  eq_refl Hne) 10) in H.
  lia.
Defined.

(** * Which scans apply *)

Lemma image_extension_only (x : string) :
  in_set x IMAGE_EXTENSIONS = true ->
  in_set x AUDIO_EXTENSIONS = false /\ in_set x DOCUMENT_EXTENSIONS = false
  /\ in_set x VIDEO_EXTENSIONS = false /\ in_set x SUPPORTED_FILE_TYPES = true.
Proof. unfold in_set, IMAGE_EXTENSIONS. intros H. by_extension H. Qed.

Lemma audio_extension_only (x : string) :
  in_set x AUDIO_EXTENSIONS = true ->
  in_set x DOCUMENT_EXTENSIONS = false /\ in_set x VIDEO_EXTENSIONS = false
  /\ in_set x SUPPORTED_FILE_TYPES = true.
Proof. unfold in_set, AUDIO_EXTENSIONS. intros H. by_extension H. Qed.

Lemma document_extension_only (x : string) :
  in_set x DOCUMENT_EXTENSIONS = true ->
  in_set x VIDEO_EXTENSIONS = false /\ in_set x SUPPORTED_FILE_TYPES = true.
Proof. unfold in_set, DOCUMENT_EXTENSIONS. intros H. by_extension H. Qed.

Lemma video_extension_supported (x : string) :
  in_set x VIDEO_EXTENSIONS = true -> in_set x SUPPORTED_FILE_TYPES = true.
Proof. unfold in_set, VIDEO_EXTENSIONS. intros H. by_extension H. Qed.

(** X9. The similarity results of a file never hold more than two
    entries: at most one of the image, audio, document and video scans
    applies to a file type, and whenever one of them applies the fuzzy
    scan applies as well and comes last. *)
Theorem at_most_one_typed_scan :
  forall (w : world) (d : detector_db) (file_path : string),
    (List.length (similarity_results w d file_path) <= 2)%nat
    /\ forall m l,
         In (m, l) (similarity_results w d file_path) ->
         List.last (similarity_results w d file_path) (m, l)
         = (fuzzy_similarity, find_fuzzy_similar w d file_path).
Proof.
  intros w d file_path. unfold similarity_results.
  destruct (in_set (file_ext_of file_path) IMAGE_EXTENSIONS) eqn:Hi.
  { destruct (image_extension_only _ Hi) as (-> & -> & -> & ->).
    simpl. split; [lia|]. intros; reflexivity. }
  destruct (in_set (file_ext_of file_path) AUDIO_EXTENSIONS) eqn:Ha.
  { destruct (audio_extension_only _ Ha) as (-> & -> & ->).
    simpl. split; [lia|]. intros; reflexivity. }
  destruct (in_set (file_ext_of file_path) DOCUMENT_EXTENSIONS) eqn:Hd.
  { destruct (document_extension_only _ Hd) as (-> & ->).
    simpl. split; [lia|]. intros; reflexivity. }
  destruct (in_set (file_ext_of file_path) VIDEO_EXTENSIONS) eqn:Hv.
  { rewrite (video_extension_supported _ Hv).
    simpl. split; [lia|]. intros; reflexivity. }
  destruct (in_set (file_ext_of file_path) SUPPORTED_FILE_TYPES); simpl.
  - split; [lia|]. intros; reflexivity.
  - split; [lia|]. intros m l [].
Qed.

Lemma at_most_one_typed_scan_witness :
  In (image_similarity, [(Scenario.cat, Num (58 # 64))])
     (similarity_results Scenario.image_world (detector Scenario.kitten_seen)
                         Scenario.kitten)
  /\ List.last (similarity_results Scenario.image_world
                                   (detector Scenario.kitten_seen) Scenario.kitten)
               (image_similarity, [(Scenario.cat, Num (58 # 64))])
     = (fuzzy_similarity, []).
Proof.
  assert (In (image_similarity, [(Scenario.cat, Num (58 # 64))])
             (similarity_results Scenario.image_world
                                 (detector Scenario.kitten_seen) Scenario.kitten))
    as Hin by (vm_compute; left; reflexivity).
  split; [exact Hin|].
  exact (proj2 (at_most_one_typed_scan
                  Scenario.image_world (detector Scenario.kitten_seen)
                  Scenario.kitten) _ _ Hin).
Defined.

(** * Further properties of the filename test *)

Lemma string_eqb_sym (a b : string) : String.eqb a b = String.eqb b a.
Proof.
  destruct (String.eqb_spec a b) as [->|Hne].
  - symmetry. apply String.eqb_refl.
  - symmetry. apply String.eqb_neq. congruence.
Qed.

(** X12. The filename test does not depend on the order of its two
    arguments, and every name is similar to itself (which is why the
    loop over the stored names has to skip the file's own name). *)
Theorem is_similar_filename_symmetric :
  forall file1 file2 : string,
    is_similar_filename file1 file2 = is_similar_filename file2 file1
    /\ is_similar_filename file1 file1 = true.
Proof.
  intros file1 file2. unfold is_similar_filename.
  destruct (OsPath.splitext file1) as [name1 ext1].
  destruct (OsPath.splitext file2) as [name2 ext2].
  split.
  - rewrite (string_eqb_sym (Py.lower ext2)).
    destruct (negb (String.eqb (Py.lower ext1) (Py.lower ext2))); [reflexivity|].
    rewrite (string_eqb_sym (Py.strip (Py.lower name2))).
    destruct (String.eqb (Py.strip (Py.lower name1)) (Py.strip (Py.lower name2)));
      [reflexivity|].
    rewrite (string_eqb_sym (clean_name (Py.strip (Py.lower name2)))).
    destruct (String.eqb_spec (clean_name (Py.strip (Py.lower name1)))
                              (clean_name (Py.strip (Py.lower name2)))) as [->|];
      reflexivity.
  - rewrite !String.eqb_refl. reflexivity.
Qed.

(** * Further properties of the filter *)

Lemma search_dot_prefix (rest : string) :
  Re.search (Re.re_compile "^\.") (String "." rest) = true.
Proof. reflexivity. Qed.

Lemma search_lock_prefix (rest : string) :
  Re.search (Re.re_compile "^~\$") (String "~" (String "$" rest)) = true.
Proof. reflexivity. Qed.

(** X13. A file that passes the filter exists as a regular file, has a
    size between 1024 bytes and 500 MB inclusive and a supported
    extension, and its name starts neither with a dot nor with [~$]. *)
Theorem processed_files_are_bounded :
  forall (w : world) (file_path : string),
    should_process_file w file_path = true ->
    exists info,
      fs w file_path = Some info
      /\ is_file info = true
      /\ 1024 <= file_size info <= 500 * 1024 * 1024
      /\ in_set (file_ext_of file_path) SUPPORTED_FILE_TYPES = true
      /\ in_set (file_ext_of file_path) IGNORED_EXTENSIONS = false
      /\ (forall rest, OsPath.basename file_path <> String "." rest)
      /\ (forall rest,
             OsPath.basename file_path <> String "~" (String "$" rest)).
Proof.
  intros w file_path. unfold should_process_file, path_exists, path_isfile, getsize.
  destruct (fs w file_path) as [info|]; [|discriminate].
  cbn [negb orb option_map].
  destruct (is_file info) eqn:Hfile; [|discriminate].
  cbn [negb orb option_map].
  match goal with
  | |- context [existsb ?f EXCLUDED_PATTERNS] =>
      destruct (existsb f EXCLUDED_PATTERNS); [discriminate|]
  end.
  fold (file_ext_of file_path).
  destruct (in_set (file_ext_of file_path) IGNORED_EXTENSIONS) eqn:Hign;
    [discriminate|].
  match goal with
  | |- context [existsb ?f IGNORED_NAME_PATTERNS] =>
      destruct (existsb f IGNORED_NAME_PATTERNS) eqn:Hnames; [discriminate|]
  end.
  destruct (in_set (file_ext_of file_path) SUPPORTED_FILE_TYPES) eqn:Hsup;
    [|discriminate]. cbn [negb].
  unfold MIN_FILE_SIZE, MAX_FILE_SIZE.
  destruct (Z.ltb_spec (file_size info) 1024); [discriminate|].
  destruct (Z.ltb_spec (500 * 1024 * 1024) (file_size info)); [discriminate|].
  intros _. exists info. repeat split; try assumption; try lia.
  - intros rest Hname. rewrite Hname in Hnames.
    apply not_true_iff_false in Hnames. apply Hnames.
    apply existsb_exists. exists "^\.".
    split; [right; left; reflexivity | apply search_dot_prefix].
  - intros rest Hname. rewrite Hname in Hnames.
    apply not_true_iff_false in Hnames. apply Hnames.
    apply existsb_exists. exists "^~\$".
    split; [left; reflexivity | apply search_lock_prefix].
Qed.

Lemma processed_files_are_bounded_witness :
  should_process_file Scenario.notes_world Scenario.notes = true
  /\ exists info,
      fs Scenario.notes_world Scenario.notes = Some info
      /\ 1024 <= file_size info <= 500 * 1024 * 1024.
Proof.
  assert (should_process_file Scenario.notes_world Scenario.notes = true) as H
      by (vm_compute; reflexivity).
  split; [exact H|].
  destruct (processed_files_are_bounded Scenario.notes_world Scenario.notes H)
    as (info & Hfs & _ & Hsize & _).
  exists info. split; assumption.
Defined.

(** * The text files *)

Example load_saved_example :
  load_existing_hashes (Some (save_hashes [("aa", "x y.txt"); ("bb", "p,q.pdf")]))
  = [("aa", "x y.txt"); ("bb", "p,q.pdf")].
Proof. vm_compute. reflexivity. Qed.

Example load_saved_modification_example :
  load_modification_db
    (Some (save_modification_db [("p,q.pdf", ("bb", "1699.5"))]))
  = {[ "p" := ("q.pdf", "bb,1699.5") ]}.
Proof. vm_compute. reflexivity. Qed.

Lemma append_cons (x : ascii) (a b : string) :
  String.append (String x a) b = String x (String.append a b).
Proof. reflexivity. Qed.

Lemma append_empty_l (b : string) : String.append EmptyString b = b.
Proof. reflexivity. Qed.

Lemma append_assoc_string (a b c : string) :
  String.append (String.append a b) c = String.append a (String.append b c).
Proof.
  induction a as [|x a IH]; [reflexivity|].
  rewrite !append_cons, IH. reflexivity.
Qed.

Lemma append_empty_r (a : string) : String.append a EmptyString = a.
Proof.
  induction a as [|x a IH]; [reflexivity|].
  rewrite append_cons, IH. reflexivity.
Qed.

Lemma concat_cons_string (x : string) (xs : list string) :
  String.concat EmptyString (x :: xs)
  = String.append x (String.concat EmptyString xs).
Proof.
  destruct xs as [|y ys]; simpl; [rewrite append_empty_r; reflexivity | reflexivity].
Qed.

Lemma has_char_append (c : ascii) (a b : string) :
  has_char c (String.append a b) = (has_char c a || has_char c b)%bool.
Proof.
  induction a as [|x a IH]; [reflexivity|].
  rewrite append_cons. simpl. rewrite IH, orb_assoc. reflexivity.
Qed.

Lemma written_then_read (s : string) :
  has_char TextFile.CR s = false ->
  TextFile.universal_newlines (TextFile.written s) = s.
Proof.
  induction s as [|c r IH]; simpl; [reflexivity|].
  intros H. apply orb_false_iff in H as [Hc Hr].
  destruct (Ascii.eqb_spec c TextFile.LF) as [->|Hlf].
  - simpl. rewrite IH by assumption. reflexivity.
  - simpl. rewrite Hc, IH by assumption. reflexivity.
Qed.

Lemma readlines_line (line rest : string) :
  has_char TextFile.LF line = false ->
  TextFile.readlines (String.append line (String TextFile.LF rest))
  = String.append line (String TextFile.LF EmptyString) :: TextFile.readlines rest.
Proof.
  induction line as [|c line IH].
  - intros _. reflexivity.
  - intros H. simpl in H. apply orb_false_iff in H as [Hc Hl].
    rewrite !append_cons. simpl. rewrite Hc, IH by assumption. reflexivity.
Qed.

Lemma rstrip_line_feed (s : string) :
  Py.rstrip (String.append s (String TextFile.LF EmptyString)) = Py.rstrip s.
Proof.
  induction s as [|c s IH]; [reflexivity|].
  rewrite append_cons. simpl Py.rstrip. rewrite IH. reflexivity.
Qed.

Lemma rstrip_after (a b : string) :
  Py.rstrip b <> EmptyString ->
  Py.rstrip (String.append a b) = String.append a (Py.rstrip b).
Proof.
  intros Hb. induction a as [|c a IH]; [reflexivity|].
  rewrite !append_cons. simpl Py.rstrip. rewrite IH.
  destruct (String.append a (Py.rstrip b)) eqn:E; [|reflexivity].
  exfalso. destruct a; [contradiction | discriminate].
Qed.

Lemma rstrip_comma (s : string) :
  Py.rstrip (String ","%char s) = String ","%char (Py.rstrip s).
Proof. simpl. destruct (Py.rstrip s); reflexivity. Qed.

Lemma lstrip_length (s : string) :
  (String.length (Py.lstrip s) <= String.length s)%nat.
Proof.
  induction s as [|c s IH]; simpl; [lia|].
  destruct (Py.is_space c); simpl; lia.
Qed.

Lemma lstrip_fixed_append (a b : string) :
  Py.lstrip a = a -> a <> EmptyString ->
  Py.lstrip (String.append a b) = String.append a b.
Proof.
  destruct a as [|c a]; [contradiction|]. rewrite append_cons. simpl.
  intros H _.
  destruct (Py.is_space c); [|reflexivity].
  exfalso. pose proof (lstrip_length a) as Hlen. rewrite H in Hlen.
  simpl in Hlen. lia.
Qed.

(** A line written for two clean fields is read back as these fields. *)
Lemma strip_two_fields (a b : string) :
  Py.lstrip a = a -> Py.rstrip b = b ->
  Py.strip (String.append a
              (String ","%char (String.append b (String TextFile.LF EmptyString))))
  = String.append a (String ","%char b).
Proof.
  intros Ha Hb. unfold Py.strip.
  assert (Py.lstrip (String.append a
             (String ","%char (String.append b (String TextFile.LF EmptyString))))
          = String.append a
              (String ","%char (String.append b (String TextFile.LF EmptyString))))
    as ->.
  { destruct a as [|c a]; [reflexivity|].
    apply lstrip_fixed_append; [exact Ha | discriminate]. }
  rewrite rstrip_after.
  - rewrite rstrip_comma, rstrip_line_feed, Hb. reflexivity.
  - rewrite rstrip_comma. discriminate.
Qed.

Lemma split_comma_fields (a b : string) :
  comma_free a = true ->
  TextFile.split_comma (String.append a (String ","%char b)) = Some (a, b).
Proof.
  unfold comma_free. induction a as [|c a IH]; [reflexivity|].
  rewrite append_cons. simpl.
  intros H. apply negb_true_iff, orb_false_iff in H as [Hc Ha].
  rewrite Hc, IH; [reflexivity|]. apply negb_true_iff, Ha.
Qed.

Lemma nonempty_fields (a b : string) :
  TextFile.nonempty (String.append a (String ","%char b)) = true.
Proof. destruct a; reflexivity. Qed.

Lemma dict_set_new (k v : string) (l : list (string * string)) :
  ~ In k (map fst l) -> dict_set k v l = l ++ [(k, v)].
Proof.
  induction l as [|[k' v'] l IH]; simpl; [reflexivity|].
  intros H. destruct (String.eqb_spec k' k) as [->|Hne].
  - exfalso. apply H. left. reflexivity.
  - rewrite IH; [reflexivity|]. intros Hin. apply H. right. exact Hin.
Qed.

(** On disk, a clean hash keeps no padding on its left and holds no comma
    and no line break; a clean name keeps no padding on its right and
    holds no line break. *)
Lemma load_hash_lines (items acc : list (string * string)) :
  List.NoDup (map fst (acc ++ items)) ->
  (forall h n, In (h, n) items ->
               comma_free h = true /\ Py.lstrip h = h /\ Py.rstrip n = n) ->
  fold_left load_hash_line (map hash_line items) acc = acc ++ items.
Proof.
  revert acc. induction items as [|[h n] items IH]; intros acc Hnd Hclean.
  - simpl. rewrite app_nil_r. reflexivity.
  - simpl.
    destruct (Hclean h n (or_introl eq_refl)) as (Hc & Hl & Hr).
    assert (load_hash_line acc (hash_line (h, n)) = acc ++ [(h, n)]) as ->.
    { unfold load_hash_line, hash_line. simpl fst. simpl snd.
      rewrite (strip_two_fields h n Hl Hr), nonempty_fields,
        (split_comma_fields h n Hc).
      apply dict_set_new. intros Hin.
      rewrite map_app in Hnd. simpl in Hnd.
      apply List.NoDup_remove_2 in Hnd. apply Hnd.
      apply in_or_app. left. exact Hin. }
    rewrite IH.
    + rewrite <- app_assoc. reflexivity.
    + rewrite <- app_assoc. exact Hnd.
    + intros h' n' Hin. apply Hclean. right. exact Hin.
Qed.

Lemma readlines_lines {A : Type} (line_of : A -> string) (body : A -> string)
      (items : list A) :
  (forall x, In x items ->
             line_of x = String.append (body x) (String TextFile.LF EmptyString)
             /\ has_char TextFile.LF (body x) = false) ->
  TextFile.readlines (String.concat EmptyString (map line_of items))
  = map line_of items.
Proof.
  induction items as [|x items IH]; intros H; [reflexivity|].
  change (map line_of (x :: items)) with (line_of x :: map line_of items).
  rewrite concat_cons_string.
  destruct (H x (or_introl eq_refl)) as [Hline Hlf].
  rewrite Hline.
  rewrite (append_assoc_string (body x) (String TextFile.LF EmptyString)).
  change (String.append (String TextFile.LF EmptyString)
            (String.concat EmptyString (map line_of items)))
    with (String TextFile.LF (String.concat EmptyString (map line_of items))).
  rewrite readlines_line by exact Hlf.
  rewrite IH by (intros y Hy; apply H; right; exact Hy).
  reflexivity.
Qed.

Lemma has_char_lines {A : Type} (c : ascii) (line_of : A -> string)
      (items : list A) :
  (forall x, In x items -> has_char c (line_of x) = false) ->
  has_char c (String.concat EmptyString (map line_of items)) = false.
Proof.
  induction items as [|x items IH]; intros H; [reflexivity|].
  change (map line_of (x :: items)) with (line_of x :: map line_of items).
  rewrite concat_cons_string, has_char_append, (H x (or_introl eq_refl)), IH;
    [reflexivity|].
  intros y Hy. apply H. right. exact Hy.
Qed.

Lemma one_line_chars (s : string) :
  one_line s = true ->
  has_char TextFile.CR s = false /\ has_char TextFile.LF s = false.
Proof.
  unfold one_line. intros H. apply andb_true_iff in H as [H1 H2].
  split; apply negb_true_iff; assumption.
Qed.

Lemma hash_item_survives_fields (h n : string) :
  hash_item_survives (h, n) = true ->
  comma_free h = true /\ one_line h = true /\ one_line n = true
  /\ Py.lstrip h = h /\ Py.rstrip n = n.
Proof.
  unfold hash_item_survives. simpl fst. simpl snd. intros H.
  repeat (apply andb_true_iff in H as [H ?]).
  repeat split; try assumption; apply String.eqb_eq; assumption.
Qed.

Lemma hash_line_chars (c : ascii) (h n : string) :
  has_char c h = false -> has_char c n = false ->
  Ascii.eqb ","%char c = false ->
  has_char c (String.append h (String ","%char n)) = false.
Proof.
  intros Hh Hn Hc. rewrite has_char_append, Hh. cbn [has_char orb].
  rewrite Hc, Hn. reflexivity.
Qed.

(** X14. Saving the hash store and loading it again gives the same store,
    items in the same order, when every item can be held by the text
    file: the hashes are distinct (they are the keys of a dict), no hash
    holds a comma, and no field holds a line break or padding that
    [strip] would remove. A comma in a file name does no harm here. *)
Theorem saved_hashes_load_back (items : list (string * string)) :
  List.NoDup (map fst items) ->
  forallb hash_item_survives items = true ->
  load_existing_hashes (Some (save_hashes items)) = items.
Proof.
  intros Hnd Hall.
  assert (forall h n, In (h, n) items ->
            comma_free h = true /\ one_line h = true /\ one_line n = true
            /\ Py.lstrip h = h /\ Py.rstrip n = n) as Hitems.
  { intros h n Hin. apply hash_item_survives_fields.
    rewrite forallb_forall in Hall. apply Hall. exact Hin. }
  unfold load_existing_hashes, save_hashes.
  rewrite written_then_read.
  - rewrite (readlines_lines hash_line
               (fun item => String.append (fst item) (String ","%char (snd item)))).
    + rewrite load_hash_lines; [reflexivity | exact Hnd |].
      intros h n Hin. destruct (Hitems h n Hin) as (? & _ & _ & ? & ?).
      repeat split; assumption.
    + intros [h n] Hin. destruct (Hitems h n Hin) as (_ & Hh & Hn & _).
      apply one_line_chars in Hh as [_ Hh], Hn as [_ Hn].
      split.
      * unfold hash_line. simpl fst. simpl snd.
        rewrite (append_assoc_string h (String ","%char n)). reflexivity.
      * apply hash_line_chars; [exact Hh | exact Hn | reflexivity].
  - apply has_char_lines. intros [h n] Hin.
    destruct (Hitems h n Hin) as (_ & Hh & Hn & _).
    apply one_line_chars in Hh as [Hh _], Hn as [Hn _].
    unfold hash_line. simpl fst. simpl snd.
    rewrite has_char_append, Hh. cbn [has_char orb].
    rewrite has_char_append, Hn. reflexivity.
Qed.

Lemma saved_hashes_load_back_witness :
  load_existing_hashes
    (Some (save_hashes [("aa", "x y.txt"); ("bb", "p,q.pdf")]))
  = [("aa", "x y.txt"); ("bb", "p,q.pdf")].
Proof.
  apply saved_hashes_load_back.
  - repeat constructor; simpl; intuition discriminate.
  - vm_compute. reflexivity.
Defined.

Lemma modification_item_survives_fields (n h t : string) :
  modification_item_survives (n, (h, t)) = true ->
  comma_free n = true /\ one_line n = true /\ comma_free h = true
  /\ one_line h = true /\ one_line t = true
  /\ Py.lstrip n = n /\ Py.rstrip t = t.
Proof.
  unfold modification_item_survives. simpl fst. simpl snd. intros H.
  repeat (apply andb_true_iff in H as [H ?]).
  repeat split; try assumption; apply String.eqb_eq; assumption.
Qed.

Lemma load_modification_line_fields (db : gmap string (string * string))
      (n h t : string) :
  comma_free n = true -> comma_free h = true ->
  Py.lstrip n = n -> Py.rstrip t = t ->
  load_modification_line db (modification_line (n, (h, t)))
  = <[ n := (h, t) ]> db.
Proof.
  intros Hn Hh Hl Hr. unfold load_modification_line, modification_line.
  simpl fst. simpl snd.
  change (String ","%char (String.append t (String TextFile.LF EmptyString)))
    with (String.append (String ","%char t) (String TextFile.LF EmptyString)).
  rewrite <- (append_assoc_string h (String ","%char t)
                (String TextFile.LF EmptyString)).
  rewrite strip_two_fields.
  - rewrite nonempty_fields. unfold TextFile.split_two_commas.
    rewrite (split_comma_fields n _ Hn), (split_comma_fields h t Hh).
    reflexivity.
  - exact Hl.
  - rewrite rstrip_after.
    + rewrite rstrip_comma, Hr. reflexivity.
    + rewrite rstrip_comma. discriminate.
Qed.

Lemma load_modification_lines (items : list (string * (string * string)))
      (db : gmap string (string * string)) :
  (forall n h t, In (n, (h, t)) items ->
                 comma_free n = true /\ comma_free h = true
                 /\ Py.lstrip n = n /\ Py.rstrip t = t) ->
  fold_left load_modification_line (map modification_line items) db
  = list_to_map (rev items) ∪ db.
Proof.
  revert db. induction items as [|[n [h t]] items IH]; intros db H.
  - simpl. rewrite (left_id_L ∅ (∪)). reflexivity.
  - simpl. destruct (H n h t (or_introl eq_refl)) as (Hn & Hh & Hl & Hr).
    rewrite (load_modification_line_fields db n h t Hn Hh Hl Hr).
    rewrite IH by (intros; apply H; right; assumption).
    rewrite list_to_map_app.
    change (list_to_map [(n, (h, t))] : gmap string (string * string))
      with (<[ n := (h, t) ]> (∅ : gmap string (string * string))).
    rewrite <- (assoc_L (∪)), <- insert_union_l, (left_id_L ∅ (∪)).
    reflexivity.
Qed.

(** X15. Saving the modification database and loading it again gives the
    same database (time stamps as the text that was written) when every
    item can be held by the text file: neither the file name nor the hash
    holds a comma, and no field holds a line break or padding that
    [strip] would remove. *)
Theorem saved_modifications_load_back
        (items : list (string * (string * string))) :
  List.NoDup (map fst items) ->
  forallb modification_item_survives items = true ->
  load_modification_db (Some (save_modification_db items))
  = list_to_map items.
Proof.
  intros Hnd Hall.
  assert (forall n h t, In (n, (h, t)) items ->
            comma_free n = true /\ one_line n = true /\ comma_free h = true
            /\ one_line h = true /\ one_line t = true
            /\ Py.lstrip n = n /\ Py.rstrip t = t) as Hitems.
  { intros n h t Hin. apply modification_item_survives_fields.
    rewrite forallb_forall in Hall. apply Hall. exact Hin. }
  unfold load_modification_db, save_modification_db.
  rewrite written_then_read.
  - rewrite (readlines_lines modification_line
               (fun item =>
                  String.append (fst item)
                    (String ","%char
                       (String.append (fst (snd item))
                          (String ","%char (snd (snd item))))))).
    + rewrite load_modification_lines.
      * rewrite (right_id_L ∅ (∪)).
        apply list_to_map_proper.
        -- apply NoDup_ListNoDup.
           change ((rev items).*1) with (map fst (rev items)).
           rewrite map_rev. apply List.NoDup_rev. exact Hnd.
        -- apply Permutation_sym, Permutation_rev.
      * intros n h t Hin.
        destruct (Hitems n h t Hin) as (? & _ & ? & _ & _ & ? & ?).
        repeat split; assumption.
    + intros [n [h t]] Hin.
      destruct (Hitems n h t Hin) as (_ & Hn & _ & Hh & Ht & _).
      apply one_line_chars in Hn as [_ Hn], Hh as [_ Hh], Ht as [_ Ht].
      split.
      * unfold modification_line. simpl fst. simpl snd.
        rewrite (append_assoc_string n), append_cons.
        rewrite (append_assoc_string h), append_cons. reflexivity.
      * simpl fst. simpl snd.
        apply hash_line_chars; [exact Hn | | reflexivity].
        apply hash_line_chars; [exact Hh | exact Ht | reflexivity].
  - apply has_char_lines. intros [n [h t]] Hin.
    destruct (Hitems n h t Hin) as (_ & Hn & _ & Hh & Ht & _).
    apply one_line_chars in Hn as [Hn _], Hh as [Hh _], Ht as [Ht _].
    unfold modification_line. simpl fst. simpl snd.
    apply hash_line_chars; [exact Hn | | reflexivity].
    apply hash_line_chars; [exact Hh | | reflexivity].
    rewrite has_char_append, Ht. reflexivity.
Qed.

Lemma saved_modifications_load_back_witness :
  load_modification_db
    (Some (save_modification_db
             [("notes.txt", ("aa", "1699.5")); ("x y.pdf", ("bb", "1700.0"))]))
  = list_to_map
      [("notes.txt", ("aa", "1699.5")); ("x y.pdf", ("bb", "1700.0"))].
Proof.
  apply saved_modifications_load_back.
  - repeat constructor; simpl; intuition discriminate.
  - vm_compute. reflexivity.
Defined.

Lemma split_comma_first (s a b : string) :
  TextFile.split_comma s = Some (a, b) -> comma_free a = true.
Proof.
  revert a b. induction s as [|c s IH]; intros a b; simpl; [discriminate|].
  destruct (Ascii.eqb c ","%char) eqn:Hc.
  - intros [= <- <-]. reflexivity.
  - destruct (TextFile.split_comma s) as [[a' b']|]; [|discriminate].
    intros [= <- <-]. unfold comma_free. simpl. rewrite Hc.
    exact (IH a' b' eq_refl).
Qed.

Lemma load_modification_line_keys (db : gmap string (string * string))
      (line : string) :
  (forall k v, db !! k = Some v -> comma_free k = true) ->
  forall k v, load_modification_line db line !! k = Some v ->
              comma_free k = true.
Proof.
  intros Hdb k v. unfold load_modification_line, TextFile.split_two_commas.
  destruct (TextFile.nonempty (Py.strip line)); [|apply Hdb].
  destruct (TextFile.split_comma (Py.strip line)) as [[a rest]|] eqn:Ha;
    [|apply Hdb].
  destruct (TextFile.split_comma rest) as [[b c]|]; [|apply Hdb].
  destruct (decide (a = k)) as [<-|Hne].
  - intros _. exact (split_comma_first _ _ _ Ha).
  - rewrite lookup_insert_ne by exact Hne. apply Hdb.
Qed.

Lemma load_modification_lines_keys (lines : list string)
      (db : gmap string (string * string)) :
  (forall k v, db !! k = Some v -> comma_free k = true) ->
  forall k v, fold_left load_modification_line lines db !! k = Some v ->
              comma_free k = true.
Proof.
  revert db. induction lines as [|line lines IH]; intros db Hdb; [exact Hdb|].
  simpl. apply IH. apply load_modification_line_keys. exact Hdb.
Qed.

(** X16. Whatever the file holds, the loaded modification database has no
    entry under a name with a comma in it: the line is split at its first
    comma, so the record of such a file is not found again after it was
    saved and loaded. *)
Theorem comma_name_not_restored (on_disk : option string) (name : string) :
  comma_free name = false ->
  load_modification_db on_disk !! name = None.
Proof.
  intros Hname.
  destruct (load_modification_db on_disk !! name) as [v|] eqn:Hlook;
    [|reflexivity].
  exfalso. destruct on_disk as [bytes|]; simpl in Hlook.
  - apply load_modification_lines_keys in Hlook.
    + rewrite Hlook in Hname. discriminate.
    + intros k v'. rewrite lookup_empty. discriminate.
  - rewrite lookup_empty in Hlook. discriminate.
Qed.

Lemma comma_name_not_restored_witness :
  load_modification_db
    (Some (save_modification_db [("p,q.pdf", ("bb", "1699.5"))]))
  !! "p,q.pdf" = None.
Proof. apply comma_name_not_restored. reflexivity. Defined.

Lemma isfile_getmtime (w : world) (p : string) :
  path_isfile w p = true -> exists t, getmtime w p = Some t.
Proof.
  unfold path_isfile, getmtime. destruct (fs w p) as [i|]; [|discriminate].
  intros _. exists (modification_time i). reflexivity.
Qed.

Lemma scanned_as_fields (w : world) (filename h : string) :
  scanned_as w filename h = true ->
  path_isfile w (OsPath.join DOWNLOAD_DIR filename) = true
  /\ should_process_file w (OsPath.join DOWNLOAD_DIR filename) = true
  /\ Py.truthy (Some h) = true
  /\ calculate_hash w (OsPath.join DOWNLOAD_DIR filename) = Some h.
Proof.
  unfold scanned_as. cbv zeta. intros H.
  repeat (apply andb_true_iff in H as [H ?]).
  destruct (calculate_hash w (OsPath.join DOWNLOAD_DIR filename)) as [h'|];
    [|discriminate].
  match goal with E : String.eqb h' h = true |- _ =>
    apply String.eqb_eq in E; subst h' end.
  repeat split; assumption.
Qed.

Lemma populate_loop_taken (w : world) (filename h : string)
      (rest : list string) (acc : initial_scan) :
  scanned_as w filename h = true ->
  exists t, getmtime w (OsPath.join DOWNLOAD_DIR filename) = Some t
            /\ populate_loop w (filename :: rest) acc
               = populate_loop w rest (scan_one w filename h t acc).
Proof.
  intros H. apply scanned_as_fields in H as (Hfile & Hok & Htruthy & Hhash).
  destruct (isfile_getmtime w _ Hfile) as [t Ht]. exists t. split; [exact Ht|].
  cbn [populate_loop]. cbv zeta.
  rewrite Hfile, Hok, Hhash, Htruthy, Ht. reflexivity.
Qed.

Lemma populate_loop_skipped (w : world) (filename : string)
      (rest : list string) (acc : initial_scan) :
  (forall h, scanned_as w filename h = false) ->
  populate_loop w (filename :: rest) acc = populate_loop w rest acc.
Proof.
  intros H. cbn [populate_loop]. cbv zeta.
  destruct (path_isfile w (OsPath.join DOWNLOAD_DIR filename)) eqn:Hfile;
    [|reflexivity].
  destruct (should_process_file w (OsPath.join DOWNLOAD_DIR filename)) eqn:Hok;
    [|reflexivity].
  destruct (calculate_hash w (OsPath.join DOWNLOAD_DIR filename)) as [h|] eqn:Hhash;
    [|reflexivity].
  destruct (Py.truthy (Some h)) eqn:Htruthy; [|reflexivity].
  exfalso. specialize (H h). unfold scanned_as in H. cbv zeta in H.
  rewrite Hfile, Hok, Hhash, Htruthy, String.eqb_refl in H. discriminate.
Qed.

Lemma scanned_or_skipped (w : world) (filename : string) :
  (exists h, scanned_as w filename h = true)
  \/ (forall h, scanned_as w filename h = false).
Proof.
  unfold scanned_as. cbv zeta.
  destruct (calculate_hash w (OsPath.join DOWNLOAD_DIR filename)) as [h|].
  - destruct (path_isfile w (OsPath.join DOWNLOAD_DIR filename)
              && should_process_file w (OsPath.join DOWNLOAD_DIR filename)
              && Py.truthy (Some h))%bool eqn:E.
    + left. exists h. rewrite String.eqb_refl. reflexivity.
    + right. intros h'. reflexivity.
  - right. intros h'. apply andb_false_r.
Qed.

Lemma scanned_as_one_hash (w : world) (filename h h' : string) :
  scanned_as w filename h = true -> scanned_as w filename h' = true -> h = h'.
Proof.
  intros H H'. apply scanned_as_fields in H as (_ & _ & _ & H).
  apply scanned_as_fields in H' as (_ & _ & _ & H'). congruence.
Qed.

Lemma populate_loop_app (w : world) (before after : list string)
      (acc : initial_scan) :
  populate_loop w (before ++ after) acc
  = populate_loop w after (populate_loop w before acc).
Proof.
  revert acc. induction before as [|filename before IH]; intros acc;
    [reflexivity|].
  rewrite <- app_comm_cons.
  destruct (scanned_or_skipped w filename) as [[h H]|H].
  - destruct (populate_loop_taken w filename h (before ++ after) acc H)
      as (t & Ht & ->).
    destruct (populate_loop_taken w filename h before acc H) as (t' & Ht' & ->).
    assert (t' = t) as -> by congruence. apply IH.
  - rewrite !populate_loop_skipped by exact H. apply IH.
Qed.

Lemma dict_get_set_other (k k' v : string) (l : list (string * string)) :
  k <> k' -> dict_get k (dict_set k' v l) = dict_get k l.
Proof.
  intros Hne. induction l as [|[k0 v0] l IH]; simpl.
  - destruct (String.eqb_spec k' k); [congruence | reflexivity].
  - destruct (String.eqb_spec k0 k') as [->|Hk]; simpl.
    + destruct (String.eqb_spec k' k); [congruence|]. reflexivity.
    + destruct (String.eqb k0 k); [reflexivity | exact IH].
Qed.

Lemma populate_loop_other_hashes (w : world) (h : string)
      (listing : list string) (acc : initial_scan) :
  (forall other, In other listing -> scanned_as w other h = false) ->
  dict_get h (scan_file_hashes (populate_loop w listing acc))
  = dict_get h (scan_file_hashes acc).
Proof.
  revert acc. induction listing as [|filename rest IH]; intros acc Hnone;
    [reflexivity|].
  destruct (scanned_or_skipped w filename) as [[h' H]|H].
  - destruct (populate_loop_taken w filename h' rest acc H) as (t & _ & ->).
    rewrite IH by (intros; apply Hnone; right; assumption).
    simpl. apply dict_get_set_other. intros <-.
    rewrite (Hnone filename (or_introl eq_refl)) in H. discriminate.
  - rewrite populate_loop_skipped by exact H.
    apply IH. intros; apply Hnone; right; assumption.
Qed.

(** X17. Of the files with the same content that the start-up scan takes
    up, the hash store keeps one name only, that of the file listed last:
    a later file with the same hash overwrites the name of an earlier
    one. *)
Theorem initial_scan_keeps_last_name
        (w : world) (d : detector_db) (before after : list string)
        (filename h : string) :
  path_exists w DOWNLOAD_DIR = true ->
  scanned_as w filename h = true ->
  (forall other, In other after -> scanned_as w other h = false) ->
  dict_get h (scan_file_hashes
                (populate_initial_hashes w (before ++ filename :: after) d))
  = Some filename.
Proof.
  intros Hdir Hscan Hafter. unfold populate_initial_hashes. rewrite Hdir.
  cbn [negb]. rewrite populate_loop_app.
  destruct (populate_loop_taken w filename h after
              (populate_loop w before
                 {| scan_file_hashes := []; scan_mod_db := ∅;
                    scan_detector := d |}) Hscan)
    as (t & _ & ->).
  rewrite populate_loop_other_hashes by exact Hafter.
  simpl. apply dict_get_set.
Qed.

Lemma initial_scan_keeps_last_name_witness :
  dict_get "5d41402a"
    (scan_file_hashes
       (populate_initial_hashes Startup.downloads_world
          (["notes.txt"; "tiny.txt"] ++ "draft.txt" :: []) Scenario.empty_db))
  = Some "draft.txt".
Proof.
  apply initial_scan_keeps_last_name.
  - reflexivity.
  - vm_compute. reflexivity.
  - intros other [].
Defined.

Lemma populate_loop_mod_db (w : world) (name : string)
      (listing : list string) (acc : initial_scan) :
  scan_mod_db (populate_loop w listing acc) !! name
  = if existsb (String.eqb name) listing then
      match calculate_hash w (OsPath.join DOWNLOAD_DIR name),
            getmtime w (OsPath.join DOWNLOAD_DIR name) with
      | Some h, Some t =>
          if scanned_as w name h then Some (h, t) else scan_mod_db acc !! name
      | _, _ => scan_mod_db acc !! name
      end
    else scan_mod_db acc !! name.
Proof.
  revert acc. induction listing as [|filename rest IH]; intros acc;
    [reflexivity|].
  cbn [existsb].
  destruct (scanned_or_skipped w filename) as [[h H]|H].
  - destruct (populate_loop_taken w filename h rest acc H) as (t & Ht & ->).
    rewrite IH. cbn [scan_one scan_mod_db].
    destruct (String.eqb_spec name filename) as [->|Hne].
    + cbn [orb]. rewrite lookup_insert_eq.
      pose proof (scanned_as_fields w filename h H) as (_ & _ & _ & Hhash).
      rewrite Hhash, Ht, H. destruct (existsb _ rest); reflexivity.
    + cbn [orb]. rewrite lookup_insert_ne by congruence. reflexivity.
  - rewrite populate_loop_skipped by exact H. rewrite IH.
    destruct (String.eqb_spec name filename) as [->|Hne]; [|reflexivity].
    cbn [orb].
    destruct (calculate_hash w (OsPath.join DOWNLOAD_DIR filename)) as [h|];
      [|destruct (existsb _ rest); reflexivity].
    rewrite (H h).
    destruct (getmtime w (OsPath.join DOWNLOAD_DIR filename));
      destruct (existsb _ rest); reflexivity.
Qed.

(** X18. After the start-up scan of an existing download directory, the
    modification database holds an entry for a name exactly when the name
    is listed and its file passes the filter and is hashed; the entry then
    is that hash with the modification time of the file. Files that are
    filtered out, and everything that is not a file, get no entry. *)
Theorem initial_scan_records
        (w : world) (d : detector_db) (listing : list string)
        (name h : string) (t : Q) :
  path_exists w DOWNLOAD_DIR = true ->
  scan_mod_db (populate_initial_hashes w listing d) !! name = Some (h, t)
  <-> In name listing /\ scanned_as w name h = true
      /\ getmtime w (OsPath.join DOWNLOAD_DIR name) = Some t.
Proof.
  intros Hdir. unfold populate_initial_hashes. rewrite Hdir. cbn [negb].
  rewrite populate_loop_mod_db. cbn [scan_mod_db]. rewrite lookup_empty.
  destruct (existsb (String.eqb name) listing) eqn:Hin.
  - apply existsb_exists in Hin as (x & Hx & Heq).
    apply String.eqb_eq in Heq. subst x.
    destruct (calculate_hash w (OsPath.join DOWNLOAD_DIR name)) as [h'|] eqn:Hhash.
    + destruct (getmtime w (OsPath.join DOWNLOAD_DIR name)) as [t'|] eqn:Ht.
      * destruct (scanned_as w name h') eqn:Hscan.
        -- split.
           ++ intros [= <- <-]. auto.
           ++ intros (_ & Hs & [= <-]).
              rewrite (scanned_as_one_hash w name h h' Hs Hscan). reflexivity.
        -- split; [discriminate|]. intros (_ & Hs & _).
           pose proof (scanned_as_fields w name h Hs) as (_ & _ & _ & Hh).
           assert (h' = h) as -> by congruence.
           congruence.
      * split; [discriminate|]. intros (_ & _ & [=]).
    + split; [discriminate|]. intros (_ & Hs & _).
      apply scanned_as_fields in Hs as (_ & _ & _ & Hs). congruence.
  - split; [discriminate|]. intros (Hl & _). exfalso.
    assert (existsb (String.eqb name) listing = true) as Hex
      by (apply existsb_exists; exists name; split;
          [exact Hl | apply String.eqb_refl]).
    congruence.
Qed.

Lemma initial_scan_records_witness :
  scan_mod_db
    (populate_initial_hashes Startup.downloads_world Startup.listing
       Scenario.empty_db) !! "draft.txt"
  = Some ("5d41402a", 1%Q)
  /\ scan_mod_db
       (populate_initial_hashes Startup.downloads_world Startup.listing
          Scenario.empty_db) !! "tiny.txt"
     <> Some ("0cc175b9", 1%Q).
Proof.
  split.
  - apply (initial_scan_records Startup.downloads_world Scenario.empty_db
             Startup.listing "draft.txt" "5d41402a" 1%Q).
    + reflexivity.
    + split; [simpl; auto|]. split; vm_compute; reflexivity.
  - intros H.
    apply (initial_scan_records Startup.downloads_world Scenario.empty_db
             Startup.listing "tiny.txt" "0cc175b9" 1%Q) in H.
    + destruct H as (_ & H & _). vm_compute in H. discriminate.
    + reflexivity.
Defined.

Lemma file_type_stats_loop (w : world) (file_ext : string)
      (listing : list string) (acc : gmap string Z) :
  fold_left
    (fun (file_type_stats : gmap string Z) filename =>
       let file_path := OsPath.join DOWNLOAD_DIR filename in
       if (path_isfile w file_path && should_process_file w file_path)%bool then
         let file_ext := Py.lower (snd (OsPath.splitext filename)) in
         match file_type_stats !! file_ext with
         | Some n => <[ file_ext := (n + 1)%Z ]> file_type_stats
         | None => <[ file_ext := 1%Z ]> file_type_stats
         end
       else file_type_stats)
    listing acc !! file_ext
  = match List.length (List.filter (counted_as w file_ext) listing) with
    | O => acc !! file_ext
    | S n => Some (default 0%Z (acc !! file_ext) + Z.of_nat (S n))%Z
    end.
Proof.
  revert acc. induction listing as [|filename rest IH]; intros acc;
    [reflexivity|].
  cbn [fold_left List.filter]. rewrite IH. clear IH.
  unfold counted_as at 2. cbv zeta.
  destruct (path_isfile w (OsPath.join DOWNLOAD_DIR filename)
            && should_process_file w (OsPath.join DOWNLOAD_DIR filename))%bool;
    [|reflexivity].
  cbn [andb].
  destruct (String.eqb_spec (Py.lower (snd (OsPath.splitext filename))) file_ext)
    as [->|Hne].
  - cbn [List.length].
    destruct (acc !! file_ext) as [n|] eqn:Hacc;
      rewrite lookup_insert_eq; cbn [default]; unfold id;
      destruct (List.length (List.filter _ rest)); f_equal; lia.
  - destruct (acc !! Py.lower (snd (OsPath.splitext filename))) eqn:Hacc;
      cbv iota; rewrite lookup_insert_ne by exact Hne; reflexivity.
Qed.

(** X19. After [update_file_type_stats], the count kept under an extension
    is the number of listed names that are files passing the filter and
    carry that extension in lower case; an extension no such file carries
    has no entry, so no count is ever zero. *)
Theorem file_type_stats_counts (w : world) (listing : list string)
        (file_ext : string) :
  update_file_type_stats w listing !! file_ext
  = match List.length (List.filter (counted_as w file_ext) listing) with
    | O => None
    | S n => Some (Z.of_nat (S n))
    end.
Proof.
  unfold update_file_type_stats. rewrite file_type_stats_loop.
  rewrite lookup_empty. reflexivity.
Qed.

Section ScanFacts.

Import SimilarContent.

Variable sha256_of : string -> option string.
Variable ratio : string -> string -> Q.

Lemma group_of_append (k file_hash file_path : string)
      (file_hashes : list (string * list string)) :
  group_of k (group_append file_hash file_path file_hashes)
  = if String.eqb file_hash k
    then Some (default [] (group_of file_hash file_hashes) ++ [file_path])
    else group_of k file_hashes.
Proof.
  induction file_hashes as [|[k' paths] rest IH]; cbn [group_append group_of].
  - destruct (String.eqb file_hash k); reflexivity.
  - destruct (String.eqb_spec k' file_hash) as [->|Hne]; cbn [group_of].
    + destruct (String.eqb file_hash k); reflexivity.
    + rewrite IH. destruct (String.eqb_spec file_hash k) as [<-|Hk].
      * destruct (String.eqb_spec k' file_hash); [contradiction | reflexivity].
      * destruct (String.eqb k' k); reflexivity.
Qed.

Lemma group_append_keys (file_hash file_path : string)
      (file_hashes : list (string * list string)) (k : string) :
  In k (map fst (group_append file_hash file_path file_hashes))
  -> k = file_hash \/ In k (map fst file_hashes).
Proof.
  induction file_hashes as [|[k' paths] rest IH]; cbn [group_append].
  - intros [<-|[]]. left. reflexivity.
  - destruct (String.eqb k' file_hash); cbn [map fst In].
    + intros [<-|H]; right; [left | right]; auto.
    + intros [<-|H]; [right; left; reflexivity|].
      destruct (IH H) as [->|Hin]; [left | right; right]; auto.
Qed.

Lemma group_append_unique (file_hash file_path : string)
      (file_hashes : list (string * list string)) :
  List.NoDup (map fst file_hashes) ->
  List.NoDup (map fst (group_append file_hash file_path file_hashes)).
Proof.
  induction file_hashes as [|[k' paths] rest IH]; cbn [group_append].
  - intros _. repeat constructor. intros [].
  - intros Hnd. inversion Hnd as [|? ? Hout Hrest]; subst.
    destruct (String.eqb_spec k' file_hash) as [->|Hne]; cbn [map fst].
    + constructor; assumption.
    + constructor; [|apply IH; exact Hrest].
      intros Hin. apply group_append_keys in Hin as [->|Hin]; contradiction.
Qed.

Lemma group_of_member (k : string) (paths : list string)
      (file_hashes : list (string * list string)) :
  List.NoDup (map fst file_hashes) ->
  In (k, paths) file_hashes <-> group_of k file_hashes = Some paths.
Proof.
  induction file_hashes as [|[k' paths'] rest IH]; cbn [group_of map fst In].
  - intros _. split; [intros [] | discriminate].
  - intros Hnd. inversion Hnd as [|? ? Hout Hrest]; subst.
    destruct (String.eqb_spec k' k) as [->|Hne].
    + split.
      * intros [[= ->]|Hin]; [reflexivity|].
        exfalso. apply Hout. apply in_map_iff. exists (k, paths). auto.
      * intros [= ->]. left. reflexivity.
    + rewrite <- (IH Hrest). split.
      * intros [[= -> ->]|Hin]; [contradiction | exact Hin].
      * intros Hin. right. exact Hin.
Qed.

Lemma filter_snoc {A : Type} (f : A -> bool) (l : list A) (x : A) :
  List.filter f (l ++ [x]) = List.filter f l ++ (if f x then [x] else []).
Proof. rewrite List.filter_app. reflexivity. Qed.

Lemma grouped_step (seen : list string)
      (file_hashes : list (string * list string)) (file_path : string) :
  grouped sha256_of seen file_hashes ->
  grouped sha256_of (seen ++ [file_path])
          (group_file sha256_of file_hashes file_path).
Proof.
  intros [Hnd Hget]. unfold group_file.
  destruct (sha256_of file_path) as [h|] eqn:Hhash.
  - assert (forall k, has_hash sha256_of k file_path = String.eqb h k) as Hhas
      by (intros k; unfold has_hash; rewrite Hhash; reflexivity).
    destruct (String.eqb_spec h empty_file_hash) as [->|Hne].
    + split; [exact Hnd|]. intros k. rewrite Hget, filter_snoc, Hhas.
      destruct (String.eqb_spec k empty_file_hash) as [->|Hk]; [reflexivity|].
      destruct (String.eqb_spec empty_file_hash k); [congruence|].
      rewrite app_nil_r. reflexivity.
    + split; [apply group_append_unique; exact Hnd|].
      intros k. rewrite group_of_append, filter_snoc, Hhas.
      destruct (String.eqb_spec h k) as [<-|Hk].
      * destruct (String.eqb_spec h empty_file_hash); [contradiction|].
        rewrite Hget.
        destruct (String.eqb_spec h empty_file_hash); [contradiction|].
        destruct (List.filter (has_hash sha256_of h) seen); reflexivity.
      * rewrite Hget, app_nil_r. reflexivity.
  - assert (forall k, has_hash sha256_of k file_path = false) as Hhas
      by (intros k; unfold has_hash; rewrite Hhash; reflexivity).
    split; [exact Hnd|]. intros k. rewrite Hget, filter_snoc, Hhas, app_nil_r.
    reflexivity.
Qed.

Lemma grouped_fold (walked seen : list string)
      (file_hashes : list (string * list string)) :
  grouped sha256_of seen file_hashes ->
  grouped sha256_of (seen ++ walked)
          (fold_left (group_file sha256_of) walked file_hashes).
Proof.
  revert seen file_hashes.
  induction walked as [|file_path walked IH]; intros seen file_hashes H.
  - rewrite app_nil_r. exact H.
  - cbn [fold_left].
    replace (seen ++ file_path :: walked) with ((seen ++ [file_path]) ++ walked)
      by (rewrite <- app_assoc; reflexivity).
    apply IH, grouped_step, H.
Qed.

Lemma first_pass_grouped (walked : list string) :
  grouped sha256_of walked (first_pass sha256_of walked).
Proof.
  apply (grouped_fold walked [] []). split.
  - constructor.
  - intros k. cbn. destruct (String.eqb k empty_file_hash); reflexivity.
Qed.

Lemma in_duplicate_groups (walked group : list string) :
  In group (duplicate_groups sha256_of walked)
  <-> exists file_hash,
        file_hash <> empty_file_hash
        /\ group = List.filter (has_hash sha256_of file_hash) walked
        /\ (2 <= List.length group)%nat.
Proof.
  destruct (first_pass_grouped walked) as [Hnd Hget].
  unfold duplicate_groups. rewrite List.filter_In, in_map_iff. split.
  - intros [([k paths] & <- & Hin) Hlen]. cbn [snd] in *.
    apply (group_of_member k paths _ Hnd) in Hin. rewrite Hget in Hin.
    exists k. destruct (String.eqb_spec k empty_file_hash); [discriminate|].
    split; [assumption|]. split.
    + destruct (List.filter (has_hash sha256_of k) walked); congruence.
    + apply Nat.ltb_lt in Hlen. lia.
  - intros (k & Hk & -> & Hlen). split.
    + exists (k, List.filter (has_hash sha256_of k) walked). split; [reflexivity|].
      apply (group_of_member _ _ _ Hnd). rewrite Hget.
      destruct (String.eqb_spec k empty_file_hash); [contradiction|].
      destruct (List.filter (has_hash sha256_of k) walked);
        [cbn in Hlen; lia | reflexivity].
    + apply Nat.ltb_lt. lia.
Qed.

(** X20. Without the name check, the groups [find_duplicates] returns are
    exactly the classes of readable files that share a hash other than
    the hash of the empty file and have at least two members; a group
    lists all files of its class in the order of the walk. An unreadable
    file and an empty file are in no group. *)
Theorem content_groups_are_hash_classes
        (walked group : list string) (name_similarity_threshold : Q) :
  In group (find_duplicates sha256_of ratio walked false name_similarity_threshold)
  <-> exists file_hash,
        file_hash <> empty_file_hash
        /\ group = List.filter (has_hash sha256_of file_hash) walked
        /\ (2 <= List.length group)%nat.
Proof. unfold find_duplicates. cbn [negb]. apply in_duplicate_groups. Qed.

Lemma inner_loop_added (name_similarity_threshold : Q) (name1 : string)
      (rest current_group : list string) (processed : gset string) :
  exists added,
    fst (inner_loop ratio name_similarity_threshold name1 rest
           current_group processed)
    = current_group ++ added
    /\ forall other, In other added ->
         In other rest
         /\ (name_similarity_threshold
             <= name_similarity ratio name1 (OsPath.basename other))%Q.
Proof.
  revert current_group processed.
  induction rest as [|path2 rest IH]; intros current_group processed;
    cbn [inner_loop].
  - exists []. rewrite app_nil_r. split; [reflexivity | intros ? []].
  - destruct (bool_decide (path2 ∈ processed)).
    + destruct (IH current_group processed) as (added & -> & Hadded).
      exists added. split; [reflexivity|].
      intros other Hin. destruct (Hadded other Hin). split; [right|]; assumption.
    + cbv zeta.
      destruct (Qle_bool name_similarity_threshold
                  (name_similarity ratio name1 (OsPath.basename path2))) eqn:Hle.
      * destruct (IH (current_group ++ [path2]) (processed ∪ {[ path2 ]}))
          as (added & -> & Hadded).
        exists (path2 :: added). split.
        -- rewrite <- app_assoc. reflexivity.
        -- intros other [<-|Hin].
           ++ split; [left; reflexivity|]. apply Qle_bool_iff. exact Hle.
           ++ destruct (Hadded other Hin). split; [right|]; assumption.
      * destruct (IH current_group processed) as (added & -> & Hadded).
        exists added. split; [reflexivity|].
        intros other Hin. destruct (Hadded other Hin). split; [right|]; assumption.
Qed.

Lemma outer_loop_groups (name_similarity_threshold : Q)
      (content group : list string) (processed : gset string)
      (similar_name_groups : list (list string)) :
  incl group content ->
  (forall g, In g similar_name_groups ->
             star_shaped ratio name_similarity_threshold g /\ incl g content) ->
  forall g,
    In g (outer_loop ratio name_similarity_threshold group processed
            similar_name_groups) ->
    star_shaped ratio name_similarity_threshold g /\ incl g content.
Proof.
  revert processed similar_name_groups.
  induction group as [|path1 rest IH]; intros processed acc Hincl Hacc;
    cbn [outer_loop]; [exact Hacc|].
  assert (incl rest content) as Hrest
    by (intros x Hx; apply Hincl; right; exact Hx).
  destruct (bool_decide (path1 ∈ processed)); [apply IH; assumption|].
  cbv zeta.
  destruct (inner_loop_added name_similarity_threshold (OsPath.basename path1)
              rest [path1] processed) as (added & Hcur & Hadded).
  destruct (inner_loop ratio name_similarity_threshold (OsPath.basename path1)
              rest [path1] processed) as [current_group processed'].
  cbn [fst] in Hcur. subst current_group.
  apply IH; [exact Hrest|].
  destruct (1 <? List.length ([path1] ++ added))%nat eqn:Hlen; [|exact Hacc].
  intros g Hg. apply in_app_or in Hg as [Hg|[<-|[]]]; [apply Hacc; exact Hg|].
  split.
  - cbn [app star_shaped]. split.
    + destruct added; [discriminate Hlen | discriminate].
    + intros other Hin. apply Hadded. exact Hin.
  - intros x [<-|Hx].
    + apply Hincl. left. reflexivity.
    + apply Hrest. apply Hadded. exact Hx.
Qed.

(** X21. With the name check, every group [find_duplicates] returns lies
    inside one group of content duplicates, has a first path and at least
    one more, and each of the further paths has a base name whose
    similarity to that of the first path reaches the threshold. The
    further paths are compared with the first one only, not with each
    other. *)
Theorem name_groups_compare_with_first
        (walked group : list string) (name_similarity_threshold : Q) :
  In group (find_duplicates sha256_of ratio walked true name_similarity_threshold)
  -> star_shaped ratio name_similarity_threshold group
     /\ exists content,
          In content
             (find_duplicates sha256_of ratio walked false
                name_similarity_threshold)
          /\ incl group content.
Proof.
  unfold find_duplicates. cbn [negb]. intros Hin.
  apply in_flat_map in Hin as (content & Hcontent & Hin).
  apply (outer_loop_groups name_similarity_threshold content) in Hin.
  - destruct Hin as [Hstar Hincl]. split; [exact Hstar|].
    exists content. split; assumption.
  - intros x Hx. exact Hx.
  - intros g [].
Qed.

Lemma has_hash_one (h1 h2 file_path : string) :
  has_hash sha256_of h1 file_path = true ->
  has_hash sha256_of h2 file_path = true -> h1 = h2.
Proof.
  unfold has_hash. destruct (sha256_of file_path) as [h|]; [|discriminate].
  intros H1 H2. apply String.eqb_eq in H1, H2. congruence.
Qed.

(** X22. Without the name check no path is reported twice: two groups
    that have a path in common are the same group. *)
Theorem content_groups_share_no_path
        (walked group1 group2 : list string) (file_path : string)
        (name_similarity_threshold : Q) :
  In group1 (find_duplicates sha256_of ratio walked false name_similarity_threshold)
  -> In group2 (find_duplicates sha256_of ratio walked false
                  name_similarity_threshold)
  -> In file_path group1 -> In file_path group2 -> group1 = group2.
Proof.
  unfold find_duplicates. cbn [negb]. intros H1 H2 Hp1 Hp2.
  apply in_duplicate_groups in H1 as (h1 & _ & -> & _).
  apply in_duplicate_groups in H2 as (h2 & _ & -> & _).
  apply List.filter_In in Hp1 as [_ Hp1]. apply List.filter_In in Hp2 as [_ Hp2].
  rewrite (has_hash_one h1 h2 file_path Hp1 Hp2). reflexivity.
Qed.

End ScanFacts.

Lemma name_groups_compare_with_first_witness :
  SimilarContent.star_shaped SimilarContent.Tree.ratio (8 # 10)
    [SimilarContent.Tree.report; SimilarContent.Tree.report_copy]
  /\ exists content,
       In content
          (SimilarContent.find_duplicates SimilarContent.Tree.sha256_of
             SimilarContent.Tree.ratio SimilarContent.Tree.walked false (8 # 10))
       /\ incl [SimilarContent.Tree.report; SimilarContent.Tree.report_copy]
               content.
Proof.
  apply (name_groups_compare_with_first SimilarContent.Tree.sha256_of
           SimilarContent.Tree.ratio SimilarContent.Tree.walked).
  vm_compute. left. reflexivity.
Defined.

Lemma content_groups_share_no_path_witness :
  [SimilarContent.Tree.report; SimilarContent.Tree.minutes;
   SimilarContent.Tree.report_copy]
  = [SimilarContent.Tree.report; SimilarContent.Tree.minutes;
     SimilarContent.Tree.report_copy].
Proof.
  apply (content_groups_share_no_path SimilarContent.Tree.sha256_of
           SimilarContent.Tree.ratio SimilarContent.Tree.walked _ _
           SimilarContent.Tree.minutes (8 # 10)).
  - vm_compute. left. reflexivity.
  - vm_compute. left. reflexivity.
  - right. left. reflexivity.
  - right. left. reflexivity.
Defined.
